(** * ContinueMKGC: the UNIMO encoder with shared attention keys

    A shallow embedding of [MNER/models/modeling_unimo.py]: the tensor
    primitives the file uses, the class-level state of [ShareKey],
    [AttentionReg], [BertSelfAttention] and [BertEmbeddings], the two
    attention modules, the dual-stream encoder and the model's forward pass.

    Conventions.
    - A tensor is a shape together with its elements in row-major order;
      strides and contiguity are not represented.
    - The class attributes the Python code mutates are fields of one record,
      [globals], threaded through a state-and-exception monad; the state
      survives a raised exception, as it does in Python.
    - [torch.nn] modules with learned parameters ([nn.Linear],
      [nn.LayerNorm], [nn.Dropout], activations, [softmax]) are functions
      [tensor -> result tensor] carried by the module records.
    - Element arithmetic is a type class, instantiated at [Z] to run the
      model on concrete inputs, at [R] where the values are 0 and 1, and at
      IEEE 754 single precision, the element type of the tensors
      [AttentionReg.cal_loss] receives. *)

From Stdlib Require Import String.
From Stdlib Require Import List ZArith Lia Bool Arith.
From Stdlib Require Import Reals Lra SpecFloat.
Import ListNotations.

Set Implicit Arguments.

(** ** Python exceptions and results *)

Inductive exn : Type :=
| AssertionError
| ValueError
| IndexError
| TypeError
| ZeroDivisionError
| RuntimeError.

Inductive result (X : Type) : Type :=
| Ok (x : X)
| Raise (e : exn).

Arguments Ok {X} x.
Arguments Raise {X} e.

Definition rbind {X Y} (r : result X) (k : X -> result Y) : result Y :=
  match r with
  | Ok x => k x
  | Raise e => Raise e
  end.

Declare Scope res_scope.
Delimit Scope res_scope with res.
Notation "x <-- c ;; k" := (rbind c (fun x => k))
  (at level 61, c at next level, right associativity) : res_scope.

(** [l[i]] on a Python list: negative indices count from the end. *)
Definition py_index {X} (l : list X) (i : Z) : result X :=
  let n := Z.of_nat (length l) in
  let j := if (i <? 0)%Z then (i + n)%Z else i in
  if ((0 <=? j) && (j <? n))%Z then
    match nth_error l (Z.to_nat j) with
    | Some x => Ok x
    | None => Raise IndexError
    end
  else Raise IndexError.

(** [l[i]] where [l] may be [None]. *)
Definition py_index_opt {X} (l : option (list X)) (i : Z) : result X :=
  match l with
  | Some l => py_index l i
  | None => Raise TypeError
  end.

(** ** Element arithmetic *)

Class Scalar (A : Type) : Type := {
  szero : A;
  sone : A;
  sadd : A -> A -> A;
  ssub : A -> A -> A;
  smul : A -> A -> A;
  sdiv : A -> A -> A;
  sltb : A -> A -> bool;
  ssqrt : A -> A;
  of_Z : Z -> A;
  to_long : A -> A
}.

(** Integer elements: used to run the model on concrete inputs. *)
#[export] Instance Scalar_Z : Scalar Z := {
  szero := 0%Z;
  sone := 1%Z;
  sadd := Z.add;
  ssub := Z.sub;
  smul := Z.mul;
  sdiv := Z.quot;
  sltb := Z.ltb;
  ssqrt := Z.sqrt;
  of_Z := fun z => z;
  to_long := fun z => z
}.

(** ** Shapes and indices *)

Definition numel (s : list nat) : nat := fold_right Nat.mul 1 s.

(** Row-major offset of a multi-index. *)
Fixpoint flat (s idx : list nat) : nat :=
  match s, idx with
  | _ :: s', i :: idx' => i * numel s' + flat s' idx'
  | _, _ => 0
  end.

(** All multi-indices of a shape, in row-major order. *)
Fixpoint indices (s : list nat) : list (list nat) :=
  match s with
  | [] => [[]]
  | n :: s' => flat_map (fun i => map (cons i) (indices s')) (seq 0 n)
  end.

(** [idx] is a valid index of shape [s]. *)
Definition in_shape (s idx : list nat) : Prop := Forall2 lt idx s.

(** A dimension argument, negative values counting from the last one. *)
Definition norm_dim (rank : nat) (d : Z) : result nat :=
  let r := Z.of_nat rank in
  if ((0 <=? d) && (d <? r))%Z then Ok (Z.to_nat d)
  else if ((d <? 0) && (0 <=? d + r))%Z then Ok (Z.to_nat (d + r))
  else Raise IndexError.

(** Broadcasting of two dimensions, then of two shapes aligned at the right
    (both given last dimension first). *)
Definition bdim (n m : nat) : option nat :=
  if n =? m then Some n
  else if n =? 1 then Some m
  else if m =? 1 then Some n
  else None.

Fixpoint bshape_rev (s1 s2 : list nat) : option (list nat) :=
  match s1, s2 with
  | [], _ => Some s2
  | _, [] => Some s1
  | n :: s1', m :: s2' =>
      match bdim n m, bshape_rev s1' s2' with
      | Some k, Some r => Some (k :: r)
      | _, _ => None
      end
  end.

Definition broadcast_shapes (s1 s2 : list nat) : option (list nat) :=
  option_map (@rev nat) (bshape_rev (rev s1) (rev s2)).

Fixpoint map2 {X Y W} (f : X -> Y -> W) (xs : list X) (ys : list Y) : list W :=
  match xs, ys with
  | x :: xs', y :: ys' => f x y :: map2 f xs' ys'
  | _, _ => []
  end.

(** The index into an operand of shape [s] that a result index [idx] reads:
    leading result dimensions are dropped, dimensions of size 1 read 0. *)
Definition bidx (s idx : list nat) : list nat :=
  map2 (fun n i => if n =? 1 then 0 else i) s
       (skipn (length idx - length s) idx).

(** ** Tensors *)

Section Tensors.

Context {A : Type} `{Scalar A}.

Record tensor : Type := mkT { shape : list nat; data : list A }.

Definition wf (t : tensor) : Prop := length (data t) = numel (shape t).

Definition get (t : tensor) (idx : list nat) : A :=
  nth (flat (shape t) idx) (data t) szero.

Definition build (s : list nat) (f : list nat -> A) : tensor :=
  mkT s (map f (indices s)).

Definition dim (t : tensor) : nat := length (shape t).

(** [t.shape[i]] *)
Definition shape_at (t : tensor) (i : Z) : result nat := py_index (shape t) i.

(** [sum_{d < k} f d * g d], accumulated from [d = 0]. *)
Definition dot (k : nat) (f g : nat -> A) : A :=
  fold_left (fun acc d => sadd acc (smul (f d) (g d))) (seq 0 k) szero.


(** *** [view] and [reshape]

    The requested sizes may hold one [-1], inferred from the number of
    elements; torch refuses the inference when the known sizes multiply to
    zero. *)
Definition count_minus1 (sizes : list Z) : nat :=
  length (filter (fun z => (z =? -1)%Z) sizes).

Definition known_numel (sizes : list Z) : nat :=
  fold_right (fun z acc => if (z =? -1)%Z then acc else Z.to_nat z * acc) 1 sizes.

Definition infer_sizes (n : nat) (sizes : list Z) : result (list nat) :=
  if existsb (fun z => (z <? -1)%Z) sizes then Raise RuntimeError
  else match count_minus1 sizes with
       | 0 => if known_numel sizes =? n
              then Ok (map Z.to_nat sizes) else Raise RuntimeError
       | 1 => let p := known_numel sizes in
              if (0 <? p) && (n mod p =? 0)
              then Ok (map (fun z => if (z =? -1)%Z then n / p else Z.to_nat z) sizes)
              else Raise RuntimeError
       | _ => Raise RuntimeError
       end.

Definition view (t : tensor) (sizes : list Z) : result tensor :=
  (s <-- infer_sizes (numel (shape t)) sizes ;;
   Ok (mkT s (data t)))%res.

Definition reshape (t : tensor) (sizes : list Z) : result tensor :=
  view t sizes.

(** [t.contiguous()]: the elements are already kept in logical order. *)
Definition contiguous (t : tensor) : tensor := t.

(** *** Dimension shuffles *)

Definition swap_at (d1 d2 : nat) (l : list nat) : list nat :=
  map (fun i => nth (if i =? d1 then d2 else if i =? d2 then d1 else i) l 0)
      (seq 0 (length l)).

Definition transpose (t : tensor) (d1 d2 : Z) : result tensor :=
  (a <-- norm_dim (dim t) d1 ;;
   b <-- norm_dim (dim t) d2 ;;
   Ok (build (swap_at a b (shape t)) (fun idx => get t (swap_at a b idx))))%res.

Fixpoint index_of (j : nat) (l : list nat) : nat :=
  match l with
  | [] => 0
  | x :: l' => if x =? j then 0 else S (index_of j l')
  end.

Definition is_perm (dims : list nat) (rank : nat) : bool :=
  (length dims =? rank) && forallb (fun j => existsb (Nat.eqb j) dims) (seq 0 rank).

Definition permute (t : tensor) (dims : list nat) : result tensor :=
  if is_perm dims (dim t) then
    Ok (build (map (fun d => nth d (shape t) 0) dims)
              (fun idx => get t (map (fun j => nth (index_of j dims) idx 0)
                                     (seq 0 (dim t)))))
  else Raise RuntimeError.

(** [t.unsqueeze(d)] for [0 <= d <= dim t]. *)
Definition unsqueeze (t : tensor) (d : nat) : result tensor :=
  if d <=? dim t
  then Ok (mkT (firstn d (shape t) ++ 1 :: skipn d (shape t)) (data t))
  else Raise IndexError.

Definition insert_at (d k : nat) (idx : list nat) : list nat :=
  firstn d idx ++ k :: skipn d idx.

Definition remove_at (d : nat) (s : list nat) : list nat :=
  firstn d s ++ skipn (S d) s.


(** [t.select(d, i)], the slice [t[:, i]] for [d = 1]. *)
Definition select (t : tensor) (d : nat) (i : nat) : result tensor :=
  if (d <? dim t) && (i <? nth d (shape t) 0)
  then Ok (build (remove_at d (shape t)) (fun idx => get t (insert_at d i idx)))
  else Raise IndexError.

(** [t[:, lo:hi]] on the second dimension, bounds clipped as Python does. *)
Definition slice1 (t : tensor) (lo hi : nat) : result tensor :=
  match shape t with
  | n0 :: n1 :: rest =>
      let hi' := Nat.min hi n1 in
      let lo' := Nat.min lo hi' in
      Ok (build (n0 :: (hi' - lo') :: rest)
                (fun idx => match idx with
                            | i0 :: i1 :: r => get t (i0 :: (lo' + i1) :: r)
                            | _ => szero
                            end))
  | _ => Raise IndexError
  end.

(** *** Elementwise operations with broadcasting *)

Definition broadcast2 (f : A -> A -> A) (a b : tensor) : result tensor :=
  match broadcast_shapes (shape a) (shape b) with
  | Some s => Ok (build s (fun idx => f (get a (bidx (shape a) idx))
                                        (get b (bidx (shape b) idx))))
  | None => Raise RuntimeError
  end.

Definition tadd : tensor -> tensor -> result tensor := broadcast2 sadd.
Definition tmul : tensor -> tensor -> result tensor := broadcast2 smul.

(** [a += b]: the sum must have the shape of [a]. *)
Definition tadd_inplace (a b : tensor) : result tensor :=
  match broadcast_shapes (shape a) (shape b) with
  | Some s => if list_eq_dec Nat.eq_dec s (shape a) then tadd a b
              else Raise RuntimeError
  | None => Raise RuntimeError
  end.

Definition tmap (f : A -> A) (t : tensor) : tensor :=
  mkT (shape t) (map f (data t)).

(** [torch.ones(s)] *)
Definition ones (s : list nat) : tensor := build s (fun _ => sone).

(** [torch.zeros(s)] *)
Definition zeros (s : list nat) : tensor := build s (fun _ => szero).

Fixpoint expandable_rev (s sizes : list nat) : bool :=
  match s, sizes with
  | [], _ => true
  | _ :: _, [] => false
  | n :: s', m :: sizes' => ((n =? m) || (n =? 1)) && expandable_rev s' sizes'
  end.

(** [t.expand] applied to the sizes, all sizes given explicitly. *)
Definition expand (t : tensor) (sizes : list nat) : result tensor :=
  if expandable_rev (rev (shape t)) (rev sizes)
  then Ok (build sizes (fun idx => get t (bidx (shape t) idx)))
  else Raise RuntimeError.

(** *** Products *)

(** [torch.matmul] on operands of rank at least two: the leading (batch)
    dimensions broadcast, the last two multiply as matrices.  The program
    never multiplies vectors; those ranks raise here. *)
Definition matmul (a b : tensor) : result tensor :=
  match rev (shape a), rev (shape b) with
  | k :: m :: ba, p :: k' :: bb =>
      if k =? k' then
        match bshape_rev ba bb with
        | Some bs =>
            let batch := rev bs in
            let r := length batch in
            Ok (build (batch ++ [m; p])
                      (fun idx =>
                         let bi := firstn r idx in
                         let i := nth r idx 0 in
                         let j := nth (S r) idx 0 in
                         dot k (fun d => get a (bidx (rev ba) bi ++ [i; d]))
                               (fun d => get b (bidx (rev bb) bi ++ [d; j]))))
        | None => Raise RuntimeError
        end
      else Raise RuntimeError
  | _, _ => Raise RuntimeError
  end.

(** [torch.bmm]: both operands of rank three, equal batch sizes. *)
Definition bmm (a b : tensor) : result tensor :=
  match shape a, shape b with
  | [n; m; k], [n'; k'; p] =>
      if (n =? n') && (k =? k') then
        Ok (build [n; m; p]
                  (fun idx => dot k (fun d => get a [nth 0 idx 0; nth 1 idx 0; d])
                                    (fun d => get b [nth 0 idx 0; d; nth 2 idx 0])))
      else Raise RuntimeError
  | _, _ => Raise RuntimeError
  end.

(** [torch.cat((a, b), dim=-1)] *)
Definition cat_last (a b : tensor) : result tensor :=
  match rev (shape a), rev (shape b) with
  | n :: ra, m :: rb =>
      if list_eq_dec Nat.eq_dec ra rb then
        let r := length ra in
        Ok (build (rev ra ++ [n + m])
                  (fun idx =>
                     let j := nth r idx 0 in
                     if j <? n then get a idx
                     else get b (firstn r idx ++ [j - n])))
      else Raise RuntimeError
  | _, _ => Raise RuntimeError
  end.

End Tensors.

Arguments tensor A : clear implicits.

(** ** Class-level state and the monad of the program *)

Section Program.

Context {A : Type} `{Scalar A}.

(** The copy of the model that [AttentionReg.old_model] keeps. *)
Variable Model : Type.

Local Abbreviation tensor := (tensor A).

(** A [torch.nn] module applied to one tensor. *)
Definition nn_module : Type := tensor -> result tensor.

(** [nn.BatchNorm2d(num_features)]; [ShareKey] stores these and never
    applies them. *)
Inductive BatchNorm2d : Type := mkBatchNorm2d (num_features : nat).

(** The attributes of class [ShareKey] that its methods read, as they stand
    after [ShareKey.init()]; the parameter lists can be [None] once
    [AttentionReg.change_ShareKey] has swapped them. *)
Record ShareKey_cls : Type := {
  num_heads : nat;
  head_dim : nat;
  key : option (list tensor);
  vision_bias : option (list tensor);
  text_bias : option (list tensor);
  text_bn : option (list BatchNorm2d);
  vision_bn : option (list BatchNorm2d)
}.

Record AttentionReg_cls : Type := {
  old_model : option Model;
  old_key : option (list tensor);
  old_text_bias : option (list tensor);
  old_vision_bias : option (list tensor);
  attention_text_list : list tensor;
  attention_vision_list : list tensor;
  zero : tensor
}.

Record globals : Type := {
  ShareKey : ShareKey_cls;
  AttentionReg : AttentionReg_cls;
  (** [BertSelfAttention.MODIFY] *)
  MODIFY : bool;
  (** [BertEmbeddings.embedding] *)
  embedding : option tensor
}.

Definition M (X : Type) : Type := globals -> result X * globals.

Definition ret {X} (x : X) : M X := fun g => (Ok x, g).

Definition bind {X Y} (c : M X) (k : X -> M Y) : M Y :=
  fun g => match c g with
           | (Ok x, g') => k x g'
           | (Raise e, g') => (Raise e, g')
           end.

Definition lift {X} (r : result X) : M X := fun g => (r, g).

Definition raise {X} (e : exn) : M X := fun g => (Raise e, g).

Definition getg : M globals := fun g => (Ok g, g).

Definition putg (g : globals) : M unit := fun _ => (Ok tt, g).

Definition assert (b : bool) : M unit :=
  if b then ret tt else raise AssertionError.

Definition rassert (b : bool) : result unit :=
  if b then Ok tt else Raise AssertionError.

Declare Scope monad_scope.
Delimit Scope monad_scope with monad.
Notation "x <- c ;; k" := (bind c (fun x => k))
  (at level 61, c at next level, right associativity) : monad_scope.
Notation "c ;;; k" := (bind c (fun _ => k))
  (at level 61, right associativity) : monad_scope.

Local Open Scope monad_scope.

(** A Python tuple whose items are tensors or [None]. *)
Definition tuple : Type := list (option tensor).

Definition as_tensor (x : option tensor) : result tensor :=
  match x with
  | Some t => Ok t
  | None => Raise TypeError
  end.

(** ** [ShareKey] *)

Definition in_strings (x : string) (l : list string) : bool :=
  existsb (String.eqb x) l.

(** [ShareKey.cal_attention(query_states, layer, modality, shape)].  The
    method only reads the class attributes, so [cls] is an argument. *)
Definition ShareKey_cal_attention (cls : ShareKey_cls) (query_states : tensor)
    (layer : Z) (modality : string) (shape_ : Z) : result tensor :=
  (_ <-- rassert (in_strings modality ["text"; "vision"]%string) ;;
   _ <-- rassert ((shape_ =? 3) || (shape_ =? 4))%Z ;;
   query_states <--
     (if (shape_ =? 4)%Z then
        s0 <-- shape_at query_states 0 ;;
        s1 <-- shape_at query_states 1 ;;
        s2 <-- shape_at query_states 2 ;;
        s3 <-- shape_at query_states 3 ;;
        reshape query_states [Z.of_nat (s0 * s1); Z.of_nat s2; Z.of_nat s3]
      else Ok query_states) ;;
   n0 <-- shape_at query_states 0 ;;
   _ <-- (if num_heads cls =? 0 then Raise ZeroDivisionError else Ok tt) ;;
   _ <-- rassert (n0 mod num_heads cls =? 0) ;;
   let bsz := n0 / num_heads cls in
   query_states <-- view query_states
     [Z.of_nat bsz; Z.of_nat (num_heads cls); (-1)%Z; Z.of_nat (head_dim cls)] ;;
   bias <-- (if String.eqb modality "vision"
             then py_index_opt (vision_bias cls) layer
             else py_index_opt (text_bias cls) layer) ;;
   bn <-- (if String.eqb modality "vision"
           then py_index_opt (vision_bn cls) layer
           else py_index_opt (text_bn cls) layer) ;;
   k <-- py_index_opt (key cls) layer ;;
   attn_weights <-- matmul query_states k ;;
   s2 <-- shape_at attn_weights 2 ;;
   attn_weights <-- expand attn_weights [bsz; num_heads cls; s2; s2] ;;
   bias0 <-- unsqueeze bias 0 ;;
   attn_weights <-- tadd attn_weights bias0 ;;
   if (shape_ =? 3)%Z then
     s2 <-- shape_at attn_weights 2 ;;
     reshape attn_weights
       [Z.of_nat (bsz * num_heads cls); Z.of_nat s2; Z.of_nat s2]
   else Ok attn_weights)%res.

(** ** [AttentionReg] *)

Definition set_AttentionReg (g : globals) (a : AttentionReg_cls) : globals :=
  {| ShareKey := ShareKey g; AttentionReg := a;
     MODIFY := MODIFY g; embedding := embedding g |}.

(** [AttentionReg.clear_attention_list()] *)
Definition AttentionReg_clear_attention_list : M unit :=
  g <- getg ;;
  let a := AttentionReg g in
  putg (set_AttentionReg g
    {| old_model := old_model a; old_key := old_key a;
       old_text_bias := old_text_bias a; old_vision_bias := old_vision_bias a;
       attention_text_list := attention_text_list a;
       attention_vision_list := [];
       zero := zero a |}) ;;;
  g <- getg ;;
  let a := AttentionReg g in
  putg (set_AttentionReg g
    {| old_model := old_model a; old_key := old_key a;
       old_text_bias := old_text_bias a; old_vision_bias := old_vision_bias a;
       attention_text_list := [];
       attention_vision_list := attention_vision_list a;
       zero := zero a |}).

(** [AttentionReg.attention_vision_list.append(w)] *)
Definition append_attention_vision (w : tensor) : M unit :=
  g <- getg ;;
  let a := AttentionReg g in
  putg (set_AttentionReg g
    {| old_model := old_model a; old_key := old_key a;
       old_text_bias := old_text_bias a; old_vision_bias := old_vision_bias a;
       attention_text_list := attention_text_list a;
       attention_vision_list := attention_vision_list a ++ [w];
       zero := zero a |}).

(** [AttentionReg.attention_text_list.append(w)] *)
Definition append_attention_text (w : tensor) : M unit :=
  g <- getg ;;
  let a := AttentionReg g in
  putg (set_AttentionReg g
    {| old_model := old_model a; old_key := old_key a;
       old_text_bias := old_text_bias a; old_vision_bias := old_vision_bias a;
       attention_text_list := attention_text_list a ++ [w];
       attention_vision_list := attention_vision_list a;
       zero := zero a |}).

(** [AttentionReg.change_ShareKey()]: the three parameter lists of
    [ShareKey] and the three saved lists trade places. *)
Definition AttentionReg_change_ShareKey : M unit :=
  g <- getg ;;
  let _key := key (ShareKey g) in
  let _text_bias := text_bias (ShareKey g) in
  let _vision_bias := vision_bias (ShareKey g) in
  let s := ShareKey g in
  let a := AttentionReg g in
  putg
    {| ShareKey :=
         {| num_heads := num_heads s; head_dim := head_dim s;
            key := old_key a;
            vision_bias := old_vision_bias a;
            text_bias := old_text_bias a;
            text_bn := text_bn s; vision_bn := vision_bn s |};
       AttentionReg :=
         {| old_model := old_model a;
            old_key := _key;
            old_text_bias := _text_bias;
            old_vision_bias := _vision_bias;
            attention_text_list := attention_text_list a;
            attention_vision_list := attention_vision_list a;
            zero := zero a |};
       MODIFY := MODIFY g; embedding := embedding g |}.

Definition START_SHARE_LAYER : Z := 9.

(** ** Library functions the modules call *)

(** [nn.functional.softmax(x, dim)] and [nn.Softmax(dim)(x)] *)
Variable softmax : tensor -> Z -> result tensor.

(** [nn.functional.dropout(x, p, training)] *)
Variable F_dropout : tensor -> A -> bool -> result tensor.

(** [transformers.modeling_utils.apply_chunking_to_forward(forward_fn,
    chunk_size, chunk_dim, attention_output, None)] *)
Variable apply_chunking_to_forward :
  (tensor -> option tensor -> result tensor) ->
  nat -> nat -> tensor -> option tensor -> result tensor.

(** [x.size()] unpacked into three names. *)
Definition size3 (x : tensor) : result (nat * nat * nat) :=
  match shape x with
  | [a; b; c] => Ok (a, b, c)
  | _ => Raise ValueError
  end.

(** ** [CLIPAttention] *)

Record CLIPAttention : Type := {
  ca_num_heads : nat;
  ca_head_dim : nat;
  ca_scale : A;
  ca_dropout : A;
  ca_training : bool;
  k_proj : nn_module;
  v_proj : nn_module;
  q_proj : nn_module;
  out_proj : nn_module
}.

(** [CLIPAttention._shape(tensor, seq_len, bsz)] *)
Definition CLIPAttention__shape (self : CLIPAttention) (t : tensor)
    (seq_len : Z) (bsz : nat) : result tensor :=
  (v <-- view t [Z.of_nat bsz; seq_len; Z.of_nat (ca_num_heads self);
                 Z.of_nat (ca_head_dim self)] ;;
   w <-- transpose v 1 2 ;;
   Ok (contiguous w))%res.

(** The raw attention scores of [CLIPAttention.forward]: the branch on
    [layer < START_SHARE_LAYER]. *)
Definition CLIPAttention_scores (self : CLIPAttention) (layer : Z)
    (hidden_states query_states : tensor) (bsz : nat) (proj_shape : list Z)
    : M tensor :=
  if (layer <? START_SHARE_LAYER)%Z then
    lift (k <-- k_proj self hidden_states ;;
          key_states <-- CLIPAttention__shape self k (-1) bsz ;;
          key_states <-- view key_states proj_shape ;;
          kt <-- transpose key_states 1 2 ;;
          bmm query_states kt)%res
  else
    g <- getg ;;
    attn_weights <- lift (ShareKey_cal_attention (ShareKey g) query_states
                            layer "vision" 3) ;;
    append_attention_vision attn_weights ;;;
    ret attn_weights.

(** [CLIPAttention.forward(layer, hidden_states, output_attentions)]; the
    arguments [past_key_values] and [current_layer] are not used by the
    body. *)
Definition CLIPAttention_forward (self : CLIPAttention) (layer : Z)
    (hidden_states : tensor) (output_attentions : bool)
    : M (tensor * option tensor) :=
  sz <- lift (size3 hidden_states) ;;
  let '(bsz, tgt_len, embed_dim) := sz in
  q <- lift (q_proj self hidden_states) ;;
  let query_states := tmap (fun x => smul x (ca_scale self)) q in
  value_states <- lift (v <-- v_proj self hidden_states ;;
                        CLIPAttention__shape self v (-1) bsz)%res ;;
  let proj_shape :=
    [Z.of_nat (bsz * ca_num_heads self); (-1)%Z; Z.of_nat (ca_head_dim self)] in
  query_states <- lift (CLIPAttention__shape self query_states
                          (Z.of_nat tgt_len) bsz) ;;
  query_states <- lift (view query_states proj_shape) ;;
  value_states <- lift (view value_states proj_shape) ;;
  src_len <- lift (shape_at value_states 1) ;;
  attn_weights <- CLIPAttention_scores self layer hidden_states query_states
                    bsz proj_shape ;;
  (if list_eq_dec Nat.eq_dec (shape attn_weights)
        [bsz * ca_num_heads self; tgt_len; src_len]
   then ret tt else raise ValueError) ;;;
  attn_weights <- lift (softmax attn_weights (-1)) ;;
  aw <- (if output_attentions then
           lift (attn_weights_reshaped <-- view attn_weights
                   [Z.of_nat bsz; Z.of_nat (ca_num_heads self);
                    Z.of_nat tgt_len; Z.of_nat src_len] ;;
                 attn_weights <-- view attn_weights_reshaped
                   [Z.of_nat (bsz * ca_num_heads self);
                    Z.of_nat tgt_len; Z.of_nat src_len] ;;
                 Ok (attn_weights, Some attn_weights_reshaped))%res
         else ret (attn_weights, None)) ;;
  let '(attn_weights, attn_weights_reshaped) := aw in
  attn_probs <- lift (F_dropout attn_weights (ca_dropout self)
                        (ca_training self)) ;;
  attn_output <- lift (bmm attn_probs value_states) ;;
  (if list_eq_dec Nat.eq_dec (shape attn_output)
        [bsz * ca_num_heads self; tgt_len; ca_head_dim self]
   then ret tt else raise ValueError) ;;;
  attn_output <- lift (view attn_output
                         [Z.of_nat bsz; Z.of_nat (ca_num_heads self);
                          Z.of_nat tgt_len; Z.of_nat (ca_head_dim self)]) ;;
  attn_output <- lift (transpose attn_output 1 2) ;;
  attn_output <- lift (reshape attn_output
                         [Z.of_nat bsz; Z.of_nat tgt_len; Z.of_nat embed_dim]) ;;
  attn_output <- lift (out_proj self attn_output) ;;
  ret (attn_output, attn_weights_reshaped).

(** ** [CLIPMLP] *)

Record CLIPMLP : Type := {
  mlp_activation_fn : nn_module;
  mlp_fc1 : nn_module;
  mlp_fc2 : nn_module
}.

Definition CLIPMLP_forward (self : CLIPMLP) (hidden_states : tensor)
    : result tensor :=
  (hidden_states <-- mlp_fc1 self hidden_states ;;
   hidden_states <-- mlp_activation_fn self hidden_states ;;
   mlp_fc2 self hidden_states)%res.

(** ** [BertSelfAttention] *)

Record BertSelfAttention : Type := {
  num_attention_heads : nat;
  attention_head_size : nat;
  all_head_size : nat;
  bsa_query : nn_module;
  bsa_key : nn_module;
  bsa_value : nn_module;
  bsa_dropout : nn_module
}.

(** [BertSelfAttention.transpose_for_scores(x)] *)
Definition transpose_for_scores (self : BertSelfAttention) (x : tensor)
    : result tensor :=
  let new_x_shape :=
    removelast (shape x) ++ [num_attention_heads self; attention_head_size self] in
  (x <-- view x (map Z.of_nat new_x_shape) ;;
   permute x [0; 2; 1; 3])%res.

(** The raw attention scores of [BertSelfAttention.forward]: the branch on
    [layer < START_SHARE_LAYER]. *)
Definition BertSelfAttention_scores (self : BertSelfAttention) (layer : Z)
    (hidden_states query_layer : tensor) : M tensor :=
  if (layer <? START_SHARE_LAYER)%Z then
    lift (k <-- bsa_key self hidden_states ;;
          key_layer <-- transpose_for_scores self k ;;
          kt <-- transpose key_layer (-1) (-2) ;;
          matmul query_layer kt)%res
  else
    g <- getg ;;
    lift (ShareKey_cal_attention (ShareKey g) query_layer layer "text" 4).

(** [torch.where(x < -9000, AttentionReg.zero, x)] *)
Definition where_masked (z x : tensor) : result tensor :=
  broadcast2 (fun zv xv => if sltb xv (of_Z (-9000)) then zv else xv) z x.

(** [BertSelfAttention.forward(layer, hidden_states, attention_mask,
    head_mask, output_attentions)]; [visual_hidden_state], [output_qks] and
    [current_layer] are not used by the body.  The result is
    [(outputs, fusion_output, qks)]. *)
Definition BertSelfAttention_forward (self : BertSelfAttention) (layer : Z)
    (hidden_states : tensor) (attention_mask head_mask : option tensor)
    (output_attentions : bool)
    : M (tuple * option tensor * option tensor) :=
  mixed_query_layer <- lift (bsa_query self hidden_states) ;;
  value_layer <- lift (v <-- bsa_value self hidden_states ;;
                       transpose_for_scores self v)%res ;;
  query_layer <- lift (transpose_for_scores self mixed_query_layer) ;;
  let qks : option tensor := None in
  attention_scores <- BertSelfAttention_scores self layer hidden_states
                        query_layer ;;
  let attention_scores :=
    tmap (fun x => sdiv x (ssqrt (of_Z (Z.of_nat (attention_head_size self)))))
         attention_scores in
  attention_scores <- (match attention_mask with
                       | Some m => lift (tadd attention_scores m)
                       | None => ret attention_scores
                       end) ;;
  (if (START_SHARE_LAYER <=? layer)%Z then
     g <- getg ;;
     if MODIFY g then
       w <- lift (where_masked (zero (AttentionReg g)) attention_scores) ;;
       append_attention_text w
     else append_attention_text attention_scores
   else ret tt) ;;;
  attention_probs <- lift (softmax attention_scores (-1)) ;;
  attention_probs <- lift (bsa_dropout self attention_probs) ;;
  attention_probs <- (match head_mask with
                      | Some hm => lift (tmul attention_probs hm)
                      | None => ret attention_probs
                      end) ;;
  context_layer <- lift (matmul attention_probs value_layer) ;;
  context_layer <- lift (c <-- permute context_layer [0; 2; 1; 3] ;;
                         Ok (contiguous c))%res ;;
  let new_context_layer_shape :=
    firstn (dim context_layer - 2) (shape context_layer) ++ [all_head_size self] in
  context_layer <- lift (view context_layer
                           (map Z.of_nat new_context_layer_shape)) ;;
  let fusion_output : option tensor := None in
  let outputs : tuple :=
    if output_attentions then [Some context_layer; Some attention_probs]
    else [Some context_layer] in
  ret (outputs, fusion_output, qks).

(** ** The remaining sub-modules of a BERT layer *)

Record BertSelfOutput : Type := {
  bso_dense : nn_module;
  bso_LayerNorm : nn_module;
  bso_dropout : nn_module
}.

Definition BertSelfOutput_forward (self : BertSelfOutput)
    (hidden_states input_tensor : tensor) : result tensor :=
  (hidden_states <-- bso_dense self hidden_states ;;
   hidden_states <-- bso_dropout self hidden_states ;;
   s <-- tadd hidden_states input_tensor ;;
   bso_LayerNorm self s)%res.

Record BertAttention : Type := {
  ba_self : BertSelfAttention;
  ba_output : BertSelfOutput
}.

(** [BertAttention.forward]: [(outputs, fusion_output, qks)]. *)
Definition BertAttention_forward (self : BertAttention) (layer : Z)
    (hidden_states : tensor) (attention_mask head_mask : option tensor)
    (output_attentions : bool)
    : M (tuple * option tensor * option tensor) :=
  r <- BertSelfAttention_forward (ba_self self) layer hidden_states
         attention_mask head_mask output_attentions ;;
  let '(self_outputs, fusion_output, qks) := r in
  attention_output <- lift (x <-- py_index self_outputs 0 ;;
                            x <-- as_tensor x ;;
                            BertSelfOutput_forward (ba_output self) x
                              hidden_states)%res ;;
  let outputs : tuple := Some attention_output :: skipn 1 self_outputs in
  ret (outputs, fusion_output, qks).

Record BertIntermediate : Type := {
  bi_dense : nn_module;
  bi_fusion_dense : nn_module;
  bi_intermediate_act_fn : nn_module
}.

Definition BertIntermediate_forward (self : BertIntermediate)
    (hidden_states : tensor) (fusion_output : option tensor) : result tensor :=
  (hidden_states <-- bi_dense self hidden_states ;;
   hidden_states <--
     (match fusion_output with
      | Some f => fusion_states <-- bi_fusion_dense self f ;;
                  tadd hidden_states fusion_states
      | None => Ok hidden_states
      end) ;;
   bi_intermediate_act_fn self hidden_states)%res.

Record BertOutput : Type := {
  bo_dense : nn_module;
  bo_LayerNorm : nn_module;
  bo_dropout : nn_module
}.

Definition BertOutput_forward (self : BertOutput)
    (hidden_states input_tensor : tensor) : result tensor :=
  (hidden_states <-- bo_dense self hidden_states ;;
   hidden_states <-- bo_dropout self hidden_states ;;
   s <-- tadd hidden_states input_tensor ;;
   bo_LayerNorm self s)%res.

(** ** The two encoder layers *)

Record CLIPEncoderLayer : Type := {
  self_attn : CLIPAttention;
  layer_norm1 : nn_module;
  mlp : CLIPMLP;
  layer_norm2 : nn_module
}.

(** [CLIPEncoderLayer.forward(layer, hidden_states, output_attentions)] *)
Definition CLIPEncoderLayer_forward (self : CLIPEncoderLayer) (layer : Z)
    (hidden_states : tensor) (output_attentions : bool) : M tuple :=
  let residual := hidden_states in
  hidden_states <- lift (layer_norm1 self hidden_states) ;;
  r <- CLIPAttention_forward (self_attn self) layer hidden_states
         output_attentions ;;
  let '(hidden_states, attn_weights) := r in
  hidden_states <- lift (tadd residual hidden_states) ;;
  let residual := hidden_states in
  hidden_states <- lift (h <-- layer_norm2 self hidden_states ;;
                         h <-- CLIPMLP_forward (mlp self) h ;;
                         tadd residual h)%res ;;
  let outputs : tuple := [Some hidden_states] in
  ret (if output_attentions then outputs ++ [attn_weights] else outputs).

Record BertLayer : Type := {
  chunk_size_feed_forward : nat;
  seq_len_dim : nat;
  bl_attention : BertAttention;
  bl_intermediate : BertIntermediate;
  bl_output : BertOutput
}.

(** [BertLayer.feed_forward_chunk(attention_output, fusion_output)] *)
Definition feed_forward_chunk (self : BertLayer) (attention_output : tensor)
    (fusion_output : option tensor) : result tensor :=
  (intermediate_output <-- BertIntermediate_forward (bl_intermediate self)
                             attention_output fusion_output ;;
   BertOutput_forward (bl_output self) intermediate_output attention_output)%res.

(** [BertLayer.forward(layer, hidden_states, attention_mask, head_mask,
    output_attentions, output_qks)] *)
Definition BertLayer_forward (self : BertLayer) (layer : Z)
    (hidden_states : tensor) (attention_mask head_mask : option tensor)
    (output_attentions output_qks : bool) : M tuple :=
  r <- BertAttention_forward (bl_attention self) layer hidden_states
         attention_mask head_mask output_attentions ;;
  let '(self_attention_outputs, fusion_output, qks) := r in
  attention_output <- lift (x <-- py_index self_attention_outputs 0 ;;
                            as_tensor x)%res ;;
  let outputs := skipn 1 self_attention_outputs in
  layer_output <- lift (apply_chunking_to_forward (feed_forward_chunk self)
                          (chunk_size_feed_forward self) (seq_len_dim self)
                          attention_output None) ;;
  let outputs : tuple := Some layer_output :: outputs in
  ret (if output_qks then outputs ++ [qks] else outputs).

(** ** [UnimoEncoder] *)

Record UnimoEncoder : Type := {
  vision_num_hidden_layers : nat;
  text_num_hidden_layers : nat;
  vision_layers : list CLIPEncoderLayer;
  text_layer : list BertLayer
}.

(** What the encoder returns: tensors and tuples of tensors. *)
Inductive pyval : Type :=
| PTensor (t : tensor)
| PTuple (l : tuple).

(** The variables the loop of [UnimoEncoder.forward] updates. *)
Record loop_vars : Type := {
  vision_hidden_states : tensor;
  text_hidden_states : tensor;
  all_vision_hidden_states : option tuple;
  all_text_hidden_states : option tuple;
  all_vision_attentions : option tuple;
  all_text_attentions : option tuple
}.

Definition tuple_add (t : option tuple) (x : option tensor) : result (option tuple) :=
  match t with
  | Some l => Ok (Some (l ++ [x]))
  | None => Raise TypeError
  end.

(** One iteration of the loop, at index [idx]. *)
Definition encoder_body (self : UnimoEncoder) (attention_mask : option tensor)
    (head_mask : option (list (option tensor)))
    (output_attentions output_hidden_states : bool)
    (idx : nat) (v : loop_vars) : M loop_vars :=
  hs <- (if output_hidden_states then
           lift (a <-- tuple_add (all_vision_hidden_states v)
                         (Some (vision_hidden_states v)) ;;
                 b <-- tuple_add (all_text_hidden_states v)
                         (Some (text_hidden_states v)) ;;
                 Ok (a, b))%res
         else ret (all_vision_hidden_states v, all_text_hidden_states v)) ;;
  let '(all_vision_hidden_states', all_text_hidden_states') := hs in
  vision_layer_module <- lift (py_index (vision_layers self) (Z.of_nat idx)) ;;
  vision_layer_output <- CLIPEncoderLayer_forward vision_layer_module
                           (Z.of_nat idx) (vision_hidden_states v)
                           output_attentions ;;
  vision_hidden_states' <- lift (x <-- py_index vision_layer_output 0 ;;
                                 as_tensor x)%res ;;
  let output_qks := false in
  layer_head_mask <- (match head_mask with
                      | Some hm => lift (py_index hm (Z.of_nat idx))
                      | None => ret None
                      end) ;;
  text_layer_module <- lift (py_index (text_layer self) (Z.of_nat idx)) ;;
  text_layer_output <- BertLayer_forward text_layer_module (Z.of_nat idx)
                         (text_hidden_states v) attention_mask layer_head_mask
                         output_attentions output_qks ;;
  text_hidden_states' <- lift (x <-- py_index text_layer_output 0 ;;
                               as_tensor x)%res ;;
  att <- (if output_attentions then
            lift (va <-- py_index vision_layer_output 1 ;;
                  a <-- tuple_add (all_vision_attentions v) va ;;
                  ta <-- py_index text_layer_output 1 ;;
                  b <-- tuple_add (all_text_attentions v) ta ;;
                  Ok (a, b))%res
          else ret (all_vision_attentions v, all_text_attentions v)) ;;
  let '(all_vision_attentions', all_text_attentions') := att in
  ret {| vision_hidden_states := vision_hidden_states';
         text_hidden_states := text_hidden_states';
         all_vision_hidden_states := all_vision_hidden_states';
         all_text_hidden_states := all_text_hidden_states';
         all_vision_attentions := all_vision_attentions';
         all_text_attentions := all_text_attentions' |}.

(** [for idx in idxs: body] *)
Fixpoint for_each (body : nat -> loop_vars -> M loop_vars) (idxs : list nat)
    (v : loop_vars) : M loop_vars :=
  match idxs with
  | [] => ret v
  | idx :: rest => v' <- body idx v ;; for_each body rest v'
  end.

Definition not_none (xs : list (option pyval)) : list pyval :=
  flat_map (fun x => match x with Some v => [v] | None => [] end) xs.

(** [UnimoEncoder.forward(vision_embeds, text_embeds, attention_mask,
    head_mask, output_attentions, output_hidden_states, return_dict)] *)
Definition UnimoEncoder_forward (self : UnimoEncoder)
    (vision_embeds text_embeds : tensor) (attention_mask : option tensor)
    (head_mask : option (list (option tensor)))
    (output_attentions output_hidden_states return_dict : bool)
    : M (list pyval) :=
  assert (vision_num_hidden_layers self =? text_num_hidden_layers self) ;;;
  let v0 :=
    {| vision_hidden_states := vision_embeds;
       text_hidden_states := text_embeds;
       all_vision_hidden_states := if output_hidden_states then Some [] else None;
       all_text_hidden_states := if output_hidden_states then Some [] else None;
       all_vision_attentions := if output_attentions then Some [] else None;
       all_text_attentions := if output_attentions then Some [] else None |} in
  v <- for_each (encoder_body self attention_mask head_mask output_attentions
                   output_hidden_states)
                (seq 0 (vision_num_hidden_layers self)) v0 ;;
  hs <- (if output_hidden_states then
           lift (a <-- tuple_add (all_vision_hidden_states v)
                         (Some (vision_hidden_states v)) ;;
                 b <-- tuple_add (all_text_hidden_states v)
                         (Some (text_hidden_states v)) ;;
                 Ok (a, b))%res
         else ret (all_vision_hidden_states v, all_text_hidden_states v)) ;;
  let '(_, all_text_hidden_states') := hs in
  if negb return_dict then
    ret (not_none [Some (PTensor (text_hidden_states v));
                   Some (PTensor (vision_hidden_states v));
                   option_map PTuple all_text_hidden_states';
                   option_map PTuple (all_text_attentions v)])
  else raise AssertionError.

(** ** Module-level helpers *)

(** [get_extended_attention_mask(attention_mask, input_shape, device)];
    [input_shape] and [device] only appear in the error message. *)
Definition get_extended_attention_mask (attention_mask : tensor)
    : result tensor :=
  (extended_attention_mask <--
     (if dim attention_mask =? 3 then
        unsqueeze attention_mask 1
      else if dim attention_mask =? 2 then
        m <-- unsqueeze attention_mask 1 ;;
        unsqueeze m 1
      else Raise ValueError) ;;
   let extended_attention_mask := tmap to_long extended_attention_mask in
   Ok (tmap (fun x => smul (ssub sone x) (of_Z (-10000)))
            extended_attention_mask))%res.

(** [get_head_mask(head_mask, num_hidden_layers, is_attention_chunked)] *)
Definition get_head_mask (head_mask : option tensor) (num_hidden_layers : Z)
    (is_attention_chunked : bool) : list (option tensor) :=
  let head_mask : list (option tensor) :=
    repeat None (Z.to_nat num_hidden_layers) in
  head_mask.

(** ** [BertEmbeddings] *)

Record BertEmbeddings : Type := {
  word_embeddings : nn_module;
  position_embeddings : nn_module;
  token_type_embeddings : nn_module;
  be_LayerNorm : nn_module;
  be_dropout : nn_module;
  position_embedding_type : string;
  be_position_ids : tensor
}.

Definition set_embedding (g : globals) (e : option tensor) : globals :=
  {| ShareKey := ShareKey g; AttentionReg := AttentionReg g;
     MODIFY := MODIFY g; embedding := e |}.

(** [BertEmbeddings.forward(input_ids, token_type_ids, position_ids)], with
    [inputs_embeds=None] and [past_key_values_length=0] as the model calls
    it. *)
Definition BertEmbeddings_forward (self : BertEmbeddings) (input_ids : tensor)
    (token_type_ids position_ids : option tensor) : M tensor :=
  let input_shape := shape input_ids in
  seq_length <- lift (py_index input_shape 1) ;;
  position_ids <- (match position_ids with
                   | Some p => ret p
                   | None => lift (slice1 (be_position_ids self) 0 seq_length)
                   end) ;;
  let token_type_ids := match token_type_ids with
                        | Some t => t
                        | None => zeros input_shape
                        end in
  inputs_embeds <- lift (word_embeddings self input_ids) ;;
  token_type_embeddings <- lift (token_type_embeddings self token_type_ids) ;;
  embeddings <- lift (tadd inputs_embeds token_type_embeddings) ;;
  embeddings <- (if String.eqb (position_embedding_type self) "absolute" then
                   position_embeddings <- lift (position_embeddings self
                                                  position_ids) ;;
                   g <- getg ;;
                   putg (set_embedding g (Some position_embeddings)) ;;;
                   lift (tadd_inplace embeddings position_embeddings)
                 else ret embeddings) ;;
  embeddings <- lift (be_LayerNorm self embeddings) ;;
  lift (be_dropout self embeddings).

(** ** Classifiers *)

Record Classifier : Type := {
  cl_dense : nn_module;
  cl_dropout : nn_module
}.

(** [TextClassifier.forward] and [VisionClassifier.forward] *)
Definition TextClassifier_forward (self : Classifier) (hidden_states : tensor)
    : result tensor :=
  (first_token_tensor <-- select hidden_states 1 0 ;;
   cl_dense self first_token_tensor)%res.

Definition VisionClassifier_forward (self : Classifier) (hidden_states : tensor)
    : result tensor :=
  (first_token_tensor <-- select hidden_states 1 0 ;;
   cl_dense self first_token_tensor)%res.

(** [CatClassifier.forward(vision_seq_in_text, text_seq)] *)
Definition CatClassifier_forward (self : Classifier)
    (vision_seq_in_text text_seq : tensor) : result tensor :=
  (cat_tensor <-- cat_last vision_seq_in_text text_seq ;;
   cat_tensor <-- cl_dropout self cat_tensor ;;
   cl_dense self cat_tensor)%res.

(** ** [UnimoModel] *)

Record UnimoModel : Type := {
  (** [CLIPVisionEmbeddings.forward(pixel_values, aux_embeddings,
      rcnn_embeddings)], which touches no class attribute *)
  vision_embeddings :
    tensor -> option (list tensor) -> option (list tensor) -> result tensor;
  vision_pre_layrnorm : nn_module;
  text_config_num_hidden_layers : Z;
  text_embeddings : BertEmbeddings;
  text_classifier : Classifier;
  vision_classifier : Classifier;
  cat_classifier : Classifier;
  encoder : UnimoEncoder
}.

(** [x[:, 0, :]]: three indices need at least three dimensions. *)
Definition index_first_token (x : tensor) : result tensor :=
  if 3 <=? dim x then select x 1 0 else Raise IndexError.

(** [UnimoModel.fusion_module(text_seq, vision_seq)] *)
Definition fusion_module (text_seq vision_seq : tensor) : M tensor :=
  vision_seq_cls <- lift (c <-- index_first_token vision_seq ;;
                          unsqueeze c 1)%res ;;
  g <- getg ;;
  e <- lift (match embedding g with
             | Some e => Ok e
             | None => Raise TypeError
             end) ;;
  lift (tadd vision_seq_cls e).

(** [x.size()] unpacked into two names. *)
Definition size2 (x : tensor) : result (nat * nat) :=
  match shape x with
  | [a; b] => Ok (a, b)
  | _ => Raise ValueError
  end.

Definition pyval_tensor (v : pyval) : result tensor :=
  match v with
  | PTensor t => Ok t
  | PTuple _ => Raise TypeError
  end.

(** [UnimoModel.forward(input_ids, attention_mask, token_type_ids,
    position_ids, head_mask, pixel_values, aux_values, rcnn_values,
    output_attentions, output_hidden_states, return_dict)]; the result is
    the returned tuple. *)
Definition UnimoModel_forward (self : UnimoModel) (input_ids : tensor)
    (attention_mask token_type_ids position_ids head_mask : option tensor)
    (pixel_values : tensor) (aux_values rcnn_values : option (list tensor))
    (output_attentions output_hidden_states return_dict : bool)
    : M (list tensor) :=
  vision_embedding_output <-
    lift (e <-- vision_embeddings self pixel_values aux_values rcnn_values ;;
          vision_pre_layrnorm self e)%res ;;
  sz <- lift (size2 input_ids) ;;
  let '(batch_size, seq_length) := sz in
  let attention_mask := match attention_mask with
                        | Some m => m
                        | None => ones [batch_size; seq_length]
                        end in
  (match token_type_ids with
   | None => raise ValueError
   | Some _ => ret tt
   end) ;;;
  extended_attention_mask <- lift (get_extended_attention_mask attention_mask) ;;
  let head_mask :=
    get_head_mask head_mask (text_config_num_hidden_layers self) false in
  text_embedding_output <- BertEmbeddings_forward (text_embeddings self)
                             input_ids token_type_ids position_ids ;;
  encoder_outputs <- UnimoEncoder_forward (encoder self)
                       vision_embedding_output text_embedding_output
                       (Some extended_attention_mask) None
                       output_attentions output_hidden_states false ;;
  text_output <- lift (x <-- py_index encoder_outputs 0 ;; pyval_tensor x)%res ;;
  vision_output <- lift (x <-- py_index encoder_outputs 1 ;; pyval_tensor x)%res ;;
  let mode := nth 1 ["sep"; "cat"]%string ""%string in
  if String.eqb mode "sep" then
    text_logits <- lift (TextClassifier_forward (text_classifier self)
                           text_output) ;;
    vision_logits <- lift (VisionClassifier_forward (vision_classifier self)
                             vision_output) ;;
    ret [text_output; vision_output; text_logits; vision_logits]
  else if String.eqb mode "cat" then
    vision_seq_in_text <- fusion_module text_output vision_output ;;
    cat_logits <- lift (CatClassifier_forward (cat_classifier self)
                          vision_seq_in_text text_output) ;;
    ret [text_output; vision_seq_in_text; cat_logits]
  else raise AssertionError.

End Program.

(** ** Real elements

    Used where the values are 0 and 1 and the arithmetic is exact. *)

(** [x.to(dtype=torch.long)] on one element: rounding towards zero. *)
Definition trunc (x : R) : Z :=
  if Rle_dec 0 x then Int_part x else (- Int_part (- x))%Z.

#[export] Instance Scalar_R : Scalar R := {
  szero := 0%R;
  sone := 1%R;
  sadd := Rplus;
  ssub := Rminus;
  smul := Rmult;
  sdiv := Rdiv;
  sltb := fun x y => if Rlt_dec x y then true else false;
  ssqrt := sqrt;
  of_Z := IZR;
  to_long := fun x => IZR (trunc x)
}.

(** ** Single-precision elements

    [torch.float32] is IEEE 754 binary32: 24 bits of precision, infinities
    at exponent 128, results rounded to nearest, ties to even, as
    [SpecFloat] of the Standard Library defines the operations.  A sum
    that exceeds the largest finite number is an infinity, and
    [inf - inf], [0 / 0] and [inf * 0] are NaN; a comparison with a NaN is
    false. *)

Definition float32 : Type := spec_float.

(** An integer as a float, rounded. *)
Definition f32_of_Z (z : Z) : float32 := binary_normalize 24 128 z 0 false.

(** The integer part of a finite float; conversion of an infinity or a NaN
    to an integer is not defined by the language and is read as 0. *)
Definition f32_trunc (x : float32) : Z :=
  match x with
  | S754_finite s m e =>
      cond_Zopp s (match e with
                   | Z0 => Zpos m
                   | Zpos _ => Zpos m * 2 ^ e
                   | Zneg p => Zpos m / 2 ^ Zpos p
                   end)%Z
  | _ => 0%Z
  end.

#[export] Instance Scalar_float32 : Scalar float32 := {
  szero := S754_zero false;
  sone := f32_of_Z 1;
  sadd := SFadd 24 128;
  ssub := SFsub 24 128;
  smul := SFmul 24 128;
  sdiv := SFdiv 24 128;
  sltb := SFltb;
  ssqrt := SFsqrt 24 128;
  of_Z := f32_of_Z;
  to_long := fun x => f32_of_Z (f32_trunc x)
}.

(** ** [AttentionReg.cal_loss] *)

Section Loss.

Context {A : Type} `{Scalar A}.

Local Abbreviation tensor := (tensor A).






(** The default [eps] of [F.normalize], [1e-12]. *)
Definition normalize_eps : A := sdiv sone (of_Z (10 ^ 12)).






End Loss.

Arguments ShareKey_cls A : clear implicits.
Arguments AttentionReg_cls A Model : clear implicits.
Arguments globals A Model : clear implicits.
Arguments M A Model X : clear implicits.
Arguments nn_module A : clear implicits.
Arguments tuple A : clear implicits.
Arguments pyval A : clear implicits.
Arguments loop_vars A : clear implicits.
Arguments CLIPAttention A : clear implicits.
Arguments CLIPMLP A : clear implicits.
Arguments BertSelfAttention A : clear implicits.
Arguments BertSelfOutput A : clear implicits.
Arguments BertAttention A : clear implicits.
Arguments BertIntermediate A : clear implicits.
Arguments BertOutput A : clear implicits.
Arguments CLIPEncoderLayer A : clear implicits.
Arguments BertLayer A : clear implicits.
Arguments UnimoEncoder A : clear implicits.
Arguments BertEmbeddings A : clear implicits.
Arguments Classifier A : clear implicits.
Arguments UnimoModel A : clear implicits.


(** ** Initialisation and snapshots of the shared parameters *)

Declare Scope state_scope.
Delimit Scope state_scope with state.
Notation "x <- c ;; k" := (bind c (fun x => k))
  (at level 61, c at next level, right associativity) : state_scope.
Notation "c ;;; k" := (bind c (fun _ => k))
  (at level 61, right associativity) : state_scope.

Section Parameters.

Context {A : Type} `{Scalar A}.

Variable Model : Type.

Local Abbreviation tensor := (tensor A).

(** The fields of [ShareKey.config] that [ShareKey.init] reads. *)
Record ShareKey_config : Type := {
  cfg_hidden_size : nat;
  cfg_num_attention_heads : nat
}.

(** The random numbers of [nn.init.xavier_uniform_]: element [i] of the
    [k]-th tensor that is initialised. *)
Variable draw : nat -> nat -> A.

(** [torch.empty(s)]; its contents are never read. *)
Definition empty (s : list nat) : tensor := build s (fun _ => szero).

(** [torch.nn.init._calculate_fan_in_and_fan_out(t)]: tensors with fewer
    than two dimensions are refused; the dimensions from the third on form
    the receptive field. *)
Definition calculate_fan_in_and_fan_out (t : tensor) : result (nat * nat) :=
  match shape t with
  | num_output_fmaps :: num_input_fmaps :: rest =>
      let receptive_field_size := numel rest in
      Ok (num_input_fmaps * receptive_field_size,
          num_output_fmaps * receptive_field_size)
  | _ => Raise ValueError
  end.

(** [nn.init.xavier_uniform_(t)], the [k]-th call.  The bound of the
    uniform distribution is [sqrt(3) * sqrt(2.0 / float(fan_in + fan_out))],
    a division of Python floats, which raises when the two fans add up to
    zero.  Otherwise [t] is overwritten in place and returned. *)
Definition xavier_uniform_ (k : nat) (t : tensor) : result tensor :=
  (fans <-- calculate_fan_in_and_fan_out t ;;
   let '(fan_in, fan_out) := fans in
   if fan_in + fan_out =? 0 then Raise ZeroDivisionError
   else Ok (mkT (shape t) (map (draw k) (seq 0 (numel (shape t))))))%res.

Definition set_ShareKey (g : globals A Model) (s : ShareKey_cls A)
    : globals A Model :=
  {| ShareKey := s; AttentionReg := AttentionReg g;
     MODIFY := MODIFY g; embedding := embedding g |}.

(** [l.append(x)] on an attribute that holds a list. *)
Definition append_to {X} (l : option (list X)) (x : X) : result (option (list X)) :=
  match l with
  | Some l => Ok (Some (l ++ [x]))
  | None => Raise TypeError
  end.

(** Assignments to single attributes of the two classes. *)
Definition set_num_heads (n : nat) (s : ShareKey_cls A) : ShareKey_cls A :=
  {| num_heads := n; head_dim := head_dim s;
     key := key s; vision_bias := vision_bias s; text_bias := text_bias s;
     text_bn := text_bn s; vision_bn := vision_bn s |}.

Definition set_head_dim (n : nat) (s : ShareKey_cls A) : ShareKey_cls A :=
  {| num_heads := num_heads s; head_dim := n;
     key := key s; vision_bias := vision_bias s; text_bias := text_bias s;
     text_bn := text_bn s; vision_bn := vision_bn s |}.

Definition set_key (v : option (list tensor)) (s : ShareKey_cls A)
    : ShareKey_cls A :=
  {| num_heads := num_heads s; head_dim := head_dim s;
     key := v; vision_bias := vision_bias s; text_bias := text_bias s;
     text_bn := text_bn s; vision_bn := vision_bn s |}.

Definition set_vision_bias (v : option (list tensor)) (s : ShareKey_cls A)
    : ShareKey_cls A :=
  {| num_heads := num_heads s; head_dim := head_dim s;
     key := key s; vision_bias := v; text_bias := text_bias s;
     text_bn := text_bn s; vision_bn := vision_bn s |}.

Definition set_text_bias (v : option (list tensor)) (s : ShareKey_cls A)
    : ShareKey_cls A :=
  {| num_heads := num_heads s; head_dim := head_dim s;
     key := key s; vision_bias := vision_bias s; text_bias := v;
     text_bn := text_bn s; vision_bn := vision_bn s |}.

Definition set_text_bn (v : option (list BatchNorm2d)) (s : ShareKey_cls A)
    : ShareKey_cls A :=
  {| num_heads := num_heads s; head_dim := head_dim s;
     key := key s; vision_bias := vision_bias s; text_bias := text_bias s;
     text_bn := v; vision_bn := vision_bn s |}.

Definition set_vision_bn (v : option (list BatchNorm2d)) (s : ShareKey_cls A)
    : ShareKey_cls A :=
  {| num_heads := num_heads s; head_dim := head_dim s;
     key := key s; vision_bias := vision_bias s; text_bias := text_bias s;
     text_bn := text_bn s; vision_bn := v |}.

Definition set_old_model (v : option Model) (a : AttentionReg_cls A Model)
    : AttentionReg_cls A Model :=
  {| old_model := v; old_key := old_key a;
     old_text_bias := old_text_bias a; old_vision_bias := old_vision_bias a;
     attention_text_list := attention_text_list a;
     attention_vision_list := attention_vision_list a;
     zero := zero a |}.

Definition set_old_key (v : option (list tensor)) (a : AttentionReg_cls A Model)
    : AttentionReg_cls A Model :=
  {| old_model := old_model a; old_key := v;
     old_text_bias := old_text_bias a; old_vision_bias := old_vision_bias a;
     attention_text_list := attention_text_list a;
     attention_vision_list := attention_vision_list a;
     zero := zero a |}.

Definition set_old_text_bias (v : option (list tensor))
    (a : AttentionReg_cls A Model) : AttentionReg_cls A Model :=
  {| old_model := old_model a; old_key := old_key a;
     old_text_bias := v; old_vision_bias := old_vision_bias a;
     attention_text_list := attention_text_list a;
     attention_vision_list := attention_vision_list a;
     zero := zero a |}.

Definition set_old_vision_bias (v : option (list tensor))
    (a : AttentionReg_cls A Model) : AttentionReg_cls A Model :=
  {| old_model := old_model a; old_key := old_key a;
     old_text_bias := old_text_bias a; old_vision_bias := v;
     attention_text_list := attention_text_list a;
     attention_vision_list := attention_vision_list a;
     zero := zero a |}.

(** [cls.attr = v] for an attribute of [ShareKey], of [AttentionReg]. *)
Definition assign_ShareKey (f : ShareKey_cls A -> ShareKey_cls A)
    : M A Model unit :=
  (g <- @getg A Model ;; putg (set_ShareKey g (f (ShareKey g))))%state.

Definition assign_AttentionReg
    (f : AttentionReg_cls A Model -> AttentionReg_cls A Model)
    : M A Model unit :=
  (g <- @getg A Model ;; putg (set_AttentionReg g (f (AttentionReg g))))%state.

(** One round of the loop of [ShareKey.init], for layer [l]. *)
Definition ShareKey_init_body (v_max_l t_max_l : nat) (l : nat)
    : M A Model unit :=
  (g <- @getg A Model ;;
   k <- lift (xavier_uniform_ (3 * l)
          (empty [1; num_heads (ShareKey g); head_dim (ShareKey g); 1])) ;;
   ks <- lift (append_to (key (ShareKey g)) k) ;;
   assign_ShareKey (set_key ks) ;;;
   g <- @getg A Model ;;
   vb <- lift (xavier_uniform_ (3 * l + 1)
           (empty [num_heads (ShareKey g); v_max_l; v_max_l])) ;;
   vbs <- lift (append_to (vision_bias (ShareKey g)) vb) ;;
   assign_ShareKey (set_vision_bias vbs) ;;;
   g <- @getg A Model ;;
   tb <- lift (xavier_uniform_ (3 * l + 2)
           (empty [num_heads (ShareKey g); t_max_l; t_max_l])) ;;
   tbs <- lift (append_to (text_bias (ShareKey g)) tb) ;;
   assign_ShareKey (set_text_bias tbs) ;;;
   g <- @getg A Model ;;
   tbn <- lift (append_to (text_bn (ShareKey g)) (mkBatchNorm2d t_max_l)) ;;
   assign_ShareKey (set_text_bn tbn) ;;;
   g <- @getg A Model ;;
   vbn <- lift (append_to (vision_bn (ShareKey g)) (mkBatchNorm2d v_max_l)) ;;
   assign_ShareKey (set_vision_bn vbn))%state.

(** [for l in ls: body l] *)
Fixpoint for_range (body : nat -> M A Model unit) (ls : list nat)
    : M A Model unit :=
  match ls with
  | [] => ret tt
  | l :: rest => (body l ;;; for_range body rest)%state
  end.

(** [ShareKey.init()].  The attributes the caller has to set first,
    [config], [v_max_l], [t_max_l] and [layer], are the arguments. *)
Definition ShareKey_init (config : ShareKey_config)
    (v_max_l t_max_l layer : nat) : M A Model unit :=
  (assign_ShareKey (set_num_heads (cfg_num_attention_heads config)) ;;;
   g <- @getg A Model ;;
   (if num_heads (ShareKey g) =? 0 then raise ZeroDivisionError
    else ret tt) ;;;
   assign_ShareKey
     (set_head_dim (cfg_hidden_size config / num_heads (ShareKey g))) ;;;
   g <- @getg A Model ;;
   assert (head_dim (ShareKey g) * num_heads (ShareKey g)
           =? cfg_hidden_size config) ;;;
   assign_ShareKey (set_key (Some [])) ;;;
   assign_ShareKey (set_vision_bias (Some [])) ;;;
   assign_ShareKey (set_text_bias (Some [])) ;;;
   assign_ShareKey (set_text_bn (Some [])) ;;;
   assign_ShareKey (set_vision_bn (Some [])) ;;;
   for_range (ShareKey_init_body v_max_l t_max_l) (seq 0 layer))%state.

(** What [UnimoModel.__init__] does to [ShareKey]: 61 vision positions, 128
    text positions, 12 layers. *)
Definition UnimoModel_init_ShareKey (vision_config : ShareKey_config)
    : M A Model unit :=
  ShareKey_init vision_config 61 128 12.

(** [AttentionReg.update_old_model(model)]; the deep copy of the model is
    the model itself here. *)
Definition AttentionReg_update_old_model (model : Model) : M A Model unit :=
  assign_AttentionReg (set_old_model (Some model)).

(** [t.detach().clone()]: a copy with the same elements. *)
Definition detach_clone (t : tensor) : tensor := mkT (shape t) (data t).

(** One round of the loop of [update_old_key_and_bias], for layer [i]. *)
Definition update_old_body (i : nat) : M A Model unit :=
  (g <- @getg A Model ;;
   k <- lift (py_index_opt (key (ShareKey g)) (Z.of_nat i)) ;;
   ks <- lift (append_to (old_key (AttentionReg g)) (detach_clone k)) ;;
   assign_AttentionReg (set_old_key ks) ;;;
   g <- @getg A Model ;;
   tb <- lift (py_index_opt (text_bias (ShareKey g)) (Z.of_nat i)) ;;
   tbs <- lift (append_to (old_text_bias (AttentionReg g))
                          (detach_clone tb)) ;;
   assign_AttentionReg (set_old_text_bias tbs) ;;;
   g <- @getg A Model ;;
   vb <- lift (py_index_opt (vision_bias (ShareKey g)) (Z.of_nat i)) ;;
   vbs <- lift (append_to (old_vision_bias (AttentionReg g))
                          (detach_clone vb)) ;;
   assign_AttentionReg (set_old_vision_bias vbs))%state.

(** [AttentionReg.update_old_key_and_bias()], with [ShareKey.layer] as the
    argument.  The three saved lists are assigned anew whether or not they
    were deleted first. *)
Definition AttentionReg_update_old_key_and_bias (ShareKey_layer : nat)
    : M A Model unit :=
  (assign_AttentionReg (set_old_key (Some [])) ;;;
   assign_AttentionReg (set_old_text_bias (Some [])) ;;;
   assign_AttentionReg (set_old_vision_bias (Some [])) ;;;
   for_range update_old_body (seq 0 ShareKey_layer))%state.

End Parameters.
(** * Definitions used to state the properties *)

Section StateFacts.

Context {A : Type} {Model : Type}.

(** A computation that neither reads nor writes a class attribute: it has
    one outcome, whatever the state, and hands the state back. *)
Definition state_free {X} (c : M A Model X) : Prop :=
  exists r, forall g, c g = (r, g).

(** The bias and the batch-norm slot [ShareKey.cal_attention] selects for a
    modality. *)
Definition bias_of (cls : ShareKey_cls A) (modality : string) (layer : Z)
    : result (tensor A) :=
  if String.eqb modality "vision"
  then py_index_opt (vision_bias cls) layer
  else py_index_opt (text_bias cls) layer.

Definition bn_of (cls : ShareKey_cls A) (modality : string) (layer : Z)
    : result BatchNorm2d :=
  if String.eqb modality "vision"
  then py_index_opt (vision_bn cls) layer
  else py_index_opt (text_bn cls) layer.

(** The state after [AttentionReg.attention_vision_list.append(w)]. *)
Definition with_vision_entry (g : globals A Model) (w : tensor A)
    : globals A Model :=
  snd (append_attention_vision w g).

(** The state after [AttentionReg.attention_text_list.append(w)]. *)
Definition with_text_entry (g : globals A Model) (w : tensor A)
    : globals A Model :=
  snd (append_attention_text w g).

(** Two states that differ at most in the two attention lists. *)
Definition same_but_lists (g g' : globals A Model) : Prop :=
  ShareKey g' = ShareKey g /\
  MODIFY g' = MODIFY g /\
  embedding g' = embedding g /\
  old_model (AttentionReg g') = old_model (AttentionReg g) /\
  old_key (AttentionReg g') = old_key (AttentionReg g) /\
  old_text_bias (AttentionReg g') = old_text_bias (AttentionReg g) /\
  old_vision_bias (AttentionReg g') = old_vision_bias (AttentionReg g) /\
  zero (AttentionReg g') = zero (AttentionReg g).

End StateFacts.

(** * Concrete inputs

    A configuration small enough to run: integer elements, one head of
    size two, sequences of length two. *)

Section Examples.

Local Open Scope Z_scope.

(** A layer's shared key, of shape [[1; num_heads; head_dim; 1]]. *)
Definition ex_key : tensor Z := mkT [1; 1; 2; 1]%nat [1; 2].

(** A bias for sequences of length two and one for length three. *)
Definition ex_bias2 : tensor Z := mkT [1; 2; 2]%nat [10; 20; 30; 40].
Definition ex_bias3 : tensor Z := mkT [1; 3; 3]%nat (repeat 0 9).

(** A query of shape [[bsz * num_heads; length; head_dim]] = [[1; 2; 2]]. *)
Definition ex_query : tensor Z := mkT [1; 2; 2]%nat [1; 2; 3; 4].

(** [ShareKey] with twelve layers whose biases fit length two. *)
Definition ex_ShareKey : ShareKey_cls Z :=
  {| num_heads := 1; head_dim := 2;
     key := Some (repeat ex_key 12);
     vision_bias := Some (repeat ex_bias2 12);
     text_bias := Some (repeat ex_bias2 12);
     text_bn := Some (repeat (mkBatchNorm2d 2) 12);
     vision_bn := Some (repeat (mkBatchNorm2d 2) 12) |}.

(** [ShareKey] whose text bias was allocated for length three. *)
Definition ex_ShareKey_long : ShareKey_cls Z :=
  {| num_heads := 1; head_dim := 2;
     key := Some (repeat ex_key 12);
     vision_bias := Some (repeat ex_bias2 12);
     text_bias := Some (repeat ex_bias3 12);
     text_bn := Some (repeat (mkBatchNorm2d 3) 12);
     vision_bn := Some (repeat (mkBatchNorm2d 2) 12) |}.

(** Stand-ins for the [torch.nn] modules: the identity and the zero map. *)
Definition ex_id : nn_module Z := fun t => Ok t.
Definition ex_zero : nn_module Z := fun t => Ok (tmap (fun _ => 0) t).
Definition ex_softmax (t : tensor Z) (d : Z) : result (tensor Z) := Ok t.
Definition ex_F_dropout (t : tensor Z) (p : Z) (training : bool)
    : result (tensor Z) := Ok t.
Definition ex_chunking (f : tensor Z -> option (tensor Z) -> result (tensor Z))
    (chunk_size chunk_dim : nat) (x : tensor Z) (y : option (tensor Z))
    : result (tensor Z) := f x y.

Definition ex_CLIPAttention : CLIPAttention Z :=
  {| ca_num_heads := 1; ca_head_dim := 2; ca_scale := 1; ca_dropout := 0;
     ca_training := false;
     k_proj := ex_id; v_proj := ex_id; q_proj := ex_id; out_proj := ex_zero |}.

Definition ex_CLIPEncoderLayer : CLIPEncoderLayer Z :=
  {| self_attn := ex_CLIPAttention;
     layer_norm1 := ex_id;
     mlp := {| mlp_activation_fn := ex_id; mlp_fc1 := ex_id; mlp_fc2 := ex_zero |};
     layer_norm2 := ex_id |}.

Definition ex_BertSelfAttention : BertSelfAttention Z :=
  {| num_attention_heads := 1; attention_head_size := 2; all_head_size := 2;
     bsa_query := ex_id; bsa_key := ex_id; bsa_value := ex_id;
     bsa_dropout := ex_id |}.

Definition ex_BertLayer : BertLayer Z :=
  {| chunk_size_feed_forward := 0; seq_len_dim := 1;
     bl_attention :=
       {| ba_self := ex_BertSelfAttention;
          ba_output := {| bso_dense := ex_zero; bso_LayerNorm := ex_id;
                          bso_dropout := ex_id |} |};
     bl_intermediate := {| bi_dense := ex_id; bi_fusion_dense := ex_id;
                           bi_intermediate_act_fn := ex_id |};
     bl_output := {| bo_dense := ex_zero; bo_LayerNorm := ex_id;
                     bo_dropout := ex_id |} |}.

(** The twelve-layer encoder. *)
Definition ex_encoder : UnimoEncoder Z :=
  {| vision_num_hidden_layers := 12; text_num_hidden_layers := 12;
     vision_layers := repeat ex_CLIPEncoderLayer 12;
     text_layer := repeat ex_BertLayer 12 |}.

(** The class state before a forward pass. *)
Definition ex_globals : globals Z unit :=
  {| ShareKey := ex_ShareKey;
     AttentionReg :=
       {| old_model := None; old_key := None; old_text_bias := None;
          old_vision_bias := None;
          attention_text_list := []; attention_vision_list := [];
          zero := mkT [1%nat] [0] |};
     MODIFY := false;
     embedding := None |}.

(** Hidden states of shape [[1; 2; 2]] and an extended mask of shape
    [[1; 1; 1; 2]]. *)
Definition ex_hidden : tensor Z := mkT [1; 2; 2]%nat [1; 2; 3; 4].
Definition ex_mask : tensor Z := mkT [1; 1; 1; 2]%nat [0; 0].

(** An embedding table that sends every index to the vector [(1, 1)]. *)
Definition ex_embed : nn_module Z :=
  fun t => Ok (build (shape t ++ [2%nat]) (fun _ => 1)).

Definition ex_BertEmbeddings : BertEmbeddings Z :=
  {| word_embeddings := ex_embed; position_embeddings := ex_embed;
     token_type_embeddings := ex_embed;
     be_LayerNorm := ex_id; be_dropout := ex_id;
     position_embedding_type := "absolute";
     be_position_ids := mkT [1; 4]%nat [0; 1; 2; 3] |}.

Definition ex_classifier : Classifier Z :=
  {| cl_dense := ex_id; cl_dropout := ex_id |}.

Definition ex_model : UnimoModel Z :=
  {| vision_embeddings := fun pixel_values _ _ => Ok pixel_values;
     vision_pre_layrnorm := ex_id;
     text_config_num_hidden_layers := 12;
     text_embeddings := ex_BertEmbeddings;
     text_classifier := ex_classifier;
     vision_classifier := ex_classifier;
     cat_classifier := ex_classifier;
     encoder := ex_encoder |}.

(** Token ids and token types of shape [[1; 2]]. *)
Definition ex_input_ids : tensor Z := mkT [1; 2]%nat [5; 6].
Definition ex_token_type_ids : tensor Z := mkT [1; 2]%nat [0; 0].

End Examples.

(** * The encoder, as the specification words it *)

Section EncoderSpec.

Context {A : Type} `{Scalar A} {Model : Type}.

Variable softmax : tensor A -> Z -> result (tensor A).
Variable F_dropout : tensor A -> A -> bool -> result (tensor A).
Variable apply_chunking_to_forward :
  (tensor A -> option (tensor A) -> result (tensor A)) ->
  nat -> nat -> tensor A -> option (tensor A) -> result (tensor A).

(** [head_mask[idx] if head_mask is not None else None] *)
Definition layer_head_mask (head_mask : option (list (option (tensor A))))
    (idx : nat) : result (option (tensor A)) :=
  match head_mask with
  | Some hm => py_index hm (Z.of_nat idx)
  | None => Ok None
  end.

(** [alternates self mask hm oa idx k v t g v' t' g']: starting from the
    vision hidden states [v], the text hidden states [t] and the class state
    [g], the [k] layers from index [idx] on are run in turn, at each index
    the vision layer on the vision stream first and the text layer on the
    text stream after it, each stream feeding its own next layer; the
    streams end in [v'] and [t'] and the state in [g']. *)
Inductive alternates (self : UnimoEncoder A) (attention_mask : option (tensor A))
    (head_mask : option (list (option (tensor A)))) (output_attentions : bool)
    : nat -> nat -> tensor A -> tensor A -> globals A Model ->
      tensor A -> tensor A -> globals A Model -> Prop :=
| alt_done idx v t g :
    alternates self attention_mask head_mask output_attentions idx 0 v t g v t g
| alt_step idx k v t g vl vout v1 g1 tl lhm tout t1 g2 v' t' g' :
    nth_error (vision_layers self) idx = Some vl ->
    CLIPEncoderLayer_forward softmax F_dropout vl (Z.of_nat idx) v
      output_attentions g = (Ok vout, g1) ->
    nth_error vout 0 = Some (Some v1) ->
    nth_error (text_layer self) idx = Some tl ->
    layer_head_mask head_mask idx = Ok lhm ->
    BertLayer_forward softmax apply_chunking_to_forward tl (Z.of_nat idx) t
      attention_mask lhm output_attentions false g1 = (Ok tout, g2) ->
    nth_error tout 0 = Some (Some t1) ->
    alternates self attention_mask head_mask output_attentions
      (S idx) k v1 t1 g2 v' t' g' ->
    alternates self attention_mask head_mask output_attentions
      idx (S k) v t g v' t' g'.

(** What a shared vision layer appends: the scores of
    [ShareKey.cal_attention] for some query at that layer. *)
Definition vision_entry_at (cls : ShareKey_cls A) (layer : Z) (w : tensor A)
    : Prop :=
  exists q, ShareKey_cal_attention cls q layer "vision" 3 = Ok w.

(** The text scores after scaling and masking. *)
Definition text_scores (self : BertSelfAttention A)
    (attention_mask : option (tensor A)) (raw : tensor A) : result (tensor A) :=
  let s := tmap (fun x => sdiv x (ssqrt (of_Z (Z.of_nat (attention_head_size self)))))
                raw in
  match attention_mask with
  | Some m => tadd s m
  | None => Ok s
  end.

(** What a shared text layer appends: the scaled and masked scores of
    [ShareKey.cal_attention], passed through [torch.where] when
    [BertSelfAttention.MODIFY] is set. *)
Definition text_entry_at (cls : ShareKey_cls A) (modify : bool) (z : tensor A)
    (self : BertSelfAttention A) (attention_mask : option (tensor A))
    (layer : Z) (w : tensor A) : Prop :=
  exists q raw scores,
    ShareKey_cal_attention cls q layer "text" 4 = Ok raw /\
    text_scores self attention_mask raw = Ok scores /\
    (if modify then where_masked z scores else Ok scores) = Ok w.

End EncoderSpec.

Section Appended.

Context {A : Type} {Model : Type}.

(** [appended g g' vs ts]: the state [g'] is [g] with [vs] appended to
    [AttentionReg.attention_vision_list], [ts] appended to
    [AttentionReg.attention_text_list], and nothing else changed. *)
Definition appended (g g' : globals A Model) (vs ts : list (tensor A)) : Prop :=
  same_but_lists g g' /\
  attention_vision_list (AttentionReg g')
  = attention_vision_list (AttentionReg g) ++ vs /\
  attention_text_list (AttentionReg g')
  = attention_text_list (AttentionReg g) ++ ts.

(** The layers that share their keys, among the indices [idxs]. *)
Definition shared_layers (idxs : list nat) : list nat :=
  filter (fun i => (START_SHARE_LAYER <=? Z.of_nat i)%Z) idxs.

End Appended.

Section ModelSpec.

Context {A : Type}.

(** The model with its text and vision classifiers replaced. *)
Definition with_classifiers (self : UnimoModel A) (tc vc : Classifier A)
    : UnimoModel A :=
  {| vision_embeddings := vision_embeddings self;
     vision_pre_layrnorm := vision_pre_layrnorm self;
     text_config_num_hidden_layers := text_config_num_hidden_layers self;
     text_embeddings := text_embeddings self;
     text_classifier := tc;
     vision_classifier := vc;
     cat_classifier := cat_classifier self;
     encoder := encoder self |}.

End ModelSpec.


(** ** The parameters [ShareKey.init] creates *)

Section Initialised.

Context {A : Type} `{Scalar A}.

Variable draw : nat -> nat -> A.

(** The tensor of shape [s] filled with the [k]-th series of random
    numbers. *)
Definition drawn (k : nat) (s : list nat) : tensor A :=
  mkT s (map (draw k) (seq 0 (numel s))).

(** The attributes of [ShareKey] after an initialisation with [nh] heads of
    size [hd], [v] vision and [t] text positions and [n] layers. *)
Definition initialised (nh hd v t n : nat) : ShareKey_cls A :=
  {| num_heads := nh; head_dim := hd;
     key := Some (map (fun l => drawn (3 * l) [1; nh; hd; 1]) (seq 0 n));
     vision_bias := Some (map (fun l => drawn (3 * l + 1) [nh; v; v]) (seq 0 n));
     text_bias := Some (map (fun l => drawn (3 * l + 2) [nh; t; t]) (seq 0 n));
     text_bn := Some (map (fun _ => mkBatchNorm2d t) (seq 0 n));
     vision_bn := Some (map (fun _ => mkBatchNorm2d v) (seq 0 n)) |}.

(** The attributes of [ShareKey] when the first round of [ShareKey.init]
    stops after the keys [ks] and the vision biases [vbs]. *)
Definition interrupted (nh hd : nat) (ks vbs : list (tensor A))
    : ShareKey_cls A :=
  {| num_heads := nh; head_dim := hd;
     key := Some ks; vision_bias := Some vbs; text_bias := Some [];
     text_bn := Some []; vision_bn := Some [] |}.

End Initialised.

(** The length the bias of a modality is created with. *)
Definition max_l (v t : nat) (modality : string) : nat :=
  if String.eqb modality "vision" then v else t.


(** ** How far a computation may extend the attention lists *)

Section Growth.

Context {A : Type} {Model : Type}.

(** [grows nv nt g g']: [g'] is [g] with at most [nv] tensors appended to
    the vision list and at most [nt] to the text list. *)
Definition grows (nv nt : nat) (g g' : globals A Model) : Prop :=
  exists vs ts, appended g g' vs ts /\ length vs <= nv /\ length ts <= nt.

(** [within nv nt c]: from every state and with every outcome, a raised
    exception included, [c] ends in a state that [grows nv nt] allows. *)
Definition within (nv nt : nat) {X} (c : M A Model X) : Prop :=
  forall g, grows nv nt g (snd (c g)).

(** One for a layer that shares its keys, zero for the others. *)
Definition shares (layer : Z) : nat :=
  if (START_SHARE_LAYER <=? layer)%Z then 1 else 0.

End Growth.

(** ** The position ids of a text pass *)

Section PositionIds.

Context {A : Type} `{Scalar A}.

(** The position ids [BertEmbeddings.forward] looks up. *)
Definition used_position_ids (self : BertEmbeddings A) (input_ids : tensor A)
    (position_ids : option (tensor A)) : result (tensor A) :=
  match position_ids with
  | Some p => Ok p
  | None => (seq_length <-- py_index (shape input_ids) 1 ;;
             slice1 (be_position_ids self) 0 seq_length)%res
  end.

(** The mask [UnimoModel.forward] extends: the one given, or
    [torch.ones((batch_size, seq_length))]. *)
Definition used_attention_mask (attention_mask : option (tensor A))
    (batch_size seq_length : nat) : tensor A :=
  match attention_mask with
  | Some m => m
  | None => ones [batch_size; seq_length]
  end.

End PositionIds.

(** ** Further concrete inputs *)

Section MoreExamples.

Local Open Scope Z_scope.

(** A configuration with one head of size two. *)
Definition ex_config : ShareKey_config :=
  {| cfg_hidden_size := 2; cfg_num_attention_heads := 1 |}.

(** A configuration whose three heads do not divide the hidden size. *)
Definition ex_config_odd : ShareKey_config :=
  {| cfg_hidden_size := 4; cfg_num_attention_heads := 3 |}.

(** A stand-in for the random numbers. *)
Definition ex_draw (k i : nat) : Z := Z.of_nat (k + i).

(** The class state before [ShareKey.init] has run. *)
Definition ex_globals_fresh : globals Z unit :=
  {| ShareKey := {| num_heads := 0; head_dim := 0; key := None;
                    vision_bias := None; text_bias := None;
                    text_bn := None; vision_bn := None |};
     AttentionReg := AttentionReg ex_globals;
     MODIFY := false;
     embedding := None |}.

(** Position embeddings of shape [[1; 2; 2]], stored by a text pass. *)
Definition ex_position_embeddings : tensor Z :=
  mkT [1; 2; 2]%nat [100; 200; 300; 400].

Definition ex_globals_embedded : globals Z unit :=
  set_embedding ex_globals (Some ex_position_embeddings).

End MoreExamples.

(** ** What the encoder collects for its result *)

Section Collected.

Context {A : Type} `{Scalar A} {Model : Type}.

Variable softmax : tensor A -> Z -> result (tensor A).
Variable F_dropout : tensor A -> A -> bool -> result (tensor A).
Variable apply_chunking_to_forward :
  (tensor A -> option (tensor A) -> result (tensor A)) ->
  nat -> nat -> tensor A -> option (tensor A) -> result (tensor A).

(** [collects self mask hm oa idx k v t g v' t' g' hs ats]: the [k] layers
    from index [idx] on run in alternation from the streams [v] and [t] and
    the state [g] to [v'], [t'] and [g'] (as in [alternates]); [hs] lists
    the text hidden states each text layer was called on, and, when
    [oa] is set, [ats] lists the second item of what each text layer
    returned. *)
Inductive collects (self : UnimoEncoder A) (attention_mask : option (tensor A))
    (head_mask : option (list (option (tensor A)))) (output_attentions : bool)
    : nat -> nat -> tensor A -> tensor A -> globals A Model ->
      tensor A -> tensor A -> globals A Model ->
      list (tensor A) -> list (option (tensor A)) -> Prop :=
| col_done idx v t g :
    collects self attention_mask head_mask output_attentions idx 0 v t g v t g
      [] []
| col_step idx k v t g vl vout v1 g1 tl lhm tout t1 g2 v' t' g' hs a ats :
    nth_error (vision_layers self) idx = Some vl ->
    CLIPEncoderLayer_forward softmax F_dropout vl (Z.of_nat idx) v
      output_attentions g = (Ok vout, g1) ->
    nth_error vout 0 = Some (Some v1) ->
    nth_error (text_layer self) idx = Some tl ->
    layer_head_mask head_mask idx = Ok lhm ->
    BertLayer_forward softmax apply_chunking_to_forward tl (Z.of_nat idx) t
      attention_mask lhm output_attentions false g1 = (Ok tout, g2) ->
    nth_error tout 0 = Some (Some t1) ->
    (output_attentions = true -> nth_error tout 1 = Some a) ->
    collects self attention_mask head_mask output_attentions
      (S idx) k v1 t1 g2 v' t' g' hs ats ->
    collects self attention_mask head_mask output_attentions
      idx (S k) v t g v' t' g' (t :: hs) (a :: ats).

End Collected.

(** ** From the raw scores to the result of an attention pass *)

Section Attends.

Context {A : Type} `{Scalar A}.

Variable softmax : tensor A -> Z -> result (tensor A).
Variable F_dropout : tensor A -> A -> bool -> result (tensor A).

(** [CLIPAttention_attends ca hs W oa out aw]: with the raw scores [W],
    [CLIPAttention.forward] on [hs] returns [(out, aw)]: [W] has one
    [tgt_len] by [src_len] matrix per batch element and head, its softmax
    over the last axis (through dropout) weighs the value projections of
    [hs], the heads are merged again and passed to [out_proj]; [aw] is that
    softmax, one matrix per batch element and head, when
    [output_attentions] is set and [None] otherwise. *)
Definition CLIPAttention_attends (ca : CLIPAttention A) (hs W : tensor A)
    (oa : bool) (out : tensor A) (aw : option (tensor A)) : Prop :=
  exists bsz tgt E V src P P' D ao,
    shape hs = [bsz; tgt; E] /\
    (v <-- v_proj ca hs ;;
     x <-- CLIPAttention__shape ca v (-1) bsz ;;
     view x [Z.of_nat (bsz * ca_num_heads ca); (-1)%Z;
             Z.of_nat (ca_head_dim ca)])%res = Ok V /\
    shape_at V 1 = Ok src /\
    shape W = [bsz * ca_num_heads ca; tgt; src] /\
    softmax W (-1) = Ok P /\
    (if oa then
       (r <-- view P [Z.of_nat bsz; Z.of_nat (ca_num_heads ca);
                      Z.of_nat tgt; Z.of_nat src] ;;
        a <-- view r [Z.of_nat (bsz * ca_num_heads ca);
                      Z.of_nat tgt; Z.of_nat src] ;;
        Ok (a, Some r))%res
     else Ok (P, None)) = Ok (P', aw) /\
    F_dropout P' (ca_dropout ca) (ca_training ca) = Ok D /\
    bmm D V = Ok ao /\
    shape ao = [bsz * ca_num_heads ca; tgt; ca_head_dim ca] /\
    (x <-- view ao [Z.of_nat bsz; Z.of_nat (ca_num_heads ca);
                    Z.of_nat tgt; Z.of_nat (ca_head_dim ca)] ;;
     x <-- transpose x 1 2 ;;
     x <-- reshape x [Z.of_nat bsz; Z.of_nat tgt; Z.of_nat E] ;;
     out_proj ca x)%res = Ok out.

(** [BertSelfAttention_attends bsa hs scores hm oa outputs]: with the scaled
    and masked scores [scores], [BertSelfAttention.forward] on [hs] returns
    the tuple [outputs]: the softmax of [scores] over the last axis, through
    dropout and the head mask, weighs the value projections of [hs], and
    the heads are merged again; the probabilities follow the context when
    [output_attentions] is set. *)
Definition BertSelfAttention_attends (bsa : BertSelfAttention A)
    (hs scores : tensor A) (hm : option (tensor A)) (oa : bool)
    (outputs : tuple A) : Prop :=
  exists V P P2 P3 ctx0 ctx,
    (v <-- bsa_value bsa hs ;; transpose_for_scores bsa v)%res = Ok V /\
    softmax scores (-1) = Ok P /\
    bsa_dropout bsa P = Ok P2 /\
    match hm with Some m => tmul P2 m | None => Ok P2 end = Ok P3 /\
    matmul P3 V = Ok ctx0 /\
    (c <-- permute ctx0 [0; 2; 1; 3] ;;
     view (contiguous c)
          (map Z.of_nat (firstn (dim (contiguous c) - 2) (shape (contiguous c))
                         ++ [all_head_size bsa])))%res = Ok ctx /\
    outputs = (if oa then [Some ctx; Some P3] else [Some ctx]).

End Attends.

(** ** Two heads of size one *)

Section HeadExamples.

Local Open Scope Z_scope.

Definition ex_key_heads : tensor Z := mkT [1; 2; 1; 1]%nat [2; 3].
Definition ex_bias_heads : tensor Z :=
  mkT [2; 2; 2]%nat [10; 20; 30; 40; 50; 60; 70; 80].

Definition ex_globals_heads : globals Z unit :=
  {| ShareKey :=
       {| num_heads := 2; head_dim := 1;
          key := Some (repeat ex_key_heads 12);
          vision_bias := Some (repeat ex_bias_heads 12);
          text_bias := Some (repeat ex_bias_heads 12);
          text_bn := Some (repeat (mkBatchNorm2d 2) 12);
          vision_bn := Some (repeat (mkBatchNorm2d 2) 12) |};
     AttentionReg :=
       {| old_model := None; old_key := None; old_text_bias := None;
          old_vision_bias := None;
          attention_text_list := []; attention_vision_list := [];
          zero := mkT [1%nat] [0] |};
     MODIFY := false;
     embedding := None |}.

Definition ex_CLIPAttention_heads : CLIPAttention Z :=
  {| ca_num_heads := 2; ca_head_dim := 1; ca_scale := 1; ca_dropout := 0;
     ca_training := false;
     k_proj := ex_id; v_proj := ex_id; q_proj := ex_id; out_proj := ex_id |}.

Definition ex_BertSelfAttention_heads : BertSelfAttention Z :=
  {| num_attention_heads := 2; attention_head_size := 1; all_head_size := 2;
     bsa_query := ex_id; bsa_key := ex_id; bsa_value := ex_id;
     bsa_dropout := ex_id |}.

End HeadExamples.

(** ** The arithmetic [AttentionReg.cal_loss] relies on *)

(** The comparisons [==] and [<=], the test for a finite (neither infinite
    nor NaN) element, and the facts about them the loss needs.  All of them
    hold of IEEE 754 arithmetic with its signed zeros, infinities and NaN:
    [x < 0] is false of a zero, of a positive number, of [+inf] and of a
    NaN; [0 < x] is true of a positive number and of [+inf] only. *)
Class FloatArith (A : Type) {S : Scalar A} : Type := {
  seqb : A -> A -> bool;
  sleb : A -> A -> bool;
  is_finite : A -> bool;
  (* never below zero *)
  nn_zero : sltb szero szero = false;
  nn_add : forall a b, sltb a szero = false -> sltb b szero = false ->
                       sltb (sadd a b) szero = false;
  nn_sqrt : forall a, sltb (ssqrt a) szero = false;
  nn_div : forall a d, sltb a szero = false -> sltb szero d = true ->
                       sltb (sdiv a d) szero = false;
  nn_mul_one : forall a, sltb a szero = false ->
                         sltb (smul a (of_Z 1)) szero = false;
  (* positive *)
  pos_of_Z : forall z, (0 < z)%Z -> sltb szero (of_Z z) = true;
  pos_eps : sltb szero normalize_eps = true;
  (* zero *)
  z_zero : seqb szero szero = true;
  z_add : forall a b, seqb a szero = true -> seqb b szero = true ->
                      seqb (sadd a b) szero = true;
  z_sq : forall a, seqb a szero = true -> seqb (smul a a) szero = true;
  z_sqrt : forall a, seqb a szero = true -> seqb (ssqrt a) szero = true;
  z_div : forall a d, seqb a szero = true -> sltb szero d = true ->
                      seqb (sdiv a d) szero = true;
  z_mul_one : forall a, seqb a szero = true ->
                        seqb (smul a (of_Z 1)) szero = true;
  z_below : forall a e, seqb a szero = true -> sltb szero e = true ->
                        sltb a e = true;
  (* subtraction keeps the order of finite elements *)
  sub_le : forall a b, is_finite a = true -> is_finite b = true ->
                       sleb a b = true ->
                       sltb (ssub a b) szero = true \/
                       seqb (ssub a b) szero = true
}.

Arguments FloatArith A {S}.

(** ** The drift [AttentionReg.cal_loss] penalises *)

Section Drift.

Context {A : Type} `{FloatArith A}.







End Drift.

(** ** Single-precision examples *)

Section FloatExamples.

(** A finite single-precision number: neither infinite nor NaN, and in
    canonical form. *)
Definition f32_is_finite (x : float32) : bool :=
  match x with
  | S754_zero _ => true
  | S754_finite _ m e => bounded 24 128 m e
  | _ => false
  end.




End FloatExamples.
(** * Properties *)

Unset Implicit Arguments.

(** ** Indices and [build] *)

Lemma length_flat_map_const {X Y} (f : X -> list Y) (N : nat) (l : list X) :
  (forall x, length (f x) = N) -> length (flat_map f l) = length l * N.
Proof.
  intros Hf. induction l as [|x l IH]; simpl; [reflexivity|].
  rewrite length_app, Hf, IH. reflexivity.
Qed.

Lemma length_indices (s : list nat) : length (indices s) = numel s.
Proof.
  induction s as [|n s IH]; simpl; [reflexivity|].
  rewrite (length_flat_map_const _ (numel s)).
  - now rewrite length_seq.
  - intros i. now rewrite length_map.
Qed.

Lemma flat_lt (s idx : list nat) : in_shape s idx -> flat s idx < numel s.
Proof.
  unfold in_shape. intros Hs. induction Hs as [|i n idx s Hi Hs IH]; simpl.
  - lia.
  - nia.
Qed.

Lemma nth_flat_map_seq {X} (f : nat -> list X) (N : nat) (d : X) :
  (forall i, length (f i) = N) ->
  forall n a i k, i < n -> k < N ->
    nth (i * N + k) (flat_map f (seq a n)) d = nth k (f (a + i)) d.
Proof.
  intros Hf. induction n as [|n IH]; intros a i k Hi Hk; [lia|].
  simpl. destruct i as [|i].
  - simpl. rewrite app_nth1 by (rewrite Hf; lia). now rewrite Nat.add_0_r.
  - rewrite app_nth2 by (rewrite Hf; simpl; lia).
    rewrite Hf. replace (S i * N + k - N) with (i * N + k) by (simpl; lia).
    rewrite IH by lia. f_equal. f_equal. lia.
Qed.

Lemma nth_indices (s idx d : list nat) :
  in_shape s idx -> nth (flat s idx) (indices s) d = idx.
Proof.
  unfold in_shape. intros Hs. induction Hs as [|i n idx s Hi Hs IH]; simpl.
  - reflexivity.
  - assert (Hk : flat s idx < numel s) by now apply flat_lt.
    rewrite (nth_flat_map_seq (fun i => map (cons i) (indices s)) (numel s)); try lia.
    + simpl. rewrite (nth_indep _ d (i :: d)) by
        (rewrite length_map, length_indices; exact Hk).
      rewrite (map_nth (cons i)). now rewrite IH.
    + intros j. now rewrite length_map, length_indices.
Qed.

Lemma bidx_same (s idx : list nat) : in_shape s idx -> bidx s idx = idx.
Proof.
  unfold in_shape, bidx. intros Hs.
  rewrite (Forall2_length Hs), Nat.sub_diag. simpl.
  induction Hs as [|i n idx s Hi Hs IH]; simpl; [reflexivity|].
  rewrite IH. destruct (Nat.eqb_spec n 1); [|reflexivity].
  f_equal. lia.
Qed.

Section TensorFacts.

Context {A : Type} `{Scalar A}.

Lemma get_build (s : list nat) (f : list nat -> A) (idx : list nat) :
  in_shape s idx -> get (build s f) idx = f idx.
Proof.
  intros Hs. unfold get, build; simpl.
  rewrite (nth_indep _ szero (f idx)) by
    (rewrite length_map, length_indices; now apply flat_lt).
  rewrite (map_nth f). now rewrite nth_indices.
Qed.

Lemma dot_ext (k : nat) (f f' g g' : nat -> A) :
  (forall d, d < k -> f d = f' d) -> (forall d, d < k -> g d = g' d) ->
  dot k f g = dot k f' g'.
Proof.
  intros Hf Hg. unfold dot. generalize (@szero A _).
  assert (Hin : forall d, In d (seq 0 k) -> d < k)
    by (intros d Hd; apply in_seq in Hd; lia).
  revert Hin. generalize (seq 0 k) as l.
  induction l as [|x l IH]; intros Hin z; simpl; [reflexivity|].
  rewrite Hf, Hg by (apply Hin; now left).
  apply IH. intros d Hd. apply Hin. now right.
Qed.

End TensorFacts.

(** ** The monad *)

Section MonadFacts.

Context {A : Type} {Model : Type}.

Lemma bind_ok_inv {X Y} (c : M A Model X) (k : X -> M A Model Y) g y g' :
  bind c k g = (Ok y, g') ->
  exists x g1, c g = (Ok x, g1) /\ k x g1 = (Ok y, g').
Proof.
  unfold bind. destruct (c g) as [[x|e] g1]; intros Hk.
  - now exists x, g1.
  - discriminate.
Qed.

Lemma lift_ok_inv {X} (r : result X) (g g' : globals A Model) x :
  lift r g = (Ok x, g') -> r = Ok x /\ g' = g.
Proof. unfold lift. intros Hr. inversion Hr. now split. Qed.

Lemma ret_ok_inv {X} (x y : X) (g g' : globals A Model) :
  ret x g = (Ok y, g') -> y = x /\ g' = g.
Proof. unfold ret. intros Hr. inversion Hr. now split. Qed.

Lemma rbind_ok_inv {X Y} (r : result X) (k : X -> result Y) y :
  rbind r k = Ok y -> exists x, r = Ok x /\ k x = Ok y.
Proof. destruct r as [x|e]; simpl; intros Hk; [now exists x | discriminate]. Qed.

Lemma free_ret {X} (x : X) : state_free (ret x : M A Model X).
Proof. exists (Ok x). reflexivity. Qed.

Lemma free_lift {X} (r : result X) : state_free (lift r : M A Model X).
Proof. exists r. reflexivity. Qed.

Lemma free_raise {X} (e : exn) : state_free (raise e : M A Model X).
Proof. exists (Raise e). reflexivity. Qed.

Lemma free_bind {X Y} (c : M A Model X) (k : X -> M A Model Y) :
  state_free c -> (forall x, state_free (k x)) -> state_free (bind c k).
Proof.
  intros [r Hc] Hk. destruct r as [x|e].
  - destruct (Hk x) as [r' Hr']. exists r'. intros g.
    unfold bind. now rewrite Hc, Hr'.
  - exists (Raise e). intros g. unfold bind. now rewrite Hc.
Qed.

End MonadFacts.

(** Split a goal [state_free c] along the shape of [c]. *)
Ltac free :=
  repeat first
    [ apply free_ret | apply free_lift | apply free_raise
    | apply free_bind; [|intros ?]
    | match goal with
      | |- state_free (match ?x with _ => _ end) => destruct x
      | |- state_free (let '(_, _) := ?x in _) => destruct x
      end ].

(** ** [AttentionReg.change_ShareKey] and [get_head_mask] *)

Section Bookkeeping.

Context {A : Type} {Model : Type}.

(** C6. [AttentionReg.change_ShareKey] returns after exchanging the three
    parameter lists of [ShareKey] ([key], [text_bias], [vision_bias]) with
    the three saved lists of [AttentionReg] ([old_key], [old_text_bias],
    [old_vision_bias]); a second call in succession brings the whole state,
    [ShareKey] and [AttentionReg] included, back to what it was. *)
Theorem change_ShareKey_swaps_and_is_involutive (g : globals A Model) :
  let r := AttentionReg_change_ShareKey g in
  fst r = Ok tt /\
  key (ShareKey (snd r)) = old_key (AttentionReg g) /\
  text_bias (ShareKey (snd r)) = old_text_bias (AttentionReg g) /\
  vision_bias (ShareKey (snd r)) = old_vision_bias (AttentionReg g) /\
  old_key (AttentionReg (snd r)) = key (ShareKey g) /\
  old_text_bias (AttentionReg (snd r)) = text_bias (ShareKey g) /\
  old_vision_bias (AttentionReg (snd r)) = vision_bias (ShareKey g) /\
  AttentionReg_change_ShareKey (snd r) = (Ok tt, g).
Proof.
  destruct g as [[nh hd k vb tb tbn vbn] [om ok otb ovb atl avl z] md emb].
  cbv zeta. repeat split; reflexivity.
Qed.

(** C9. [get_head_mask] does not look at [head_mask]: whatever is passed,
    a tensor included, the result is [[None] * num_hidden_layers]. *)
Theorem get_head_mask_is_all_None (head_mask : option (tensor A))
    (num_hidden_layers : Z) (is_attention_chunked : bool) :
  get_head_mask head_mask num_hidden_layers is_attention_chunked
    = repeat None (Z.to_nat num_hidden_layers) /\
  get_head_mask head_mask num_hidden_layers is_attention_chunked
    = get_head_mask None num_hidden_layers is_attention_chunked /\
  length (get_head_mask head_mask num_hidden_layers is_attention_chunked)
    = Z.to_nat num_hidden_layers /\
  Forall (fun m => m = None)
    (get_head_mask head_mask num_hidden_layers is_attention_chunked).
Proof.
  unfold get_head_mask. repeat split.
  - apply repeat_length.
  - apply Forall_forall. intros m Hm. now apply repeat_spec in Hm.
Qed.

End Bookkeeping.

(** ** Products with a transposed key *)

Section Products.

Context {A : Type} `{Scalar A}.

(** [torch.bmm(q, k.transpose(1, 2))] holds, at [(b, i, j)], the dot product
    of row [i] of [q] and row [j] of [k] in batch [b]. *)
Lemma bmm_transpose_entries (q ks : tensor A) (n m p d : nat) :
  shape q = [n; m; d] -> shape ks = [n; p; d] ->
  exists kt w,
    transpose ks 1 2 = Ok kt /\ bmm q kt = Ok w /\ shape w = [n; m; p] /\
    forall b i j, b < n -> i < m -> j < p ->
      get w [b; i; j] = dot d (fun x => get q [b; i; x]) (fun x => get ks [b; j; x]).
Proof.
  intros Hq Hk. unfold transpose, dim. rewrite Hk.
  change (norm_dim (length [n; p; d]) 1) with (@Ok nat 1).
  change (norm_dim (length [n; p; d]) 2) with (@Ok nat 2).
  cbn [rbind swap_at length seq map nth Nat.eqb].
  eexists; eexists. split; [reflexivity|].
  unfold bmm. rewrite Hq. cbn [shape build]. rewrite !Nat.eqb_refl.
  cbn [andb].
  split; [reflexivity|]. split; [reflexivity|].
  intros b i j Hb Hi Hj.
  rewrite get_build by (repeat constructor; assumption).
  apply dot_ext; intros x Hx; [reflexivity|]. cbn [nth].
  rewrite get_build by (repeat constructor; assumption).
  reflexivity.
Qed.

Lemma bdim_refl (n : nat) : bdim n n = Some n.
Proof. unfold bdim. now rewrite Nat.eqb_refl. Qed.

(** [torch.matmul(q, k.transpose(-1, -2))] on four-dimensional operands
    holds, at [(b, h, i, j)], the dot product of row [i] of [q] and row [j]
    of [k] for batch [b] and head [h]. *)
Lemma matmul_transpose_entries (q kl : tensor A) (n nh m p d : nat) :
  shape q = [n; nh; m; d] -> shape kl = [n; nh; p; d] ->
  exists kt w,
    transpose kl (-1) (-2) = Ok kt /\ matmul q kt = Ok w /\
    shape w = [n; nh; m; p] /\
    forall b h i j, b < n -> h < nh -> i < m -> j < p ->
      get w [b; h; i; j]
      = dot d (fun x => get q [b; h; i; x]) (fun x => get kl [b; h; j; x]).
Proof.
  intros Hq Hk. unfold transpose, dim. rewrite Hk.
  change (norm_dim (length [n; nh; p; d]) (-1)) with (@Ok nat 3).
  change (norm_dim (length [n; nh; p; d]) (-2)) with (@Ok nat 2).
  cbn [rbind swap_at length seq map nth Nat.eqb].
  eexists; eexists. split; [reflexivity|].
  unfold matmul. rewrite Hq. cbn [shape build rev app].
  rewrite Nat.eqb_refl. cbn [bshape_rev]. rewrite !bdim_refl.
  cbn [rev app length].
  split; [reflexivity|]. split; [reflexivity|].
  intros b h i j Hb Hh Hi Hj.
  rewrite get_build by (repeat constructor; assumption).
  cbn [firstn nth].
  rewrite (bidx_same [n; nh] [b; h]) by (repeat constructor; assumption).
  apply dot_ext; intros x Hx; [reflexivity|]. cbn [app].
  rewrite get_build by (repeat constructor; assumption).
  reflexivity.
Qed.

End Products.

(** ** The two attention modules *)

Section Attention.

Context {A : Type} `{Scalar A} {Model : Type}.

Variable softmax : tensor A -> Z -> result (tensor A).
Variable F_dropout : tensor A -> A -> bool -> result (tensor A).

Lemma CLIPAttention_forward_free (ca : CLIPAttention A) (layer : Z)
    (hs : tensor A) (oa : bool) :
  (layer < START_SHARE_LAYER)%Z ->
  state_free (CLIPAttention_forward (Model:=Model) softmax F_dropout ca layer hs oa).
Proof.
  intros Hl. apply Z.ltb_lt in Hl.
  unfold CLIPAttention_forward, CLIPAttention_scores. rewrite Hl. free.
Qed.

Lemma BertSelfAttention_forward_free (bsa : BertSelfAttention A) (layer : Z)
    (hs : tensor A) (mask hm : option (tensor A)) (oa : bool) :
  (layer < START_SHARE_LAYER)%Z ->
  state_free (BertSelfAttention_forward (Model:=Model) softmax bsa layer hs
                mask hm oa).
Proof.
  intros Hl.
  assert (Hge : (START_SHARE_LAYER <=? layer)%Z = false) by (apply Z.leb_gt; lia).
  apply Z.ltb_lt in Hl.
  unfold BertSelfAttention_forward, BertSelfAttention_scores.
  rewrite Hl, Hge. free.
Qed.

Lemma cal_attention_reads_one_layer (cls cls' : ShareKey_cls A)
    (q : tensor A) (layer : Z) (modality : string) (shape_ : Z) :
  num_heads cls' = num_heads cls ->
  head_dim cls' = head_dim cls ->
  py_index_opt (key cls') layer = py_index_opt (key cls) layer ->
  bias_of cls' modality layer = bias_of cls modality layer ->
  bn_of cls' modality layer = bn_of cls modality layer ->
  ShareKey_cal_attention cls' q layer modality shape_
  = ShareKey_cal_attention cls q layer modality shape_.
Proof.
  unfold bias_of, bn_of, ShareKey_cal_attention.
  intros Hn Hd Hk Hb Hbn. rewrite Hn, Hd, Hk, Hb, Hbn. reflexivity.
Qed.

End Attention.

(** ** Shapes accepted by [view], [expand] and broadcasting *)

Lemma of_nat_ltb_m1 (n : nat) : (Z.of_nat n <? -1)%Z = false.
Proof. apply Z.ltb_ge. lia. Qed.

Lemma of_nat_eqb_m1 (n : nat) : (Z.of_nat n =? -1)%Z = false.
Proof. apply Z.eqb_neq. lia. Qed.

Lemma infer_sizes_known (n : nat) (sizes : list nat) :
  numel sizes = n -> infer_sizes n (map Z.of_nat sizes) = Ok sizes.
Proof.
  intros Hn. unfold infer_sizes.
  assert (He : existsb (fun z => (z <? -1)%Z) (map Z.of_nat sizes) = false).
  { induction sizes as [|x l IH] in |- *; simpl; [reflexivity|].
    now rewrite of_nat_ltb_m1, IH. }
  assert (Hc : count_minus1 (map Z.of_nat sizes) = 0).
  { unfold count_minus1. induction sizes as [|x l IH] in |- *; simpl;
      [reflexivity|]. now rewrite of_nat_eqb_m1. }
  assert (Hk : known_numel (map Z.of_nat sizes) = numel sizes).
  { unfold known_numel. induction sizes as [|x l IH] in |- *; simpl;
      [reflexivity|]. now rewrite of_nat_eqb_m1, Nat2Z.id, IH. }
  rewrite He, Hc, Hk, Hn, Nat.eqb_refl. f_equal.
  rewrite map_map. rewrite <- (map_id sizes) at 2.
  apply map_ext. intros x. apply Nat2Z.id.
Qed.

Lemma infer_sizes_third (n a b c d : nat) :
  0 < a * b * d -> n = a * b * c * d ->
  infer_sizes n [Z.of_nat a; Z.of_nat b; (-1)%Z; Z.of_nat d] = Ok [a; b; c; d].
Proof.
  intros Hp Hn. unfold infer_sizes, count_minus1, known_numel.
  cbn [existsb filter fold_right map].
  rewrite !of_nat_ltb_m1, !of_nat_eqb_m1. cbn [orb Z.ltb Z.eqb Z.compare
    Pos.compare Pos.compare_cont Pos.eqb length].
  rewrite !Nat2Z.id.
  assert (Hk : a * (b * (d * 1)) = a * b * d) by lia. rewrite Hk.
  assert (Hmod : n mod (a * b * d) = 0).
  { subst n. replace (a * b * c * d) with (c * (a * b * d)) by lia.
    apply Nat.Div0.mod_mul. }
  assert (Hdiv : n / (a * b * d) = c).
  { subst n. replace (a * b * c * d) with (c * (a * b * d)) by lia.
    apply Nat.div_mul. lia. }
  rewrite Hmod, Hdiv.
  destruct (Nat.ltb_spec 0 (a * b * d)); [reflexivity | lia].
Qed.


Lemma bdim_1_r (n : nat) : bdim n 1 = Some n.
Proof.
  unfold bdim. destruct (Nat.eqb_spec n 1); [now subst | reflexivity].
Qed.


(** ** [ShareKey.cal_attention] *)

Lemma bpick (n x : nat) : x < n -> (if n =? 1 then 0 else x) = x.
Proof. intros Hx. destruct (Nat.eqb_spec n 1); lia. Qed.

Section CalAttention.

Context {A : Type} `{Scalar A}.

Lemma get_flat (t1 t2 : tensor A) (i1 i2 : list nat) :
  data t1 = data t2 -> flat (shape t1) i1 = flat (shape t2) i2 ->
  get t1 i1 = get t2 i2.
Proof. unfold get. now intros -> ->. Qed.

Lemma cal_attention_entries_3d (cls : ShareKey_cls A) (q K B : tensor A)
    (layer : Z) (modality : string) (bsz len : nat) :
  in_strings modality ["text"; "vision"]%string = true ->
  0 < bsz -> 0 < num_heads cls -> 0 < head_dim cls ->
  shape q = [bsz * num_heads cls; len; head_dim cls] ->
  py_index_opt (key cls) layer = Ok K ->
  shape K = [1; num_heads cls; head_dim cls; 1] ->
  bias_of cls modality layer = Ok B ->
  shape B = [num_heads cls; len; len] ->
  (exists bn, bn_of cls modality layer = Ok bn) ->
  exists W,
    ShareKey_cal_attention cls q layer modality 3 = Ok W /\
    shape W = [bsz * num_heads cls; len; len] /\
    forall b h i j, b < bsz -> h < num_heads cls -> i < len -> j < len ->
      get W [b * num_heads cls + h; i; j]
      = sadd (dot (head_dim cls)
                  (fun d => get q [b * num_heads cls + h; i; d])
                  (fun d => get K [0; h; d; 0]))
             (get B [h; i; j]).
Proof.
  intros Hm Hbsz Hnh Hhd Hq HK HKs HB HBs [bn Hbn].
  unfold ShareKey_cal_attention.
  fold (bias_of cls modality layer). fold (bn_of cls modality layer).
  rewrite Hm, HK, HB, Hbn.
  set (nh := num_heads cls) in *. set (hd := head_dim cls) in *.
  change ((3 =? 4)%Z) with false. change ((3 =? 3)%Z) with true.
  cbn [rassert orb rbind].
  unfold shape_at at 1. rewrite Hq. 
  change (py_index [bsz * nh; len; hd] 0) with (Ok (bsz * nh)).
  cbn [rbind].
  destruct (Nat.eqb_spec nh 0) as [|_]; [lia|].
  rewrite Nat.Div0.mod_mul, Nat.div_mul by lia.
  cbn [Nat.eqb rassert rbind].
  unfold view. rewrite Hq.
  rewrite (infer_sizes_third _ bsz nh len hd) by (simpl; nia).
  cbn [rbind].
  unfold matmul. rewrite HKs. cbn [shape rev app].
  rewrite Nat.eqb_refl. cbn [bshape_rev]. rewrite bdim_refl, bdim_1_r.
  cbn [rev app length rbind].
  unfold shape_at. cbn [shape build].
  change (py_index [bsz; nh; len; 1] 2) with (Ok len). cbn [rbind].
  unfold expand. cbn [shape build rev app expandable_rev].
  rewrite !Nat.eqb_refl. cbn [orb andb]. rewrite orb_true_r. cbn [andb rbind].
  unfold unsqueeze. cbn [Nat.leb rbind]. change (firstn 0 (shape B)) with (@nil nat).
  change (skipn 0 (shape B)) with (shape B). cbn [app].
  unfold tadd, broadcast2. cbn [shape build]. rewrite HBs.
  unfold broadcast_shapes. cbn [rev app bshape_rev].
  rewrite !bdim_refl, bdim_1_r. cbn [option_map rev app rbind shape build].
  change (py_index [bsz; nh; len; len] 2) with (Ok len). cbn [rbind].
  unfold reshape, view. cbn [shape build].
  change [Z.of_nat (bsz * nh); Z.of_nat len; Z.of_nat len]
    with (map Z.of_nat [bsz * nh; len; len]).
  rewrite infer_sizes_known by (simpl; lia).
  cbn [rbind]. eexists. split; [reflexivity|]. split; [reflexivity|].
  intros b h i j Hb Hh Hi Hj.
  match goal with
  | |- get {| shape := _; data := data ?X |} _ = _ =>
      transitivity (get X [b; h; i; j]);
      [apply get_flat; [reflexivity | cbn [shape build flat numel fold_right]; ring]|]
  end.
  rewrite get_build by (repeat constructor; assumption).
  rewrite (bidx_same [bsz; nh; len; len]) by (repeat constructor; assumption).
  rewrite get_build by (repeat constructor; assumption).
  assert (Hw : bidx [bsz; nh; len; 1] [b; h; i; j] = [b; h; i; 0]).
  { unfold bidx. cbn [length Nat.sub skipn map2 Nat.eqb].
    now rewrite !bpick by assumption. }
  assert (Hk0 : bidx [1; nh] [b; h] = [0; h]).
  { unfold bidx. cbn [length Nat.sub skipn map2 Nat.eqb].
    now rewrite !bpick by assumption. }
  assert (Hb0 : bidx [1; nh; len; len] [b; h; i; j] = [0; h; i; j]).
  { unfold bidx. cbn [length Nat.sub skipn map2 Nat.eqb].
    now rewrite !bpick by assumption. }
  rewrite Hw, Hb0.
  rewrite get_build by (repeat constructor; (assumption || lia)).
  cbn [firstn nth]. rewrite Hk0.
  rewrite (bidx_same [bsz; nh] [b; h]) by (repeat constructor; assumption).
  cbn [app]. f_equal.
  - apply dot_ext; intros d Hd; [|reflexivity].
    apply get_flat; [reflexivity|].
    rewrite Hq. cbn [shape flat numel fold_right]. ring.
  - apply get_flat; [reflexivity|].
    rewrite HBs. cbn [shape flat numel fold_right]. ring.
Qed.

Lemma cal_attention_entries_4d (cls : ShareKey_cls A) (q K B : tensor A)
    (layer : Z) (modality : string) (bsz len : nat) :
  in_strings modality ["text"; "vision"]%string = true ->
  0 < bsz -> 0 < num_heads cls -> 0 < head_dim cls ->
  shape q = [bsz; num_heads cls; len; head_dim cls] ->
  py_index_opt (key cls) layer = Ok K ->
  shape K = [1; num_heads cls; head_dim cls; 1] ->
  bias_of cls modality layer = Ok B ->
  shape B = [num_heads cls; len; len] ->
  (exists bn, bn_of cls modality layer = Ok bn) ->
  exists W,
    ShareKey_cal_attention cls q layer modality 4 = Ok W /\
    shape W = [bsz; num_heads cls; len; len] /\
    forall b h i j, b < bsz -> h < num_heads cls -> i < len -> j < len ->
      get W [b; h; i; j]
      = sadd (dot (head_dim cls)
                  (fun d => get q [b; h; i; d])
                  (fun d => get K [0; h; d; 0]))
             (get B [h; i; j]).
Proof.
  intros Hm Hbsz Hnh Hhd Hq HK HKs HB HBs [bn Hbn].
  unfold ShareKey_cal_attention.
  fold (bias_of cls modality layer). fold (bn_of cls modality layer).
  rewrite Hm, HK, HB, Hbn.
  set (nh := num_heads cls) in *. set (hd := head_dim cls) in *.
  change ((4 =? 4)%Z) with true. change ((4 =? 3)%Z) with false.
  cbn [rassert orb rbind].
  unfold shape_at. rewrite Hq.
  change (py_index [bsz; nh; len; hd] 0) with (Ok bsz).
  change (py_index [bsz; nh; len; hd] 1) with (Ok nh).
  change (py_index [bsz; nh; len; hd] 2) with (Ok len).
  change (py_index [bsz; nh; len; hd] 3) with (Ok hd).
  cbn [rbind]. unfold reshape at 1. unfold view at 1. rewrite Hq.
  change [Z.of_nat (bsz * nh); Z.of_nat len; Z.of_nat hd]
    with (map Z.of_nat [bsz * nh; len; hd]).
  rewrite infer_sizes_known by (simpl; lia).
  cbn [rbind shape].
  change (py_index [bsz * nh; len; hd] 0) with (Ok (bsz * nh)).
  cbn [rbind].
  destruct (Nat.eqb_spec nh 0) as [|_]; [lia|].
  rewrite Nat.Div0.mod_mul, Nat.div_mul by lia.
  cbn [Nat.eqb rassert rbind].
  unfold view. cbn [shape data].
  rewrite (infer_sizes_third _ bsz nh len hd) by (simpl; nia).
  cbn [rbind].
  unfold matmul. rewrite HKs. cbn [shape rev app].
  rewrite Nat.eqb_refl. cbn [bshape_rev]. rewrite bdim_refl, bdim_1_r.
  cbn [rev app length rbind shape build].
  change (py_index [bsz; nh; len; 1] 2) with (Ok len). cbn [rbind].
  unfold expand. cbn [shape build rev app expandable_rev].
  rewrite !Nat.eqb_refl. cbn [orb andb]. rewrite orb_true_r. cbn [andb rbind].
  unfold unsqueeze. cbn [Nat.leb rbind]. change (firstn 0 (shape B)) with (@nil nat).
  change (skipn 0 (shape B)) with (shape B). cbn [app].
  unfold tadd, broadcast2. cbn [shape build]. rewrite HBs.
  unfold broadcast_shapes. cbn [rev app bshape_rev].
  rewrite !bdim_refl, bdim_1_r. cbn [option_map rev app rbind shape build].
  eexists. split; [reflexivity|]. split; [reflexivity|].
  intros b h i j Hb Hh Hi Hj.
  rewrite get_build by (repeat constructor; assumption).
  rewrite (bidx_same [bsz; nh; len; len]) by (repeat constructor; assumption).
  rewrite get_build by (repeat constructor; assumption).
  assert (Hw : bidx [bsz; nh; len; 1] [b; h; i; j] = [b; h; i; 0]).
  { unfold bidx. cbn [length Nat.sub skipn map2 Nat.eqb].
    now rewrite !bpick by assumption. }
  assert (Hk0 : bidx [1; nh] [b; h] = [0; h]).
  { unfold bidx. cbn [length Nat.sub skipn map2 Nat.eqb].
    now rewrite !bpick by assumption. }
  assert (Hb0 : bidx [1; nh; len; len] [b; h; i; j] = [0; h; i; j]).
  { unfold bidx. cbn [length Nat.sub skipn map2 Nat.eqb].
    now rewrite !bpick by assumption. }
  rewrite Hw, Hb0.
  rewrite get_build by (repeat constructor; (assumption || lia)).
  cbn [firstn nth]. rewrite Hk0.
  rewrite (bidx_same [bsz; nh] [b; h]) by (repeat constructor; assumption).
  cbn [app]. f_equal.
  - apply dot_ext; intros d Hd; [|reflexivity].
    apply get_flat; [reflexivity|].
    rewrite Hq. reflexivity.
  - apply get_flat; [reflexivity|].
    rewrite HBs. cbn [shape flat numel fold_right]. ring.
Qed.

(** C2, amended.  Let [bsz], [num_heads] and [head_dim] be positive, let
    [key[layer]] have shape [[1; num_heads; head_dim; 1]] and let the bias
    of the modality at that layer have shape
    [[num_heads; length; length]].  Then for every query of shape
    [[bsz * num_heads; length; head_dim]], of that same length,
    [cal_attention] returns a tensor [W] of shape
    [[bsz * num_heads; length; length]] with
    [W[b*num_heads + h, i, j]
       = (sum_d query[b*num_heads + h, i, d] * key[layer][0, h, d, 0])
         + bias[layer][h, i, j]];
    the first summand does not mention [j].  The same holds, with four
    indices, for a query of shape [[bsz; num_heads; length; head_dim]]
    passed with [shape=4]. *)
Theorem cal_attention_entries (cls : ShareKey_cls A) (K B : tensor A)
    (layer : Z) (modality : string) (bsz len : nat) :
  in_strings modality ["text"; "vision"]%string = true ->
  0 < bsz -> 0 < num_heads cls -> 0 < head_dim cls ->
  py_index_opt (key cls) layer = Ok K ->
  shape K = [1; num_heads cls; head_dim cls; 1] ->
  bias_of cls modality layer = Ok B ->
  shape B = [num_heads cls; len; len] ->
  (exists bn, bn_of cls modality layer = Ok bn) ->
  (forall q : tensor A,
     shape q = [bsz * num_heads cls; len; head_dim cls] ->
     exists W,
       ShareKey_cal_attention cls q layer modality 3 = Ok W /\
       shape W = [bsz * num_heads cls; len; len] /\
       forall b h i j, b < bsz -> h < num_heads cls -> i < len -> j < len ->
         get W [b * num_heads cls + h; i; j]
         = sadd (dot (head_dim cls)
                     (fun d => get q [b * num_heads cls + h; i; d])
                     (fun d => get K [0; h; d; 0]))
                (get B [h; i; j])) /\
  (forall q : tensor A,
     shape q = [bsz; num_heads cls; len; head_dim cls] ->
     exists W,
       ShareKey_cal_attention cls q layer modality 4 = Ok W /\
       shape W = [bsz; num_heads cls; len; len] /\
       forall b h i j, b < bsz -> h < num_heads cls -> i < len -> j < len ->
         get W [b; h; i; j]
         = sadd (dot (head_dim cls)
                     (fun d => get q [b; h; i; d])
                     (fun d => get K [0; h; d; 0]))
                (get B [h; i; j])).
Proof.
  intros Hm Hbsz Hnh Hhd HK HKs HB HBs Hbn. split; intros q Hq.
  - now apply cal_attention_entries_3d.
  - now apply cal_attention_entries_4d.
Qed.

End CalAttention.

(** C2, as stated, fails: with one head of size two, a query of shape
    [[1; 2; 2]] (length two), layer 0 and the text modality, where
    [text_bias[0]] has shape [[1; 3; 3]], the broadcast addition of the bias
    raises and no tensor is returned. *)
Lemma cal_attention_raises_on_other_length :
  shape ex_query = [1 * num_heads ex_ShareKey_long; 2; head_dim ex_ShareKey_long] /\
  (exists K, py_index_opt (key ex_ShareKey_long) 0 = Ok K) /\
  (exists B, py_index_opt (text_bias ex_ShareKey_long) 0 = Ok B) /\
  ShareKey_cal_attention ex_ShareKey_long ex_query 0 "text" 3
  = Raise RuntimeError.
Proof.
  split; [reflexivity|]. split; [eexists; reflexivity|].
  split; [eexists; reflexivity|]. vm_compute. reflexivity.
Qed.

(** On the example state, the vision scores of layer 9 for the example
    query: the entry at row 1, column 0 is [3 * 1 + 4 * 2 + 30]. *)
Lemma cal_attention_entries_witness :
  exists W,
    ShareKey_cal_attention ex_ShareKey ex_query 9 "vision" 3 = Ok W /\
    shape W = [1; 2; 2] /\
    get W [0; 1; 0] = 41%Z.
Proof.
  destruct (cal_attention_entries ex_ShareKey ex_key ex_bias2 9
              "vision" 1 2) as [H3 _];
    try reflexivity; try (simpl; lia).
  - exists (mkBatchNorm2d 2). reflexivity.
  - destruct (H3 ex_query eq_refl) as (W & HW & Hs & He).
    exists W. split; [exact HW|]. split; [exact Hs|].
    exact (He 0%nat 0%nat 1%nat 0%nat ltac:(simpl; lia) ltac:(simpl; lia)
             ltac:(lia) ltac:(lia)).
Defined.

(** ** [get_extended_attention_mask] *)

Section ExtendedMask.

Local Open Scope R_scope.

Lemma trunc_1 : trunc 1 = 1%Z.
Proof.
  unfold trunc. destruct (Rle_dec 0 1) as [_|Hn]; [|exfalso; lra].
  symmetry. apply Int_part_spec. lra.
Qed.

Lemma trunc_0 : trunc 0 = 0%Z.
Proof.
  unfold trunc. destruct (Rle_dec 0 0) as [_|Hn]; [|exfalso; lra].
  symmetry. apply Int_part_spec. lra.
Qed.

Lemma extended_mask_data (m t : tensor R) :
  get_extended_attention_mask m = Ok t ->
  data t = map (fun x => (1 - IZR (trunc x)) * IZR (-10000)) (data m).
Proof.
  unfold get_extended_attention_mask, unsqueeze.
  repeat match goal with
         | |- context [if ?b then _ else _] => destruct b; simpl
         end;
    try discriminate; intros Ht; inversion Ht; simpl; now rewrite map_map.
Qed.

(** C10. [get_extended_attention_mask] raises [ValueError] exactly when the
    mask has neither two nor three dimensions, and raises nothing else.
    Otherwise it returns a four-dimensional tensor whose second dimension
    (the heads) has size one, with one element per mask element: where the
    mask holds 1 the result holds 0, where it holds 0 the result holds
    -10000. *)
Theorem extended_attention_mask_spec (m : tensor R) :
  (get_extended_attention_mask m = Raise ValueError
   <-> dim m <> 2%nat /\ dim m <> 3%nat) /\
  (forall e, get_extended_attention_mask m = Raise e -> e = ValueError) /\
  (dim m = 2%nat \/ dim m = 3%nat ->
   exists t,
     get_extended_attention_mask m = Ok t /\
     dim t = 4%nat /\
     nth 0 (shape t) 0%nat = nth 0 (shape m) 0%nat /\
     nth 1 (shape t) 0%nat = 1%nat /\
     (dim m = 2%nat -> nth 2 (shape t) 0%nat = 1%nat /\
                       nth 3 (shape t) 0%nat = nth 1 (shape m) 0%nat) /\
     (dim m = 3%nat -> nth 2 (shape t) 0%nat = nth 1 (shape m) 0%nat /\
                       nth 3 (shape t) 0%nat = nth 2 (shape m) 0%nat) /\
     length (data t) = length (data m) /\
     forall i,
       (nth_error (data m) i = Some 1 -> nth_error (data t) i = Some 0) /\
       (nth_error (data m) i = Some 0 ->
        nth_error (data t) i = Some (-10000))).
Proof.
  assert (Hok : dim m = 2%nat \/ dim m = 3%nat ->
                exists t, get_extended_attention_mask m = Ok t /\
                  shape t = nth 0 (shape m) 0%nat :: 1%nat ::
                            (if (dim m =? 2)%nat then [1%nat; nth 1 (shape m) 0%nat]
                             else [nth 1 (shape m) 0%nat; nth 2 (shape m) 0%nat])).
  { unfold get_extended_attention_mask, unsqueeze, dim.
    destruct (shape m) as [|a [|b [|c [|d l]]]] eqn:Hs; simpl;
      intros [Hd|Hd]; try discriminate.
    - unfold dim. simpl. eexists. split; reflexivity.
    - eexists. split; reflexivity. }
  split; [|split].
  - split.
    + intros Hr. split; intros Hd.
      * destruct (Hok (or_introl Hd)) as (t & Ht & _). congruence.
      * destruct (Hok (or_intror Hd)) as (t & Ht & _). congruence.
    + intros [H2 H3]. unfold get_extended_attention_mask.
      destruct (Nat.eqb_spec (dim m) 3); [contradiction|].
      destruct (Nat.eqb_spec (dim m) 2); [contradiction|]. reflexivity.
  - intros e He.
    destruct (Nat.eq_dec (dim m) 2) as [H2|H2];
      [destruct (Hok (or_introl H2)) as (t & Ht & _); congruence|].
    destruct (Nat.eq_dec (dim m) 3) as [H3|H3];
      [destruct (Hok (or_intror H3)) as (t & Ht & _); congruence|].
    unfold get_extended_attention_mask in He.
    destruct (Nat.eqb_spec (dim m) 3); [contradiction|].
    destruct (Nat.eqb_spec (dim m) 2); [contradiction|].
    simpl in He. now inversion He.
  - intros Hd. destruct (Hok Hd) as (t & Ht & Hs).
    exists t. split; [exact Ht|].
    pose proof (extended_mask_data m t Ht) as Hdata.
    unfold dim at 1. rewrite Hs.
    split; [now destruct (dim m =? 2)%nat|].
    split; [reflexivity|]. split; [reflexivity|].
    split; [intros H2; rewrite H2; simpl; now split|].
    split; [intros H3; rewrite H3; simpl; now split|].
    split; [rewrite Hdata; apply length_map|].
    intros i. rewrite Hdata, nth_error_map.
    split; intros ->; simpl; f_equal.
    + rewrite trunc_1. lra.
    + rewrite trunc_0. lra.
Qed.

End ExtendedMask.

(** ** What one layer does to the class state *)

(** Take apart the hypotheses saying that a computation returned. *)
Ltac mstep :=
  repeat match goal with
  | H : bind _ _ _ = (Ok _, _) |- _ =>
      apply bind_ok_inv in H; destruct H as (? & ? & ? & ?)
  | H : lift _ _ = (Ok _, _) |- _ =>
      apply lift_ok_inv in H; destruct H as [? ?]; subst
  | H : ret _ _ = (Ok _, _) |- _ =>
      apply ret_ok_inv in H; destruct H as [? ?]; subst
  | H : raise _ _ = (Ok _, _) |- _ => discriminate H
  | H : getg _ = (Ok _, _) |- _ => unfold getg in H; inversion H; clear H; subst
  | H : (let '(_, _) := ?x in _) _ = (Ok _, _) |- _ => destruct x
  | H : (if ?b then _ else _) _ = (Ok _, _) |- _ => destruct b eqn:?
  | H : (match ?x with _ => _ end) _ = (Ok _, _) |- _ => destruct x eqn:?
  end.

Section LayerEffects.

Context {A : Type} `{Scalar A} {Model : Type}.

Variable softmax : tensor A -> Z -> result (tensor A).
Variable F_dropout : tensor A -> A -> bool -> result (tensor A).
Variable apply_chunking_to_forward :
  (tensor A -> option (tensor A) -> result (tensor A)) ->
  nat -> nat -> tensor A -> option (tensor A) -> result (tensor A).

Lemma CLIPAttention_scores_effect (ca : CLIPAttention A) (layer : Z)
    (hs q : tensor A) (bsz : nat) (ps : list Z) (g g' : globals A Model) w :
  CLIPAttention_scores ca layer hs q bsz ps g = (Ok w, g') ->
  ((layer < START_SHARE_LAYER)%Z /\ g' = g) \/
  ((START_SHARE_LAYER <= layer)%Z /\
   ShareKey_cal_attention (ShareKey g) q layer "vision" 3 = Ok w /\
   g' = with_vision_entry g w).
Proof.
  unfold CLIPAttention_scores.
  destruct (Z.ltb_spec layer START_SHARE_LAYER) as [Hl|Hl]; intros Hs.
  - left. mstep. now split.
  - right. split; [exact Hl|].
    unfold bind, getg, lift in Hs.
    destruct (ShareKey_cal_attention (ShareKey g) q layer "vision" 3) as [w'|e];
      [|discriminate].
    unfold with_vision_entry.
    destruct (append_attention_vision w' g) as [[[]|e] g1] eqn:Ha;
      [|discriminate].
    unfold ret in Hs. inversion Hs; subst.
    split; [reflexivity | now rewrite Ha].
Qed.

Lemma CLIPAttention_forward_effect (ca : CLIPAttention A) (layer : Z)
    (hs : tensor A) (oa : bool) (g g' : globals A Model) r :
  CLIPAttention_forward softmax F_dropout ca layer hs oa g = (Ok r, g') ->
  ((layer < START_SHARE_LAYER)%Z /\ g' = g) \/
  ((START_SHARE_LAYER <= layer)%Z /\
   exists q w, ShareKey_cal_attention (ShareKey g) q layer "vision" 3 = Ok w /\
               g' = with_vision_entry g w).
Proof.
  unfold CLIPAttention_forward. intros Hf. mstep.
  all: match goal with
       | Hs : CLIPAttention_scores _ _ _ _ _ _ _ = _ |- _ =>
           apply CLIPAttention_scores_effect in Hs;
           destruct Hs as [[Hl ->] | (Hl & Hw & ->)];
           [left; now split | right; split; [exact Hl | eauto]]
       end.
Qed.

Lemma BertSelfAttention_scores_effect (bsa : BertSelfAttention A) (layer : Z)
    (hs q : tensor A) (g g' : globals A Model) w :
  BertSelfAttention_scores bsa layer hs q g = (Ok w, g') ->
  g' = g /\
  ((START_SHARE_LAYER <= layer)%Z ->
   ShareKey_cal_attention (ShareKey g) q layer "text" 4 = Ok w).
Proof.
  unfold BertSelfAttention_scores.
  destruct (Z.ltb_spec layer START_SHARE_LAYER) as [Hl|Hl]; intros Hs; mstep.
  - split; [reflexivity | lia].
  - split; [reflexivity | intros _; assumption].
Qed.

Lemma BertSelfAttention_forward_effect (bsa : BertSelfAttention A) (layer : Z)
    (hs : tensor A) (mask hm : option (tensor A)) (oa : bool)
    (g g' : globals A Model) r :
  BertSelfAttention_forward softmax bsa layer hs mask hm oa g = (Ok r, g') ->
  ((layer < START_SHARE_LAYER)%Z /\ g' = g) \/
  ((START_SHARE_LAYER <= layer)%Z /\
   exists w, text_entry_at (ShareKey g) (MODIFY g) (zero (AttentionReg g))
               bsa mask layer w /\
             g' = with_text_entry g w).
Proof.
  unfold BertSelfAttention_forward. intros Hf.
  apply bind_ok_inv in Hf. destruct Hf as (mq & g1 & Hq & Hf).
  apply bind_ok_inv in Hf. destruct Hf as (vl & g2 & Hv & Hf).
  apply bind_ok_inv in Hf. destruct Hf as (ql & g3 & Hql & Hf).
  apply bind_ok_inv in Hf. destruct Hf as (raw & g4 & Hraw & Hf).
  apply bind_ok_inv in Hf. destruct Hf as (scores & g5 & Hsc & Hf).
  apply bind_ok_inv in Hf. destruct Hf as ([] & g6 & Happ & Hf).
  assert (Hrest : g' = g6) by (clear -Hf; mstep; reflexivity).
  subst g'. clear Hf.
  apply lift_ok_inv in Hq. destruct Hq as [Hq ->].
  apply lift_ok_inv in Hv. destruct Hv as [Hv ->].
  apply lift_ok_inv in Hql. destruct Hql as [Hql ->].
  apply BertSelfAttention_scores_effect in Hraw. destruct Hraw as [-> Hraw].
  assert (Hscores : text_scores bsa mask raw = Ok scores /\ g5 = g).
  { unfold text_scores. destruct mask; mstep; now split. }
  destruct Hscores as [Hscores ->]. clear Hsc.
  destruct (Z.leb_spec START_SHARE_LAYER layer) as [Hl|Hl].
  - right. split; [exact Hl|]. specialize (Hraw Hl).
    apply bind_ok_inv in Happ. destruct Happ as (g0 & g7 & Hg & Happ).
    unfold getg in Hg. inversion Hg; subst g0 g7; clear Hg.
    destruct (MODIFY g) eqn:Hmod.
    + apply bind_ok_inv in Happ. destruct Happ as (w & g8 & Hw & Happ).
      apply lift_ok_inv in Hw. destruct Hw as [Hw ->].
      exists w. split.
      * exists ql, raw, scores. now repeat split.
      * unfold with_text_entry. now rewrite Happ.
    + exists scores. split.
      * exists ql, raw, scores. now repeat split.
      * unfold with_text_entry. now rewrite Happ.
  - left. split; [exact Hl|]. now mstep.
Qed.

End LayerEffects.

(** ** Appending to the attention lists *)

Section AppendedFacts.

Context {A : Type} {Model : Type}.

Lemma appended_refl (g : globals A Model) : appended g g [] [].
Proof.
  unfold appended, same_but_lists. rewrite !app_nil_r. repeat split.
Qed.

Lemma appended_trans (g g1 g2 : globals A Model) vs ts vs' ts' :
  appended g g1 vs ts -> appended g1 g2 vs' ts' ->
  appended g g2 (vs ++ vs') (ts ++ ts').
Proof.
  unfold appended, same_but_lists.
  intros ((S1 & M1 & E1 & A1 & B1 & C1 & D1 & Z1) & V1 & T1)
         ((S2 & M2 & E2 & A2 & B2 & C2 & D2 & Z2) & V2 & T2).
  rewrite V2, V1, T2, T1, !app_assoc.
  repeat split; congruence.
Qed.

Lemma appended_vision (g : globals A Model) (w : tensor A) :
  appended g (with_vision_entry g w) [w] [].
Proof.
  unfold appended, same_but_lists, with_vision_entry. simpl.
  rewrite app_nil_r. repeat split.
Qed.

Lemma appended_text (g : globals A Model) (w : tensor A) :
  appended g (with_text_entry g w) [] [w].
Proof.
  unfold appended, same_but_lists, with_text_entry. simpl.
  rewrite app_nil_r. repeat split.
Qed.

Lemma shared_layers_seq (n : nat) :
  shared_layers (seq 0 n)
  = seq (Z.to_nat START_SHARE_LAYER) (n - Z.to_nat START_SHARE_LAYER).
Proof.
  unfold shared_layers. induction n as [|n IH]; [reflexivity|].
  rewrite seq_S, filter_app, IH. cbn [filter Nat.add].
  destruct (Z.leb_spec START_SHARE_LAYER (Z.of_nat n)) as [Hn|Hn].
  - replace (S n - Z.to_nat START_SHARE_LAYER)
      with (S (n - Z.to_nat START_SHARE_LAYER)) by lia.
    rewrite seq_S. do 2 f_equal. lia.
  - replace (S n - Z.to_nat START_SHARE_LAYER) with 0 by (unfold START_SHARE_LAYER in *; lia).
    replace (n - Z.to_nat START_SHARE_LAYER) with 0 by (unfold START_SHARE_LAYER in *; lia).
    reflexivity.
Qed.

Lemma py_index_nat {X} (l : list X) (i : nat) (x : X) :
  py_index l (Z.of_nat i) = Ok x -> nth_error l i = Some x.
Proof.
  unfold py_index.
  destruct (Z.ltb_spec (Z.of_nat i) 0); [lia|].
  destruct ((0 <=? Z.of_nat i) && (Z.of_nat i <? Z.of_nat (length l)))%Z;
    [|discriminate].
  rewrite Nat2Z.id. destruct (nth_error l i); [|discriminate].
  intros Hx. now inversion Hx.
Qed.

End AppendedFacts.

Section EncoderFacts.

Context {A : Type} `{Scalar A} {Model : Type}.

Variable softmax : tensor A -> Z -> result (tensor A).
Variable F_dropout : tensor A -> A -> bool -> result (tensor A).
Variable apply_chunking_to_forward :
  (tensor A -> option (tensor A) -> result (tensor A)) ->
  nat -> nat -> tensor A -> option (tensor A) -> result (tensor A).

Lemma CLIPEncoderLayer_forward_effect (self : CLIPEncoderLayer A) (layer : Z)
    (hs : tensor A) (oa : bool) (g g' : globals A Model) out :
  CLIPEncoderLayer_forward softmax F_dropout self layer hs oa g = (Ok out, g') ->
  (exists h, nth_error out 0 = Some (Some h)) /\
  (((layer < START_SHARE_LAYER)%Z /\ g' = g) \/
   ((START_SHARE_LAYER <= layer)%Z /\
    exists w, vision_entry_at (ShareKey g) layer w /\
              g' = with_vision_entry g w)).
Proof.
  unfold CLIPEncoderLayer_forward. intros Hf.
  apply bind_ok_inv in Hf. destruct Hf as (h1 & g1 & Hn & Hf).
  apply lift_ok_inv in Hn. destruct Hn as [Hn ->].
  apply bind_ok_inv in Hf. destruct Hf as ([h2 aw] & g2 & Ha & Hf).
  apply CLIPAttention_forward_effect in Ha.
  assert (Hrest : g' = g2 /\ exists h, nth_error out 0 = Some (Some h)).
  { clear Ha. mstep; (split; [reflexivity | eexists; destruct oa; reflexivity]). }
  destruct Hrest as [-> Hout]. split; [exact Hout|].
  destruct Ha as [Ha | (Hl & q & w & Hw & Hg)]; [now left|].
  right. split; [exact Hl|]. exists w. split; [now exists q | exact Hg].
Qed.

Lemma BertLayer_forward_effect (self : BertLayer A) (layer : Z)
    (hs : tensor A) (mask hm : option (tensor A)) (oa oq : bool)
    (g g' : globals A Model) out :
  BertLayer_forward softmax apply_chunking_to_forward self layer hs mask hm
    oa oq g = (Ok out, g') ->
  (exists h, nth_error out 0 = Some (Some h)) /\
  (((layer < START_SHARE_LAYER)%Z /\ g' = g) \/
   ((START_SHARE_LAYER <= layer)%Z /\
    exists w, text_entry_at (ShareKey g) (MODIFY g) (zero (AttentionReg g))
                (ba_self (bl_attention self)) mask layer w /\
              g' = with_text_entry g w)).
Proof.
  unfold BertLayer_forward, BertAttention_forward. intros Hf.
  apply bind_ok_inv in Hf. destruct Hf as ([[so fo] qks] & g1 & Ha & Hf).
  apply bind_ok_inv in Ha. destruct Ha as ([[so' fo'] qks'] & g2 & Ha & Hb).
  apply BertSelfAttention_forward_effect in Ha.
  assert (Hrest : g' = g2 /\ exists h, nth_error out 0 = Some (Some h)).
  { clear Ha. mstep; (split; [reflexivity | eexists; destruct oq; reflexivity]). }
  destruct Hrest as [-> Hout]. split; [exact Hout|]. exact Ha.
Qed.

End EncoderFacts.

(** ** The loop of [UnimoEncoder.forward] *)

Section EncoderLoop.

Context {A : Type} `{Scalar A} {Model : Type}.

Variable softmax : tensor A -> Z -> result (tensor A).
Variable F_dropout : tensor A -> A -> bool -> result (tensor A).
Variable apply_chunking_to_forward :
  (tensor A -> option (tensor A) -> result (tensor A)) ->
  nat -> nat -> tensor A -> option (tensor A) -> result (tensor A).

Variable self : UnimoEncoder A.
Variable attention_mask : option (tensor A).
Variable head_mask : option (list (option (tensor A))).
Variable output_attentions output_hidden_states : bool.

Local Abbreviation body :=
  (encoder_body (Model:=Model) softmax F_dropout apply_chunking_to_forward self
     attention_mask head_mask output_attentions output_hidden_states).

Local Abbreviation alt :=
  (alternates (Model:=Model) softmax F_dropout apply_chunking_to_forward self
     attention_mask head_mask output_attentions).

Lemma as_tensor_index (out : tuple A) (t : tensor A) :
  (x <-- py_index out 0 ;; as_tensor x)%res = Ok t ->
  nth_error out 0 = Some (Some t).
Proof.
  intros Hx. apply rbind_ok_inv in Hx. destruct Hx as (x & Hx & Ht).
  apply (py_index_nat out 0) in Hx. rewrite Hx.
  destruct x; simpl in Ht; [now inversion Ht | discriminate].
Qed.

(** One iteration calls the vision layer of that index on the vision
    stream, then the text layer of that index on the text stream. *)
Lemma encoder_body_inv (idx : nat) (v v1 : loop_vars A) (g g2 : globals A Model) :
  body idx v g = (Ok v1, g2) ->
  exists vl vout g1 tl lhm tout,
    nth_error (vision_layers self) idx = Some vl /\
    CLIPEncoderLayer_forward softmax F_dropout vl (Z.of_nat idx)
      (vision_hidden_states v) output_attentions g = (Ok vout, g1) /\
    nth_error vout 0 = Some (Some (vision_hidden_states v1)) /\
    nth_error (text_layer self) idx = Some tl /\
    layer_head_mask head_mask idx = Ok lhm /\
    BertLayer_forward softmax apply_chunking_to_forward tl (Z.of_nat idx)
      (text_hidden_states v) attention_mask lhm output_attentions false g1
    = (Ok tout, g2) /\
    nth_error tout 0 = Some (Some (text_hidden_states v1)).
Proof.
  unfold encoder_body. intros Hb.
  apply bind_ok_inv in Hb. destruct Hb as ([avh ath] & g0 & Hhs & Hb).
  assert (g0 = g) by (clear Hb; mstep; reflexivity). subst g0. clear Hhs.
  apply bind_ok_inv in Hb. destruct Hb as (vl & g0 & Hvl & Hb).
  apply lift_ok_inv in Hvl. destruct Hvl as [Hvl ->].
  apply bind_ok_inv in Hb. destruct Hb as (vout & g1 & Hv & Hb).
  apply bind_ok_inv in Hb. destruct Hb as (vh' & g0 & Hvh & Hb).
  apply lift_ok_inv in Hvh. destruct Hvh as [Hvh ->].
  apply bind_ok_inv in Hb. destruct Hb as (lhm & g0 & Hlhm & Hb).
  assert (Hlhm' : layer_head_mask head_mask idx = Ok lhm /\ g0 = g1).
  { unfold layer_head_mask. destruct head_mask; mstep; now split. }
  destruct Hlhm' as [Hlhm' ->]. clear Hlhm.
  apply bind_ok_inv in Hb. destruct Hb as (tl & g0 & Htl & Hb).
  apply lift_ok_inv in Htl. destruct Htl as [Htl ->].
  apply bind_ok_inv in Hb. destruct Hb as (tout & g3 & Ht & Hb).
  apply bind_ok_inv in Hb. destruct Hb as (th' & g0 & Hth & Hb).
  apply lift_ok_inv in Hth. destruct Hth as [Hth ->].
  apply bind_ok_inv in Hb. destruct Hb as ([ava ata] & g0 & Hatt & Hb).
  assert (g0 = g3) by (clear Hb; mstep; reflexivity). subst g0. clear Hatt.
  apply ret_ok_inv in Hb. destruct Hb as [-> ->].
  exists vl, vout, g1, tl, lhm, tout. cbn [vision_hidden_states text_hidden_states].
  repeat split; try assumption.
  - now apply py_index_nat.
  - now apply as_tensor_index.
  - now apply py_index_nat.
  - now apply as_tensor_index.
Qed.

Lemma for_each_alternates (k start : nat) (v v' : loop_vars A)
    (g g' : globals A Model) :
  for_each body (seq start k) v g = (Ok v', g') ->
  alt start k (vision_hidden_states v) (text_hidden_states v) g
      (vision_hidden_states v') (text_hidden_states v') g'.
Proof.
  revert start v g. induction k as [|k IH]; intros start v g Hf.
  - simpl in Hf. apply ret_ok_inv in Hf. destruct Hf as [-> ->]. constructor.
  - cbn [seq for_each] in Hf.
    apply bind_ok_inv in Hf. destruct Hf as (v1 & g2 & Hb & Hf).
    apply encoder_body_inv in Hb.
    destruct Hb as (vl & vout & g1 & tl & lhm & tout & Hvl & Hv & Hvo & Htl &
                    Hlhm & Ht & Hto).
    eapply alt_step; eauto.
Qed.

(** The state passes through the shared layers only by appending. *)
Lemma alternates_appended (start k : nat) (v t v' t' : tensor A)
    (g g' : globals A Model) :
  alt start k v t g v' t' g' ->
  exists vs ts,
    appended g g' vs ts /\
    Forall2 (fun l w => vision_entry_at (ShareKey g) (Z.of_nat l) w)
            (shared_layers (seq start k)) vs /\
    Forall2 (fun l w => exists tl,
               nth_error (text_layer self) l = Some tl /\
               text_entry_at (ShareKey g) (MODIFY g) (zero (AttentionReg g))
                 (ba_self (bl_attention tl)) attention_mask (Z.of_nat l) w)
            (shared_layers (seq start k)) ts.
Proof.
  induction 1 as [idx v t g
                 |idx k v t g vl vout v1 g1 tl lhm tout t1 g2 v' t' g'
                  Hvl Hv Hvo Htl Hlhm Ht Hto Halt IH].
  - exists [], []. split; [apply appended_refl|]. split; constructor.
  - destruct IH as (vs & ts & Happ & Hvs & Hts).
    apply CLIPEncoderLayer_forward_effect in Hv. destruct Hv as [_ Hv].
    apply BertLayer_forward_effect in Ht. destruct Ht as [_ Ht].
    cbn [seq shared_layers filter]. fold (shared_layers (seq (S idx) k)).
    destruct Hv as [[Hl ->] | (Hl & wv & Hwv & ->)];
      destruct Ht as [[Hl' ->] | (Hl' & wt & Hwt & ->)]; try lia.
    + destruct (Z.leb_spec START_SHARE_LAYER (Z.of_nat idx)); [lia|].
      exists vs, ts. split; [exact Happ | split; assumption].
    + destruct (Z.leb_spec START_SHARE_LAYER (Z.of_nat idx)); [|lia].
      pose proof (appended_vision g wv) as Hav.
      pose proof (appended_text (with_vision_entry g wv) wt) as Hat.
      pose proof (appended_trans _ _ _ _ _ _ _ Hav Hat) as H12.
      pose proof (appended_trans _ _ _ _ _ _ _ H12 Happ) as Hall.
      cbn [app] in Hall.
      destruct H12 as ((S1 & M1 & _ & _ & _ & _ & _ & Z1) & _).
      exists (wv :: vs), (wt :: ts). split; [exact Hall|]. split.
      * constructor; [exact Hwv|].
        rewrite S1 in Hvs. exact Hvs.
      * constructor.
        -- exists tl. split; [exact Htl | exact Hwt].
        -- rewrite S1, M1, Z1 in Hts. exact Hts.
Qed.

(** A returning pass of the encoder ran its layers in alternation and
    returns the two final hidden states first. *)
Lemma UnimoEncoder_forward_inv (vision_embeds text_embeds : tensor A)
    (return_dict : bool) (g g' : globals A Model) (out : list (pyval A)) :
  UnimoEncoder_forward softmax F_dropout apply_chunking_to_forward self
    vision_embeds text_embeds attention_mask head_mask output_attentions
    output_hidden_states return_dict g = (Ok out, g') ->
  vision_num_hidden_layers self = text_num_hidden_layers self /\
  return_dict = false /\
  exists vN tN,
    alt 0 (vision_num_hidden_layers self) vision_embeds text_embeds g vN tN g' /\
    nth_error out 0 = Some (PTensor tN) /\
    nth_error out 1 = Some (PTensor vN).
Proof.
  unfold UnimoEncoder_forward. intros Hf.
  apply bind_ok_inv in Hf. destruct Hf as ([] & g0 & Has & Hf).
  unfold assert in Has.
  destruct (Nat.eqb_spec (vision_num_hidden_layers self)
              (text_num_hidden_layers self)) as [Hn|Hn]; [|discriminate].
  apply ret_ok_inv in Has. destruct Has as [_ ->].
  apply bind_ok_inv in Hf. destruct Hf as (v & g1 & Hloop & Hf).
  apply for_each_alternates in Hloop. cbn [vision_hidden_states text_hidden_states] in Hloop.
  apply bind_ok_inv in Hf. destruct Hf as ([avh ath] & g0 & Hhs & Hf).
  assert (g0 = g1) by (clear Hf; mstep; reflexivity). subst g0. clear Hhs.
  destruct return_dict; cbn [negb] in Hf; [discriminate|].
  apply ret_ok_inv in Hf. destruct Hf as [-> ->].
  split; [exact Hn|]. split; [reflexivity|].
  exists (vision_hidden_states v), (text_hidden_states v).
  split; [exact Hloop|]. split; reflexivity.
Qed.

End EncoderLoop.

(** ** The forward pass of the encoder *)

Section EncoderTheorems.

Context {A : Type} `{Scalar A} {Model : Type}.

Variable softmax : tensor A -> Z -> result (tensor A).
Variable F_dropout : tensor A -> A -> bool -> result (tensor A).
Variable apply_chunking_to_forward :
  (tensor A -> option (tensor A) -> result (tensor A)) ->
  nat -> nat -> tensor A -> option (tensor A) -> result (tensor A).

(** The assertion of [UnimoEncoder.forward]: with different numbers of
    vision and text layers the pass raises before any layer runs. *)
Lemma encoder_asserts_equal_layers (self : UnimoEncoder A)
    (vision_embeds text_embeds : tensor A) (attention_mask : option (tensor A))
    (head_mask : option (list (option (tensor A))))
    (output_attentions output_hidden_states return_dict : bool)
    (g : globals A Model) :
  vision_num_hidden_layers self <> text_num_hidden_layers self ->
  UnimoEncoder_forward softmax F_dropout apply_chunking_to_forward self
    vision_embeds text_embeds attention_mask head_mask output_attentions
    output_hidden_states return_dict g = (Raise AssertionError, g).
Proof.
  intros Hn. unfold UnimoEncoder_forward, bind, assert.
  destruct (Nat.eqb_spec (vision_num_hidden_layers self)
              (text_num_hidden_layers self)); [contradiction | reflexivity].
Qed.

(** C4. A forward pass of [UnimoEncoder] that returns has passed the
    assertion that both configurations have the same number of layers, and
    its two streams alternate: for [idx] from 0 to [num_hidden_layers - 1],
    vision layer [idx] runs on the vision hidden states, then text layer
    [idx] runs on the text hidden states in the class state the vision layer
    left, and each layer's first output is the input of the same stream's
    next layer.  The pass returns the final text and vision hidden states as
    its first two items. *)
Theorem encoder_streams_alternate (self : UnimoEncoder A)
    (vision_embeds text_embeds : tensor A) (attention_mask : option (tensor A))
    (head_mask : option (list (option (tensor A))))
    (output_attentions output_hidden_states return_dict : bool)
    (g g' : globals A Model) (out : list (pyval A)) :
  UnimoEncoder_forward softmax F_dropout apply_chunking_to_forward self
    vision_embeds text_embeds attention_mask head_mask output_attentions
    output_hidden_states return_dict g = (Ok out, g') ->
  vision_num_hidden_layers self = text_num_hidden_layers self /\
  exists vN tN,
    alternates softmax F_dropout apply_chunking_to_forward self attention_mask
      head_mask output_attentions 0 (vision_num_hidden_layers self)
      vision_embeds text_embeds g vN tN g' /\
    nth_error out 0 = Some (PTensor tN) /\
    nth_error out 1 = Some (PTensor vN).
Proof.
  intros Hf. apply UnimoEncoder_forward_inv in Hf.
  destruct Hf as (Hn & _ & vN & tN & Halt & Ht & Hv).
  split; [exact Hn|]. exists vN, tN. now repeat split.
Qed.

(** C7. A forward pass of [UnimoEncoder] that returns leaves the class state
    as it was except that it has appended, to each of
    [AttentionReg.attention_vision_list] and
    [AttentionReg.attention_text_list],
    [num_hidden_layers - START_SHARE_LAYER] entries (three for twelve
    layers): entry [k] is the one computed at layer [START_SHARE_LAYER + k],
    for vision the scores of [ShareKey.cal_attention], for text those scores
    scaled and masked (and passed through [torch.where] under [MODIFY]).
    [AttentionReg.clear_attention_list] empties both lists and changes
    nothing else. *)
Theorem encoder_appends_one_entry_per_shared_layer (self : UnimoEncoder A)
    (vision_embeds text_embeds : tensor A) (attention_mask : option (tensor A))
    (head_mask : option (list (option (tensor A))))
    (output_attentions output_hidden_states return_dict : bool)
    (g g' : globals A Model) (out : list (pyval A)) :
  UnimoEncoder_forward softmax F_dropout apply_chunking_to_forward self
    vision_embeds text_embeds attention_mask head_mask output_attentions
    output_hidden_states return_dict g = (Ok out, g') ->
  (exists vs ts,
     attention_vision_list (AttentionReg g')
     = attention_vision_list (AttentionReg g) ++ vs /\
     attention_text_list (AttentionReg g')
     = attention_text_list (AttentionReg g) ++ ts /\
     same_but_lists g g' /\
     length vs = vision_num_hidden_layers self - Z.to_nat START_SHARE_LAYER /\
     length ts = vision_num_hidden_layers self - Z.to_nat START_SHARE_LAYER /\
     (vision_num_hidden_layers self = 12 -> length vs = 3 /\ length ts = 3) /\
     Forall2 (fun l w => vision_entry_at (ShareKey g) (Z.of_nat l) w)
       (seq (Z.to_nat START_SHARE_LAYER)
            (vision_num_hidden_layers self - Z.to_nat START_SHARE_LAYER)) vs /\
     Forall2 (fun l w => exists tl,
                nth_error (text_layer self) l = Some tl /\
                text_entry_at (ShareKey g) (MODIFY g) (zero (AttentionReg g))
                  (ba_self (bl_attention tl)) attention_mask (Z.of_nat l) w)
       (seq (Z.to_nat START_SHARE_LAYER)
            (vision_num_hidden_layers self - Z.to_nat START_SHARE_LAYER)) ts) /\
  (forall g0 : globals A Model,
     exists g1,
       AttentionReg_clear_attention_list g0 = (Ok tt, g1) /\
       attention_vision_list (AttentionReg g1) = [] /\
       attention_text_list (AttentionReg g1) = [] /\
       same_but_lists g0 g1).
Proof.
  intros Hf. split.
  - apply UnimoEncoder_forward_inv in Hf.
    destruct Hf as (_ & _ & vN & tN & Halt & _ & _).
    apply alternates_appended in Halt.
    destruct Halt as (vs & ts & (Hsame & Hv & Ht) & Hvs & Hts).
    rewrite shared_layers_seq in Hvs, Hts.
    assert (Hlv : length vs
                  = vision_num_hidden_layers self - Z.to_nat START_SHARE_LAYER).
    { rewrite <- (Forall2_length Hvs). apply length_seq. }
    assert (Hlt : length ts
                  = vision_num_hidden_layers self - Z.to_nat START_SHARE_LAYER).
    { rewrite <- (Forall2_length Hts). apply length_seq. }
    exists vs, ts.
    split; [exact Hv|]. split; [exact Ht|]. split; [exact Hsame|].
    split; [exact Hlv|]. split; [exact Hlt|].
    split; [|split; assumption].
    intros H12. rewrite Hlv, Hlt, H12. split; reflexivity.
  - intros g0. exists (snd (AttentionReg_clear_attention_list g0)).
    split; [reflexivity|]. unfold same_but_lists. repeat split.
Qed.

End EncoderTheorems.

(** The twelve-layer example encoder returns on the example inputs. *)
Lemma ex_encoder_returns :
  UnimoEncoder_forward ex_softmax ex_F_dropout ex_chunking ex_encoder
    ex_hidden ex_hidden (Some ex_mask) None false false false ex_globals
  = (Ok [PTensor ex_hidden; PTensor ex_hidden],
     snd (UnimoEncoder_forward ex_softmax ex_F_dropout ex_chunking ex_encoder
            ex_hidden ex_hidden (Some ex_mask) None false false false
            ex_globals)).
Proof. vm_compute. reflexivity. Qed.

(** The twelve layers of the example encoder alternate. *)
Lemma encoder_streams_alternate_witness :
  exists vN tN g',
    alternates ex_softmax ex_F_dropout ex_chunking ex_encoder (Some ex_mask)
      None false 0 12 ex_hidden ex_hidden ex_globals vN tN g'.
Proof.
  destruct (encoder_streams_alternate _ _ _ _ _ _ _ _ _ _ _ _ _ _
              ex_encoder_returns) as (_ & vN & tN & Halt & _).
  exists vN, tN. eexists. exact Halt.
Defined.

(** The example pass appends three entries to each list. *)
Lemma encoder_appends_witness :
  exists vs ts,
    attention_vision_list
      (AttentionReg
         (snd (UnimoEncoder_forward ex_softmax ex_F_dropout ex_chunking
                 ex_encoder ex_hidden ex_hidden (Some ex_mask) None
                 false false false ex_globals)))
    = [] ++ vs /\
    attention_text_list
      (AttentionReg
         (snd (UnimoEncoder_forward ex_softmax ex_F_dropout ex_chunking
                 ex_encoder ex_hidden ex_hidden (Some ex_mask) None
                 false false false ex_globals)))
    = [] ++ ts /\
    length vs = 3 /\ length ts = 3.
Proof.
  destruct (encoder_appends_one_entry_per_shared_layer _ _ _ _ _ _ _ _ _ _ _ _
              _ _ ex_encoder_returns)
    as ((vs & ts & Hv & Ht & _ & Hlv & Hlt & _) & _).
  exists vs, ts. repeat split; assumption.
Defined.

(** ** The forward pass of the model *)

Section ModelTheorems.

Context {A : Type} `{Scalar A} {Model : Type}.

Variable softmax : tensor A -> Z -> result (tensor A).
Variable F_dropout : tensor A -> A -> bool -> result (tensor A).
Variable apply_chunking_to_forward :
  (tensor A -> option (tensor A) -> result (tensor A)) ->
  nat -> nat -> tensor A -> option (tensor A) -> result (tensor A).

Lemma pyval_tensor_index (out : list (pyval A)) (i : nat) (t : tensor A) :
  (x <-- py_index out (Z.of_nat i) ;; pyval_tensor x)%res = Ok t ->
  nth_error out i = Some (PTensor t).
Proof.
  intros Hx. apply rbind_ok_inv in Hx. destruct Hx as (x & Hx & Ht).
  apply py_index_nat in Hx. rewrite Hx.
  destruct x; simpl in Ht; [now inversion Ht | discriminate].
Qed.

(** C8. A call of [UnimoModel.forward] that returns returns the three items
    of the ['cat'] branch: the text output of the encoder, the result of
    [fusion_module] on the two encoder outputs, and the logits of
    [cat_classifier] on these.  The ['sep'] branch is dead: every call,
    returning or raising, has the same outcome and final state whatever
    [text_classifier] and [vision_classifier] are. *)
Theorem model_forward_returns_cat_branch (self : UnimoModel A)
    (input_ids : tensor A)
    (attention_mask token_type_ids position_ids head_mask : option (tensor A))
    (pixel_values : tensor A) (aux_values rcnn_values : option (list (tensor A)))
    (output_attentions output_hidden_states return_dict : bool)
    (g g' : globals A Model) (out : list (tensor A)) :
  UnimoModel_forward softmax F_dropout apply_chunking_to_forward self input_ids
    attention_mask token_type_ids position_ids head_mask pixel_values
    aux_values rcnn_values output_attentions output_hidden_states return_dict g
  = (Ok out, g') ->
  (exists vision_embeds text_embeds extended_attention_mask g0 g1 encoder_outputs
          text_output vision_output vision_seq_in_text cat_logits,
     UnimoEncoder_forward softmax F_dropout apply_chunking_to_forward
       (encoder self) vision_embeds text_embeds (Some extended_attention_mask)
       None output_attentions output_hidden_states false g0
     = (Ok encoder_outputs, g1) /\
     nth_error encoder_outputs 0 = Some (PTensor text_output) /\
     nth_error encoder_outputs 1 = Some (PTensor vision_output) /\
     fusion_module text_output vision_output g1 = (Ok vision_seq_in_text, g') /\
     CatClassifier_forward (cat_classifier self) vision_seq_in_text text_output
     = Ok cat_logits /\
     out = [text_output; vision_seq_in_text; cat_logits]) /\
  (forall (tc vc : Classifier A) (g0 : globals A Model),
     UnimoModel_forward softmax F_dropout apply_chunking_to_forward
       (with_classifiers self tc vc) input_ids attention_mask token_type_ids
       position_ids head_mask pixel_values aux_values rcnn_values
       output_attentions output_hidden_states return_dict g0
     = UnimoModel_forward softmax F_dropout apply_chunking_to_forward
         self input_ids attention_mask token_type_ids
         position_ids head_mask pixel_values aux_values rcnn_values
         output_attentions output_hidden_states return_dict g0).
Proof.
  intros Hf. split.
  - unfold UnimoModel_forward in Hf.
    apply bind_ok_inv in Hf. destruct Hf as (ve & g0 & Hve & Hf).
    apply lift_ok_inv in Hve. destruct Hve as [Hve ->].
    apply bind_ok_inv in Hf. destruct Hf as ([bs sl] & g0 & Hsz & Hf).
    apply lift_ok_inv in Hsz. destruct Hsz as [Hsz ->].
    apply bind_ok_inv in Hf. destruct Hf as ([] & g0 & Htt & Hf).
    assert (g0 = g) by (destruct token_type_ids; mstep; reflexivity).
    subst g0. clear Htt.
    apply bind_ok_inv in Hf. destruct Hf as (em & g0 & Hem & Hf).
    apply lift_ok_inv in Hem. destruct Hem as [Hem ->].
    apply bind_ok_inv in Hf. destruct Hf as (te & g0 & Hte & Hf).
    apply bind_ok_inv in Hf. destruct Hf as (eo & g1 & Henc & Hf).
    apply bind_ok_inv in Hf. destruct Hf as (to & g2 & Hto & Hf).
    apply lift_ok_inv in Hto. destruct Hto as [Hto ->].
    apply bind_ok_inv in Hf. destruct Hf as (vo & g2 & Hvo & Hf).
    apply lift_ok_inv in Hvo. destruct Hvo as [Hvo ->].
    cbn [nth String.eqb Ascii.eqb Bool.eqb andb] in Hf.
    apply bind_ok_inv in Hf. destruct Hf as (vs & g2 & Hfu & Hf).
    apply bind_ok_inv in Hf. destruct Hf as (cl & g3 & Hcl & Hf).
    apply lift_ok_inv in Hcl. destruct Hcl as [Hcl ->].
    apply ret_ok_inv in Hf. destruct Hf as [-> ->].
    exists ve, te, em, g0, g1, eo, to, vo, vs, cl.
    split; [exact Henc|].
    split; [now apply (pyval_tensor_index eo 0)|].
    split; [now apply (pyval_tensor_index eo 1)|].
    now repeat split.
  - intros tc vc g0. reflexivity.
Qed.

End ModelTheorems.

(** The example model returns three tensors. *)
Lemma ex_model_returns :
  UnimoModel_forward ex_softmax ex_F_dropout ex_chunking ex_model ex_input_ids
    None (Some ex_token_type_ids) None None ex_hidden None None
    false false false ex_globals
  = (Ok [mkT [1; 2; 2] [3; 3; 3; 3]%Z;
         mkT [1; 2; 2] [2; 3; 2; 3]%Z;
         mkT [1; 2; 4] [2; 3; 3; 3; 2; 3; 3; 3]%Z],
     snd (UnimoModel_forward ex_softmax ex_F_dropout ex_chunking ex_model
            ex_input_ids None (Some ex_token_type_ids) None None ex_hidden
            None None false false false ex_globals)).
Proof. vm_compute. reflexivity. Qed.

(** The example call returns the three items of the ['cat'] branch. *)
Lemma model_forward_witness :
  exists text_output vision_seq_in_text cat_logits,
    fst (UnimoModel_forward ex_softmax ex_F_dropout ex_chunking ex_model
           ex_input_ids None (Some ex_token_type_ids) None None ex_hidden
           None None false false false ex_globals)
    = Ok [text_output; vision_seq_in_text; cat_logits] /\
    CatClassifier_forward (cat_classifier ex_model) vision_seq_in_text
      text_output = Ok cat_logits.
Proof.
  destruct (model_forward_returns_cat_branch _ _ _ _ _ _ _ _ _ _ _ _ _ _ _ _ _
              _ ex_model_returns)
    as ((ve & te & em & g0 & g1 & eo & to & vo & vs & cl &
         _ & _ & _ & _ & Hcl & Hout) & _).
  exists to, vs, cl. split; [|exact Hcl].
  rewrite ex_model_returns. cbn [fst]. now rewrite Hout.
Defined.

(** ** Runs on the concrete inputs *)

(** The vision scores of a shared layer: [q . key] spread along the last
    axis, plus the bias. *)
Example cal_attention_run :
  ShareKey_cal_attention ex_ShareKey ex_query 9 "vision" 3
  = Ok (mkT [1; 2; 2] [15; 25; 41; 51]%Z).
Proof. vm_compute. reflexivity. Qed.

(** A query of length one is broadcast against the bias of side two. *)
Example cal_attention_run_length_one :
  ShareKey_cal_attention ex_ShareKey (mkT [1; 1; 2] [1; 2]%Z) 9 "vision" 3
  = Ok (mkT [1; 2; 2] [15; 25; 35; 45]%Z).
Proof. vm_compute. reflexivity. Qed.

(** Negative layer indices count from the last layer, as in Python. *)
Example cal_attention_run_negative_layer :
  ShareKey_cal_attention ex_ShareKey ex_query (-1) "vision" 3
  = ShareKey_cal_attention ex_ShareKey ex_query 11 "vision" 3.
Proof. vm_compute. reflexivity. Qed.

Example cal_attention_run_bad_modality :
  ShareKey_cal_attention ex_ShareKey ex_query 9 "audio" 3
  = Raise AssertionError.
Proof. vm_compute. reflexivity. Qed.

Example cal_attention_run_no_such_layer :
  ShareKey_cal_attention ex_ShareKey ex_query 12 "vision" 3
  = Raise IndexError.
Proof. vm_compute. reflexivity. Qed.

(** An empty batch: [view] cannot infer the length. *)
Example cal_attention_run_empty_batch :
  ShareKey_cal_attention ex_ShareKey (mkT [0; 2; 2] []) 9 "vision" 3
  = Raise RuntimeError.
Proof. vm_compute. reflexivity. Qed.

Example extended_mask_run :
  get_extended_attention_mask (mkT [2; 3] [1; 1; 0; 1; 0; 0]%Z)
  = Ok (mkT [2; 1; 1; 3] [0; 0; -10000; 0; -10000; -10000]%Z).
Proof. vm_compute. reflexivity. Qed.

Example extended_mask_run_one_dimension :
  get_extended_attention_mask (mkT [3] [1; 1; 0]%Z) = Raise ValueError.
Proof. vm_compute. reflexivity. Qed.

(** The twelve-layer example pass leaves three entries in each list. *)
Example encoder_run_lists :
  let g' := snd (UnimoEncoder_forward ex_softmax ex_F_dropout ex_chunking
                   ex_encoder ex_hidden ex_hidden (Some ex_mask) None
                   false false false ex_globals) in
  attention_vision_list (AttentionReg g')
  = repeat (mkT [1; 2; 2] [15; 25; 41; 51]%Z) 3 /\
  attention_text_list (AttentionReg g')
  = repeat (mkT [1; 1; 2; 2] [15; 25; 41; 51]%Z) 3.
Proof. vm_compute. split; reflexivity. Qed.

(** With thirteen layers over the twelve of [ShareKey], the pass raises at
    layer 12, after the entries of layers 9 to 11 were appended. *)
Example encoder_run_too_many_layers :
  let r := UnimoEncoder_forward ex_softmax ex_F_dropout ex_chunking
             {| vision_num_hidden_layers := 13; text_num_hidden_layers := 13;
                vision_layers := repeat ex_CLIPEncoderLayer 13;
                text_layer := repeat ex_BertLayer 13 |}
             ex_hidden ex_hidden (Some ex_mask) None false false false
             ex_globals in
  fst r = Raise IndexError /\
  length (attention_vision_list (AttentionReg (snd r))) = 3.
Proof. vm_compute. split; reflexivity. Qed.

(** ** More on indices *)

Lemma indices_in_shape (s idx : list nat) :
  In idx (indices s) -> in_shape s idx.
Proof.
  unfold in_shape. revert idx. induction s as [|n s IH]; intros idx Hin.
  - simpl in Hin. destruct Hin as [<-|[]]. constructor.
  - simpl in Hin. apply in_flat_map in Hin. destruct Hin as (i & Hi & Hin).
    apply in_map_iff in Hin. destruct Hin as (idx' & <- & Hin').
    apply in_seq in Hi. constructor; [lia | now apply IH].
Qed.

Section BuildFacts.

Context {A : Type} `{Scalar A}.

Lemma build_ext (s : list nat) (f f' : list nat -> A) :
  (forall idx, in_shape s idx -> f idx = f' idx) -> build s f = build s f'.
Proof.
  intros Hf. unfold build. f_equal. apply map_ext_in.
  intros idx Hin. apply Hf. now apply indices_in_shape.
Qed.

Lemma build_wf (s : list nat) (f : list nat -> A) : wf (build s f).
Proof. unfold wf, build. simpl. now rewrite length_map, length_indices. Qed.

End BuildFacts.

(** ** Sizes inferred by [view] *)

Section ViewFacts.

Context {A : Type} `{Scalar A}.

Lemma infer_sizes_second (n a b c d : nat) :
  0 < a * b * d -> n = a * c * b * d ->
  infer_sizes n [Z.of_nat a; (-1)%Z; Z.of_nat b; Z.of_nat d] = Ok [a; c; b; d].
Proof.
  intros Hp Hn. unfold infer_sizes, count_minus1, known_numel.
  cbn [existsb filter fold_right map].
  rewrite !of_nat_ltb_m1, !of_nat_eqb_m1. cbn [orb Z.ltb Z.eqb Z.compare
    Pos.compare Pos.compare_cont Pos.eqb length].
  rewrite !Nat2Z.id.
  assert (Hk : a * (b * (d * 1)) = a * b * d) by lia. rewrite Hk.
  assert (Hmod : n mod (a * b * d) = 0).
  { subst n. replace (a * c * b * d) with (c * (a * b * d)) by lia.
    apply Nat.Div0.mod_mul. }
  assert (Hdiv : n / (a * b * d) = c).
  { subst n. replace (a * c * b * d) with (c * (a * b * d)) by lia.
    apply Nat.div_mul. lia. }
  rewrite Hmod, Hdiv.
  destruct (Nat.ltb_spec 0 (a * b * d)); [reflexivity | lia].
Qed.

Lemma view_known (t : tensor A) (sizes : list nat) :
  numel sizes = numel (shape t) ->
  view t (map Z.of_nat sizes) = Ok (mkT sizes (data t)).
Proof.
  intros Hn. unfold view. now rewrite infer_sizes_known.
Qed.

End ViewFacts.

(** ** The attention passes, entry by entry *)

Section HeadFacts.

Context {A : Type} `{Scalar A}.

Lemma infer_sizes_second_inv (n a b d : nat) (s : list nat) :
  infer_sizes n [Z.of_nat a; (-1)%Z; Z.of_nat b; Z.of_nat d] = Ok s ->
  0 < a * b * d.
Proof.
  unfold infer_sizes, count_minus1, known_numel.
  cbn [existsb filter fold_right map].
  rewrite !of_nat_ltb_m1, !of_nat_eqb_m1. cbn [orb Z.ltb Z.eqb Z.compare
    Pos.compare Pos.compare_cont Pos.eqb length].
  rewrite !Nat2Z.id.
  assert (Hk : a * (b * (d * 1)) = a * b * d) by lia. rewrite Hk.
  destruct (Nat.ltb_spec 0 (a * b * d)) as [Hp|Hp]; [|discriminate].
  intros _. exact Hp.
Qed.

Lemma infer_sizes_middle (n a c d : nat) :
  0 < a * d -> n = a * c * d ->
  infer_sizes n [Z.of_nat a; (-1)%Z; Z.of_nat d] = Ok [a; c; d].
Proof.
  intros Hp Hn. unfold infer_sizes, count_minus1, known_numel.
  cbn [existsb filter fold_right map].
  rewrite !of_nat_ltb_m1, !of_nat_eqb_m1. cbn [orb Z.ltb Z.eqb Z.compare
    Pos.compare Pos.compare_cont Pos.eqb length].
  rewrite !Nat2Z.id.
  assert (Hk : a * (d * 1) = a * d) by lia. rewrite Hk.
  assert (Hmod : n mod (a * d) = 0).
  { subst n. replace (a * c * d) with (c * (a * d)) by lia.
    apply Nat.Div0.mod_mul. }
  assert (Hdiv : n / (a * d) = c).
  { subst n. replace (a * c * d) with (c * (a * d)) by lia.
    apply Nat.div_mul. lia. }
  rewrite Hmod, Hdiv.
  destruct (Nat.ltb_spec 0 (a * d)); [reflexivity | lia].
Qed.

Lemma get_tmap (f : A -> A) (t : tensor A) (idx : list nat) :
  wf t -> in_shape (shape t) idx -> get (tmap f t) idx = f (get t idx).
Proof.
  unfold get, tmap, wf. cbn [shape data]. intros Hw Hin.
  rewrite (nth_indep _ szero (f szero))
    by (rewrite length_map, Hw; now apply flat_lt).
  apply map_nth.
Qed.

(** The tensor both head splits produce from [t] of shape
    [[bsz; s; nh * hd]]. *)
Lemma CLIPAttention__shape_value (ca : CLIPAttention A) (t : tensor A)
    (bsz s : nat) (seq_len : Z) :
  shape t = [bsz; s; ca_num_heads ca * ca_head_dim ca] ->
  seq_len = Z.of_nat s \/
  (seq_len = (-1)%Z /\ 0 < bsz * ca_num_heads ca * ca_head_dim ca) ->
  CLIPAttention__shape ca t seq_len bsz
  = Ok (build [bsz; ca_num_heads ca; s; ca_head_dim ca]
          (fun idx => get (mkT [bsz; s; ca_num_heads ca; ca_head_dim ca] (data t))
                          (swap_at 1 2 idx))).
Proof.
  intros Hs Hl.
  assert (Hv : view t [Z.of_nat bsz; seq_len; Z.of_nat (ca_num_heads ca);
                       Z.of_nat (ca_head_dim ca)]
               = Ok (mkT [bsz; s; ca_num_heads ca; ca_head_dim ca] (data t))).
  { destruct Hl as [-> | [-> Hp]].
    - change [Z.of_nat bsz; Z.of_nat s; Z.of_nat (ca_num_heads ca);
              Z.of_nat (ca_head_dim ca)]
        with (map Z.of_nat [bsz; s; ca_num_heads ca; ca_head_dim ca]).
      apply view_known. rewrite Hs. simpl. lia.
    - unfold view. rewrite Hs.
      rewrite (infer_sizes_second _ bsz (ca_num_heads ca) s (ca_head_dim ca))
        by (simpl; nia).
      reflexivity. }
  unfold CLIPAttention__shape, contiguous. rewrite Hv.
  cbn [rbind]. unfold transpose, dim. cbn [shape].
  change (norm_dim (length [bsz; s; ca_num_heads ca; ca_head_dim ca]) 1)
    with (@Ok nat 1).
  change (norm_dim (length [bsz; s; ca_num_heads ca; ca_head_dim ca]) 2)
    with (@Ok nat 2).
  reflexivity.
Qed.

(** [_shape] followed by [view(bsz * num_heads, -1, head_dim)]: row
    [b * num_heads + h] holds head [h] of batch [b]. *)
Lemma CLIPAttention_heads (ca : CLIPAttention A) (t : tensor A)
    (bsz s : nat) (seq_len : Z) :
  shape t = [bsz; s; ca_num_heads ca * ca_head_dim ca] ->
  0 < bsz * ca_num_heads ca * ca_head_dim ca ->
  seq_len = Z.of_nat s \/ seq_len = (-1)%Z ->
  exists X,
    (x <-- CLIPAttention__shape ca t seq_len bsz ;;
     view x [Z.of_nat (bsz * ca_num_heads ca); (-1)%Z;
             Z.of_nat (ca_head_dim ca)])%res = Ok X /\
    shape X = [bsz * ca_num_heads ca; s; ca_head_dim ca] /\
    forall b h i d, b < bsz -> h < ca_num_heads ca -> i < s ->
      d < ca_head_dim ca ->
      get X [b * ca_num_heads ca + h; i; d]
      = get t [b; i; h * ca_head_dim ca + d].
Proof.
  intros Hs Hp Hl.
  rewrite (CLIPAttention__shape_value ca t bsz s seq_len Hs)
    by (destruct Hl; [now left | right; now split]).
  cbn [rbind]. unfold view. cbn [shape build].
  rewrite (infer_sizes_middle _ (bsz * ca_num_heads ca) s (ca_head_dim ca))
    by (simpl; nia).
  cbn [rbind]. eexists. split; [reflexivity|]. split; [reflexivity|].
  intros b h i d Hb Hh Hi Hd.
  transitivity (get (build [bsz; ca_num_heads ca; s; ca_head_dim ca]
                       (fun idx => get (mkT [bsz; s; ca_num_heads ca;
                                             ca_head_dim ca] (data t))
                                       (swap_at 1 2 idx)))
                    [b; h; i; d]).
  - apply get_flat; [reflexivity|].
    cbn [shape build flat numel fold_right]. ring.
  - rewrite get_build by (repeat constructor; assumption).
    change (swap_at 1 2 [b; h; i; d]) with [b; i; h; d].
    apply get_flat; [reflexivity|].
    rewrite Hs. cbn [shape flat numel fold_right]. ring.
Qed.

(** [transpose_for_scores]: head [h] holds the [h]-th block of channels. *)
Lemma transpose_for_scores_heads (bsa : BertSelfAttention A) (t : tensor A)
    (bsz s : nat) :
  shape t = [bsz; s; num_attention_heads bsa * attention_head_size bsa] ->
  exists X,
    transpose_for_scores bsa t = Ok X /\
    shape X = [bsz; num_attention_heads bsa; s; attention_head_size bsa] /\
    forall b h i d, b < bsz -> h < num_attention_heads bsa -> i < s ->
      d < attention_head_size bsa ->
      get X [b; h; i; d] = get t [b; i; h * attention_head_size bsa + d].
Proof.
  intros Hs. unfold transpose_for_scores. rewrite Hs.
  cbn [removelast app].
  rewrite view_known by (rewrite Hs; simpl; lia).
  cbn [rbind]. unfold permute, dim. cbn [shape].
  change (is_perm [0; 2; 1; 3]
            (length [bsz; s; num_attention_heads bsa; attention_head_size bsa]))
    with true.
  cbn [map nth length].
  eexists. split; [reflexivity|]. split; [reflexivity|].
  intros b h i d Hb Hh Hi Hd.
  rewrite get_build by (repeat constructor; assumption).
  cbn [seq map index_of Nat.eqb nth].
  apply get_flat; [reflexivity|].
  rewrite Hs. cbn [shape flat numel fold_right]. ring.
Qed.

End HeadFacts.

Section AttentionPasses.

Context {A : Type} `{Scalar A} {Model : Type}.

Variable softmax : tensor A -> Z -> result (tensor A).
Variable F_dropout : tensor A -> A -> bool -> result (tensor A).

Lemma size3_inv (x : tensor A) (a b c : nat) :
  size3 x = Ok (a, b, c) -> shape x = [a; b; c].
Proof.
  unfold size3. destruct (shape x) as [|a' [|b' [|c' [|]]]]; try discriminate.
  intros Hs. now inversion Hs.
Qed.

(** The steps of a returning [CLIPAttention.forward], in the order of the
    source. *)
Lemma CLIPAttention_forward_inv (ca : CLIPAttention A) (layer : Z)
    (hs : tensor A) (oa : bool) (g g' : globals A Model)
    (out : tensor A) (aw : option (tensor A)) :
  CLIPAttention_forward softmax F_dropout ca layer hs oa g = (Ok (out, aw), g') ->
  exists bsz tgt E qp V Q W P src P' D ao,
    let ps := [Z.of_nat (bsz * ca_num_heads ca); (-1)%Z;
               Z.of_nat (ca_head_dim ca)] in
    shape hs = [bsz; tgt; E] /\
    q_proj ca hs = Ok qp /\
    (v <-- v_proj ca hs ;;
     x <-- CLIPAttention__shape ca v (-1) bsz ;;
     view x ps)%res = Ok V /\
    (x <-- CLIPAttention__shape ca (tmap (fun x => smul x (ca_scale ca)) qp)
             (Z.of_nat tgt) bsz ;;
     view x ps)%res = Ok Q /\
    shape_at V 1 = Ok src /\
    CLIPAttention_scores ca layer hs Q bsz ps g = (Ok W, g') /\
    shape W = [bsz * ca_num_heads ca; tgt; src] /\
    softmax W (-1) = Ok P /\
    (if oa then
       (r <-- view P [Z.of_nat bsz; Z.of_nat (ca_num_heads ca);
                      Z.of_nat tgt; Z.of_nat src] ;;
        a <-- view r [Z.of_nat (bsz * ca_num_heads ca);
                      Z.of_nat tgt; Z.of_nat src] ;;
        Ok (a, Some r))%res
     else Ok (P, None)) = Ok (P', aw) /\
    F_dropout P' (ca_dropout ca) (ca_training ca) = Ok D /\
    bmm D V = Ok ao /\
    shape ao = [bsz * ca_num_heads ca; tgt; ca_head_dim ca] /\
    (x <-- view ao [Z.of_nat bsz; Z.of_nat (ca_num_heads ca);
                    Z.of_nat tgt; Z.of_nat (ca_head_dim ca)] ;;
     x <-- transpose x 1 2 ;;
     x <-- reshape x [Z.of_nat bsz; Z.of_nat tgt; Z.of_nat E] ;;
     out_proj ca x)%res = Ok out.
Proof.
  unfold CLIPAttention_forward. intros Hf.
  apply bind_ok_inv in Hf. destruct Hf as ([[bsz tgt] E] & g1 & Hsz & Hf).
  apply lift_ok_inv in Hsz. destruct Hsz as [Hsz ->].
  apply bind_ok_inv in Hf. destruct Hf as (qp & g1 & Hq & Hf).
  apply lift_ok_inv in Hq. destruct Hq as [Hq ->].
  apply bind_ok_inv in Hf. destruct Hf as (V0 & g1 & HV0 & Hf).
  apply lift_ok_inv in HV0. destruct HV0 as [HV0 ->].
  apply bind_ok_inv in Hf. destruct Hf as (Q0 & g1 & HQ0 & Hf).
  apply lift_ok_inv in HQ0. destruct HQ0 as [HQ0 ->].
  apply bind_ok_inv in Hf. destruct Hf as (Q & g1 & HQ & Hf).
  apply lift_ok_inv in HQ. destruct HQ as [HQ ->].
  apply bind_ok_inv in Hf. destruct Hf as (V & g1 & HV & Hf).
  apply lift_ok_inv in HV. destruct HV as [HV ->].
  apply bind_ok_inv in Hf. destruct Hf as (src & g1 & Hsrc & Hf).
  apply lift_ok_inv in Hsrc. destruct Hsrc as [Hsrc ->].
  apply bind_ok_inv in Hf. destruct Hf as (W & g1 & HW & Hf).
  apply bind_ok_inv in Hf. destruct Hf as ([] & g2 & Hchk & Hf).
  destruct (list_eq_dec Nat.eq_dec (shape W)
              [bsz * ca_num_heads ca; tgt; src]) as [HWs|]; [|discriminate].
  apply ret_ok_inv in Hchk. destruct Hchk as [_ ->].
  apply bind_ok_inv in Hf. destruct Hf as (P & g2 & HP & Hf).
  apply lift_ok_inv in HP. destruct HP as [HP ->].
  apply bind_ok_inv in Hf. destruct Hf as ([P' aw'] & g2 & Haw & Hf).
  assert (Haw' : (if oa then
       (r <-- view P [Z.of_nat bsz; Z.of_nat (ca_num_heads ca);
                      Z.of_nat tgt; Z.of_nat src] ;;
        a <-- view r [Z.of_nat (bsz * ca_num_heads ca);
                      Z.of_nat tgt; Z.of_nat src] ;;
        Ok (a, Some r))%res
     else Ok (P, None)) = Ok (P', aw') /\ g2 = g1).
  { destruct oa.
    - apply lift_ok_inv in Haw. exact Haw.
    - apply ret_ok_inv in Haw. destruct Haw as [<- ->]. now split. }
  clear Haw. destruct Haw' as [Haw ->].
  apply bind_ok_inv in Hf. destruct Hf as (D & g2 & HD & Hf).
  apply lift_ok_inv in HD. destruct HD as [HD ->].
  apply bind_ok_inv in Hf. destruct Hf as (ao & g2 & Hao & Hf).
  apply lift_ok_inv in Hao. destruct Hao as [Hao ->].
  apply bind_ok_inv in Hf. destruct Hf as ([] & g2 & Hchk & Hf).
  destruct (list_eq_dec Nat.eq_dec (shape ao)
              [bsz * ca_num_heads ca; tgt; ca_head_dim ca]) as [Haos|];
    [|discriminate].
  apply ret_ok_inv in Hchk. destruct Hchk as [_ ->].
  apply bind_ok_inv in Hf. destruct Hf as (o1 & g2 & Ho1 & Hf).
  apply lift_ok_inv in Ho1. destruct Ho1 as [Ho1 ->].
  apply bind_ok_inv in Hf. destruct Hf as (o2 & g2 & Ho2 & Hf).
  apply lift_ok_inv in Ho2. destruct Ho2 as [Ho2 ->].
  apply bind_ok_inv in Hf. destruct Hf as (o3 & g2 & Ho3 & Hf).
  apply lift_ok_inv in Ho3. destruct Ho3 as [Ho3 ->].
  apply bind_ok_inv in Hf. destruct Hf as (o4 & g2 & Ho4 & Hf).
  apply lift_ok_inv in Ho4. destruct Ho4 as [Ho4 ->].
  apply ret_ok_inv in Hf. destruct Hf as [Hr ->].
  inversion Hr; subst o4 aw'; clear Hr.
  exists bsz, tgt, E, qp, V, Q, W, P, src, P', D, ao. cbv zeta.
  split; [now apply size3_inv|]. split; [exact Hq|].
  split.
  { apply rbind_ok_inv in HV0. destruct HV0 as (v & Hv & Hsh).
    rewrite Hv. cbn [rbind]. rewrite Hsh. cbn [rbind]. exact HV. }
  split; [rewrite HQ0; exact HQ|].
  split; [exact Hsrc|]. split; [exact HW|]. split; [exact HWs|].
  split; [exact HP|]. split; [exact Haw|]. split; [exact HD|].
  split; [exact Hao|]. split; [exact Haos|].
  rewrite Ho1. cbn [rbind]. rewrite Ho2. cbn [rbind]. rewrite Ho3.
  cbn [rbind]. exact Ho4.
Qed.

(** The steps of a returning [BertSelfAttention.forward], in the order of the
    source. *)
Lemma BertSelfAttention_forward_inv (bsa : BertSelfAttention A) (layer : Z)
    (hs : tensor A) (mask hm : option (tensor A)) (oa : bool)
    (g g' : globals A Model) (outputs : tuple A) (fo qks : option (tensor A)) :
  BertSelfAttention_forward softmax bsa layer hs mask hm oa g
  = (Ok (outputs, fo, qks), g') ->
  exists mq V Q raw scores P P2 P3 ctx0 ctx,
    bsa_query bsa hs = Ok mq /\
    (v <-- bsa_value bsa hs ;; transpose_for_scores bsa v)%res = Ok V /\
    transpose_for_scores bsa mq = Ok Q /\
    BertSelfAttention_scores bsa layer hs Q g = (Ok raw, g) /\
    text_scores bsa mask raw = Ok scores /\
    (if (START_SHARE_LAYER <=? layer)%Z then
       exists w,
         (if MODIFY g then where_masked (zero (AttentionReg g)) scores
          else Ok scores) = Ok w /\
         g' = with_text_entry g w
     else g' = g) /\
    softmax scores (-1) = Ok P /\
    bsa_dropout bsa P = Ok P2 /\
    match hm with Some m => tmul P2 m | None => Ok P2 end = Ok P3 /\
    matmul P3 V = Ok ctx0 /\
    (c <-- permute ctx0 [0; 2; 1; 3] ;;
     view (contiguous c)
          (map Z.of_nat (firstn (dim (contiguous c) - 2) (shape (contiguous c))
                         ++ [all_head_size bsa])))%res = Ok ctx /\
    outputs = (if oa then [Some ctx; Some P3] else [Some ctx]) /\
    fo = None /\ qks = None.
Proof.
  unfold BertSelfAttention_forward. intros Hf.
  apply bind_ok_inv in Hf. destruct Hf as (mq & g1 & Hq & Hf).
  apply lift_ok_inv in Hq. destruct Hq as [Hq ->].
  apply bind_ok_inv in Hf. destruct Hf as (V & g1 & Hv & Hf).
  apply lift_ok_inv in Hv. destruct Hv as [Hv ->].
  apply bind_ok_inv in Hf. destruct Hf as (Q & g1 & HQ & Hf).
  apply lift_ok_inv in HQ. destruct HQ as [HQ ->].
  apply bind_ok_inv in Hf. destruct Hf as (raw & g1 & Hraw & Hf).
  assert (Hg1 : g1 = g).
  { revert Hraw. unfold BertSelfAttention_scores.
    destruct (layer <? START_SHARE_LAYER)%Z; intros Hraw; mstep; reflexivity. }
  subst g1.
  apply bind_ok_inv in Hf. destruct Hf as (scores & g1 & Hsc & Hf).
  assert (Hscores : text_scores bsa mask raw = Ok scores /\ g1 = g).
  { unfold text_scores. destruct mask.
    - apply lift_ok_inv in Hsc. exact Hsc.
    - apply ret_ok_inv in Hsc. destruct Hsc as [<- ->]. now split. }
  clear Hsc. destruct Hscores as [Hsc ->].
  apply bind_ok_inv in Hf. destruct Hf as ([] & g1 & Happ & Hf).
  apply bind_ok_inv in Hf. destruct Hf as (P & g2 & HP & Hf).
  apply lift_ok_inv in HP. destruct HP as [HP ->].
  apply bind_ok_inv in Hf. destruct Hf as (P2 & g2 & HP2 & Hf).
  apply lift_ok_inv in HP2. destruct HP2 as [HP2 ->].
  apply bind_ok_inv in Hf. destruct Hf as (P3 & g2 & HP3 & Hf).
  assert (HP3' : match hm with Some m => tmul P2 m | None => Ok P2 end = Ok P3
                 /\ g2 = g1).
  { destruct hm.
    - apply lift_ok_inv in HP3. exact HP3.
    - apply ret_ok_inv in HP3. destruct HP3 as [<- ->]. now split. }
  clear HP3. destruct HP3' as [HP3 ->].
  apply bind_ok_inv in Hf. destruct Hf as (ctx0 & g2 & Hc0 & Hf).
  apply lift_ok_inv in Hc0. destruct Hc0 as [Hc0 ->].
  apply bind_ok_inv in Hf. destruct Hf as (c1 & g2 & Hc1 & Hf).
  apply lift_ok_inv in Hc1. destruct Hc1 as [Hc1 ->].
  apply bind_ok_inv in Hf. destruct Hf as (ctx & g2 & Hctx & Hf).
  apply lift_ok_inv in Hctx. destruct Hctx as [Hctx ->].
  apply ret_ok_inv in Hf. destruct Hf as [Hr ->].
  inversion Hr; subst outputs fo qks; clear Hr.
  exists mq, V, Q, raw, scores, P, P2, P3, ctx0, ctx.
  split; [exact Hq|]. split; [exact Hv|]. split; [exact HQ|].
  split; [exact Hraw|]. split; [exact Hsc|].
  split.
  { destruct (START_SHARE_LAYER <=? layer)%Z.
    - apply bind_ok_inv in Happ. destruct Happ as (g0 & g3 & Hg & Happ).
      unfold getg in Hg. inversion Hg; subst g0 g3; clear Hg.
      destruct (MODIFY g).
      + apply bind_ok_inv in Happ. destruct Happ as (w & g3 & Hw & Happ).
        apply lift_ok_inv in Hw. destruct Hw as [Hw ->].
        exists w. split; [exact Hw|].
        unfold with_text_entry. now rewrite Happ.
      + exists scores. split; [reflexivity|].
        unfold with_text_entry. now rewrite Happ.
    - apply ret_ok_inv in Happ. now destruct Happ. }
  split; [exact HP|]. split; [exact HP2|]. split; [exact HP3|].
  split; [exact Hc0|].
  split.
  { apply rbind_ok_inv in Hc1. destruct Hc1 as (c & Hc & Hcc).
    inversion Hcc; subst c1; clear Hcc. rewrite Hc. cbn [rbind].
    exact Hctx. }
  split; [reflexivity|]. now split.
Qed.

Lemma in_shape3_heads (bsz len nh hd b i h d : nat) :
  b < bsz -> i < len -> h < nh -> d < hd ->
  in_shape [bsz; len; nh * hd] [b; i; h * hd + d].
Proof.
  intros Hb Hi Hh Hd. repeat constructor; try assumption. nia.
Qed.

(** The head-split, scaled query of the vision attention. *)
Lemma CLIPAttention_query_heads (ca : CLIPAttention A) (qp Q : tensor A)
    (bsz len : nat) :
  wf qp -> shape qp = [bsz; len; ca_num_heads ca * ca_head_dim ca] ->
  0 < bsz * ca_num_heads ca * ca_head_dim ca ->
  (x <-- CLIPAttention__shape ca (tmap (fun x => smul x (ca_scale ca)) qp)
           (Z.of_nat len) bsz ;;
   view x [Z.of_nat (bsz * ca_num_heads ca); (-1)%Z;
           Z.of_nat (ca_head_dim ca)])%res = Ok Q ->
  shape Q = [bsz * ca_num_heads ca; len; ca_head_dim ca] /\
  forall b h i d, b < bsz -> h < ca_num_heads ca -> i < len ->
    d < ca_head_dim ca ->
    get Q [b * ca_num_heads ca + h; i; d]
    = smul (get qp [b; i; h * ca_head_dim ca + d]) (ca_scale ca).
Proof.
  intros Hwf Hqs Hp HQ.
  destruct (CLIPAttention_heads ca (tmap (fun x => smul x (ca_scale ca)) qp)
              bsz len (Z.of_nat len) Hqs Hp (or_introl eq_refl))
    as (X & HX & HXs & HXe).
  rewrite HX in HQ. inversion HQ; subst X; clear HQ.
  split; [exact HXs|].
  intros b h i d Hb Hh Hi Hd. rewrite HXe by assumption.
  apply (get_tmap (fun x => smul x (ca_scale ca))); [exact Hwf|].
  rewrite Hqs. now apply in_shape3_heads.
Qed.

(** A returning vision pass has a non-empty batch and non-empty heads: the
    size [-1] of the value's head split could not be inferred otherwise. *)
Lemma CLIPAttention_value_positive (ca : CLIPAttention A) (hs V : tensor A)
    (bsz : nat) (ps : list Z) :
  (v <-- v_proj ca hs ;;
   x <-- CLIPAttention__shape ca v (-1) bsz ;;
   view x ps)%res = Ok V ->
  0 < bsz * ca_num_heads ca * ca_head_dim ca.
Proof.
  intros HV.
  apply rbind_ok_inv in HV. destruct HV as (v & _ & HV).
  apply rbind_ok_inv in HV. destruct HV as (x & Hx & _).
  unfold CLIPAttention__shape in Hx.
  apply rbind_ok_inv in Hx. destruct Hx as (y & Hy & _).
  unfold view in Hy.
  apply rbind_ok_inv in Hy. destruct Hy as (sz & Hsz & _).
  now apply infer_sizes_second_inv in Hsz.
Qed.

Lemma cal_attention_reads_bn (cls : ShareKey_cls A) (q W : tensor A)
    (layer : Z) (modality : string) (shape_ : Z) :
  ShareKey_cal_attention cls q layer modality shape_ = Ok W ->
  exists bn, bn_of cls modality layer = Ok bn.
Proof.
  unfold ShareKey_cal_attention, bn_of. intros Hc.
  do 8 (apply rbind_ok_inv in Hc; destruct Hc as (? & _ & Hc)).
  apply rbind_ok_inv in Hc. destruct Hc as (bn & Hbn & _).
  exists bn. exact Hbn.
Qed.

Lemma infer_sizes_third_positive (n a b d : nat) (s : list nat) :
  infer_sizes n [Z.of_nat a; Z.of_nat b; (-1)%Z; Z.of_nat d] = Ok s ->
  0 < a * b * d.
Proof.
  unfold infer_sizes, count_minus1, known_numel.
  cbn [existsb filter fold_right map].
  rewrite !of_nat_ltb_m1, !of_nat_eqb_m1. cbn [orb Z.ltb Z.eqb Z.compare
    Pos.compare Pos.compare_cont Pos.eqb length].
  rewrite !Nat2Z.id.
  assert (Hk : a * (b * (d * 1)) = a * b * d) by lia. rewrite Hk.
  destruct (Nat.ltb_spec 0 (a * b * d)) as [Hp|Hp]; [|discriminate].
  intros _. exact Hp.
Qed.

(** [cal_attention] returns on a four-dimensional query only when the batch
    and the heads are non-empty. *)
Lemma cal_attention_4d_positive (cls : ShareKey_cls A) (q W : tensor A)
    (layer : Z) (modality : string) (bsz len : nat) :
  shape q = [bsz; num_heads cls; len; head_dim cls] ->
  ShareKey_cal_attention cls q layer modality 4 = Ok W ->
  0 < bsz /\ 0 < num_heads cls /\ 0 < head_dim cls.
Proof.
  intros Hq. unfold ShareKey_cal_attention.
  set (nh := num_heads cls) in *. set (hd := head_dim cls) in *.
  destruct (in_strings modality ["text"; "vision"]%string); [|discriminate].
  change ((4 =? 4)%Z) with true. change ((4 =? 3)%Z) with false.
  cbn [rassert orb rbind].
  unfold shape_at. rewrite Hq.
  change (py_index [bsz; nh; len; hd] 0) with (Ok bsz).
  change (py_index [bsz; nh; len; hd] 1) with (Ok nh).
  change (py_index [bsz; nh; len; hd] 2) with (Ok len).
  change (py_index [bsz; nh; len; hd] 3) with (Ok hd).
  cbn [rbind]. unfold reshape at 1. unfold view at 1. rewrite Hq.
  change [Z.of_nat (bsz * nh); Z.of_nat len; Z.of_nat hd]
    with (map Z.of_nat [bsz * nh; len; hd]).
  rewrite infer_sizes_known by (simpl; lia).
  cbn [rbind shape].
  change (py_index [bsz * nh; len; hd] 0) with (Ok (bsz * nh)).
  cbn [rbind].
  destruct (Nat.eqb_spec nh 0) as [|Hnh]; [discriminate|].
  cbn [rbind].
  rewrite Nat.Div0.mod_mul, Nat.div_mul by lia.
  cbn [Nat.eqb rassert rbind].
  unfold view at 1. cbn [shape data].
  destruct (infer_sizes (numel [bsz * nh; len; hd])
              [Z.of_nat bsz; Z.of_nat nh; (-1)%Z; Z.of_nat hd]) as [sz|e] eqn:Hi;
    [|discriminate].
  intros _. apply infer_sizes_third_positive in Hi. nia.
Qed.

(** *** Below [START_SHARE_LAYER] *)

Lemma CLIPAttention_forward_private (ca : CLIPAttention A) (layer : Z)
    (hs : tensor A) (oa : bool) (g g' : globals A Model)
    (out : tensor A) (aw : option (tensor A)) (bsz len E : nat)
    (qp kp : tensor A) :
  (layer < START_SHARE_LAYER)%Z ->
  shape hs = [bsz; len; E] ->
  q_proj ca hs = Ok qp -> wf qp ->
  shape qp = [bsz; len; ca_num_heads ca * ca_head_dim ca] ->
  k_proj ca hs = Ok kp ->
  shape kp = [bsz; len; ca_num_heads ca * ca_head_dim ca] ->
  CLIPAttention_forward softmax F_dropout ca layer hs oa g
  = (Ok (out, aw), g') ->
  g' = g /\
  exists W,
    shape W = [bsz * ca_num_heads ca; len; len] /\
    (forall b h i j, b < bsz -> h < ca_num_heads ca -> i < len -> j < len ->
       get W [b * ca_num_heads ca + h; i; j]
       = dot (ca_head_dim ca)
           (fun d => smul (get qp [b; i; h * ca_head_dim ca + d]) (ca_scale ca))
           (fun d => get kp [b; j; h * ca_head_dim ca + d])) /\
    CLIPAttention_attends softmax F_dropout ca hs W oa out aw.
Proof.
  intros Hl Hhs Hqp Hwf Hqs Hkp Hks Hf.
  apply CLIPAttention_forward_inv in Hf.
  destruct Hf as (bsz' & tgt & E' & qp' & V & Q & W & P & src & P' & D & ao
                  & Hhs' & Hq & HV & HQ & Hsrc & HW & HWs & HP & Haw & HD
                  & Hao & Haos & Hout).
  rewrite Hhs in Hhs'. inversion Hhs'; subst bsz' tgt E'; clear Hhs'.
  rewrite Hqp in Hq. inversion Hq; subst qp'; clear Hq.
  pose proof (CLIPAttention_value_positive _ _ _ _ _ HV) as Hpos.
  destruct (CLIPAttention_query_heads ca qp Q bsz len Hwf Hqs Hpos HQ)
    as [HQs HQe].
  unfold CLIPAttention_scores in HW.
  rewrite (proj2 (Z.ltb_lt _ _) Hl) in HW.
  apply lift_ok_inv in HW. destruct HW as [HW ->].
  rewrite Hkp in HW. cbn [rbind] in HW.
  destruct (CLIPAttention_heads ca kp bsz len (-1) Hks Hpos
              (or_intror eq_refl)) as (K & HK & HKs & HKe).
  destruct (CLIPAttention__shape ca kp (-1) bsz) as [x|e] eqn:Hx;
    [|discriminate].
  cbn [rbind] in HK, HW. rewrite HK in HW. cbn [rbind] in HW.
  destruct (bmm_transpose_entries Q K _ _ _ _ HQs HKs)
    as (kt & w & Hkt & Hw & Hws & Hwe).
  rewrite Hkt in HW. cbn [rbind] in HW. rewrite Hw in HW.
  inversion HW; subst w; clear HW.
  split; [reflexivity|]. exists W. split; [exact Hws|]. split.
  - intros b h i j Hb Hh Hi Hj.
    rewrite Hwe by (try assumption; nia).
    apply dot_ext; intros d Hd; [apply HQe | apply HKe]; assumption.
  - exists bsz, len, E, V, src, P, P', D, ao.
    repeat (split; [assumption|]). assumption.
Qed.

Lemma BertSelfAttention_forward_private (bsa : BertSelfAttention A)
    (layer : Z) (hs : tensor A) (mask hm : option (tensor A)) (oa : bool)
    (g g' : globals A Model) (outputs : tuple A) (fo qks : option (tensor A))
    (bsz len : nat) (mq kp : tensor A) :
  (layer < START_SHARE_LAYER)%Z ->
  bsa_query bsa hs = Ok mq ->
  shape mq = [bsz; len; num_attention_heads bsa * attention_head_size bsa] ->
  bsa_key bsa hs = Ok kp ->
  shape kp = [bsz; len; num_attention_heads bsa * attention_head_size bsa] ->
  BertSelfAttention_forward softmax bsa layer hs mask hm oa g
  = (Ok (outputs, fo, qks), g') ->
  g' = g /\
  exists raw scores,
    shape raw = [bsz; num_attention_heads bsa; len; len] /\
    (forall b h i j, b < bsz -> h < num_attention_heads bsa -> i < len ->
       j < len ->
       get raw [b; h; i; j]
       = dot (attention_head_size bsa)
           (fun d => get mq [b; i; h * attention_head_size bsa + d])
           (fun d => get kp [b; j; h * attention_head_size bsa + d])) /\
    text_scores bsa mask raw = Ok scores /\
    BertSelfAttention_attends softmax bsa hs scores hm oa outputs.
Proof.
  intros Hl Hmq Hmqs Hkp Hks Hf.
  apply BertSelfAttention_forward_inv in Hf.
  destruct Hf as (mq' & V & Q & raw & scores & P & P2 & P3 & ctx0 & ctx
                  & Hq & HV & HQ & Hraw & Hsc & Hst & HP & HP2 & HP3 & Hc0
                  & Hctx & Hout & _ & _).
  rewrite Hmq in Hq. inversion Hq; subst mq'; clear Hq.
  assert (Hge : (START_SHARE_LAYER <=? layer)%Z = false)
    by (apply Z.leb_gt; exact Hl).
  rewrite Hge in Hst.
  unfold BertSelfAttention_scores in Hraw.
  rewrite (proj2 (Z.ltb_lt _ _) Hl) in Hraw.
  apply lift_ok_inv in Hraw. destruct Hraw as [Hraw _].
  rewrite Hkp in Hraw. cbn [rbind] in Hraw.
  destruct (transpose_for_scores_heads bsa mq bsz len Hmqs)
    as (Q' & HQ' & HQs & HQe).
  rewrite HQ in HQ'. inversion HQ'; subst Q'; clear HQ'.
  destruct (transpose_for_scores_heads bsa kp bsz len Hks)
    as (K & HK & HKs & HKe).
  rewrite HK in Hraw. cbn [rbind] in Hraw.
  destruct (matmul_transpose_entries Q K _ _ _ _ _ HQs HKs)
    as (kt & w & Hkt & Hw & Hws & Hwe).
  rewrite Hkt in Hraw. cbn [rbind] in Hraw. rewrite Hw in Hraw.
  inversion Hraw; subst w; clear Hraw.
  split; [exact Hst|]. exists raw, scores. split; [exact Hws|]. split.
  - intros b h i j Hb Hh Hi Hj. rewrite Hwe by assumption.
    apply dot_ext; intros d Hd; [apply HQe | apply HKe]; assumption.
  - split; [exact Hsc|].
    exists V, P, P2, P3, ctx0, ctx.
    repeat (split; [assumption|]). assumption.
Qed.

(** *** From [START_SHARE_LAYER] on *)

Lemma CLIPAttention_forward_shared (ca : CLIPAttention A) (layer : Z)
    (hs : tensor A) (oa : bool) (g g' : globals A Model)
    (out : tensor A) (aw : option (tensor A)) (bsz len E : nat)
    (qp K B : tensor A) :
  (START_SHARE_LAYER <= layer)%Z ->
  py_index_opt (key (ShareKey g)) layer = Ok K ->
  shape K = [1; num_heads (ShareKey g); head_dim (ShareKey g); 1] ->
  ca_num_heads ca = num_heads (ShareKey g) ->
  ca_head_dim ca = head_dim (ShareKey g) ->
  shape hs = [bsz; len; E] ->
  q_proj ca hs = Ok qp -> wf qp ->
  shape qp = [bsz; len; ca_num_heads ca * ca_head_dim ca] ->
  py_index_opt (vision_bias (ShareKey g)) layer = Ok B ->
  shape B = [ca_num_heads ca; len; len] ->
  CLIPAttention_forward softmax F_dropout ca layer hs oa g
  = (Ok (out, aw), g') ->
  exists Q W,
    (x <-- CLIPAttention__shape ca (tmap (fun x => smul x (ca_scale ca)) qp)
             (Z.of_nat len) bsz ;;
     view x [Z.of_nat (bsz * ca_num_heads ca); (-1)%Z;
             Z.of_nat (ca_head_dim ca)])%res = Ok Q /\
    ShareKey_cal_attention (ShareKey g) Q layer "vision" 3 = Ok W /\
    shape W = [bsz * ca_num_heads ca; len; len] /\
    (forall b h i j, b < bsz -> h < ca_num_heads ca -> i < len -> j < len ->
       get W [b * ca_num_heads ca + h; i; j]
       = sadd (dot (ca_head_dim ca)
                 (fun d => smul (get qp [b; i; h * ca_head_dim ca + d])
                                (ca_scale ca))
                 (fun d => get K [0; h; d; 0]))
              (get B [h; i; j])) /\
    g' = with_vision_entry g W /\
    CLIPAttention_attends softmax F_dropout ca hs W oa out aw.
Proof.
  intros Hl HK HKs Hnh Hhd Hhs Hqp Hwf Hqs HB HBs Hf.
  apply CLIPAttention_forward_inv in Hf.
  destruct Hf as (bsz' & tgt & E' & qp' & V & Q & W & P & src & P' & D & ao
                  & Hhs' & Hq & HV & HQ & Hsrc & HW & HWs & HP & Haw & HD
                  & Hao & Haos & Hout).
  rewrite Hhs in Hhs'. inversion Hhs'; subst bsz' tgt E'; clear Hhs'.
  rewrite Hqp in Hq. inversion Hq; subst qp'; clear Hq.
  pose proof (CLIPAttention_value_positive _ _ _ _ _ HV) as Hpos.
  destruct (CLIPAttention_query_heads ca qp Q bsz len Hwf Hqs Hpos HQ)
    as [HQs HQe].
  pose proof HW as HW0.
  apply CLIPAttention_scores_effect in HW0.
  destruct HW0 as [[Hlt _] | (_ & Hcal & Hg')]; [lia|].
  destruct (cal_attention_reads_bn _ _ _ _ _ _ Hcal) as [bn Hbn].
  assert (Hb1 : 0 < bsz) by nia.
  assert (Hn1 : 0 < num_heads (ShareKey g)) by (rewrite <- Hnh; nia).
  assert (Hd1 : 0 < head_dim (ShareKey g)) by (rewrite <- Hhd; nia).
  assert (HQs' : shape Q = [bsz * num_heads (ShareKey g); len;
                            head_dim (ShareKey g)])
    by (rewrite <- Hnh, <- Hhd; exact HQs).
  assert (HBs' : shape B = [num_heads (ShareKey g); len; len])
    by (rewrite <- Hnh; exact HBs).
  destruct (cal_attention_entries_3d (ShareKey g) Q K B layer "vision" bsz len
              eq_refl Hb1 Hn1 Hd1 HQs' HK HKs HB HBs'
              (ex_intro _ bn Hbn))
    as (W' & HW' & HWs' & HWe).
  rewrite Hcal in HW'. inversion HW'; subst W'; clear HW'.
  rewrite <- Hnh in HWs'. rewrite <- Hnh, <- Hhd in HWe.
  exists Q, W. split; [exact HQ|]. split; [exact Hcal|].
  split; [exact HWs'|]. split.
  - intros b h i j Hb Hh Hi Hj. rewrite HWe by assumption. f_equal.
    apply dot_ext; intros d Hd; [apply HQe; assumption | reflexivity].
  - split; [exact Hg'|].
    exists bsz, len, E, V, src, P, P', D, ao.
    repeat (split; [assumption|]). assumption.
Qed.

Lemma BertSelfAttention_forward_shared (bsa : BertSelfAttention A)
    (layer : Z) (hs : tensor A) (mask hm : option (tensor A)) (oa : bool)
    (g g' : globals A Model) (outputs : tuple A) (fo qks : option (tensor A))
    (bsz len : nat) (mq K B : tensor A) :
  (START_SHARE_LAYER <= layer)%Z ->
  py_index_opt (key (ShareKey g)) layer = Ok K ->
  shape K = [1; num_heads (ShareKey g); head_dim (ShareKey g); 1] ->
  num_attention_heads bsa = num_heads (ShareKey g) ->
  attention_head_size bsa = head_dim (ShareKey g) ->
  bsa_query bsa hs = Ok mq ->
  shape mq = [bsz; len; num_attention_heads bsa * attention_head_size bsa] ->
  py_index_opt (text_bias (ShareKey g)) layer = Ok B ->
  shape B = [num_attention_heads bsa; len; len] ->
  BertSelfAttention_forward softmax bsa layer hs mask hm oa g
  = (Ok (outputs, fo, qks), g') ->
  exists Q raw scores w,
    transpose_for_scores bsa mq = Ok Q /\
    ShareKey_cal_attention (ShareKey g) Q layer "text" 4 = Ok raw /\
    shape raw = [bsz; num_attention_heads bsa; len; len] /\
    (forall b h i j, b < bsz -> h < num_attention_heads bsa -> i < len ->
       j < len ->
       get raw [b; h; i; j]
       = sadd (dot (attention_head_size bsa)
                 (fun d => get mq [b; i; h * attention_head_size bsa + d])
                 (fun d => get K [0; h; d; 0]))
              (get B [h; i; j])) /\
    text_scores bsa mask raw = Ok scores /\
    (if MODIFY g then where_masked (zero (AttentionReg g)) scores
     else Ok scores) = Ok w /\
    g' = with_text_entry g w /\
    BertSelfAttention_attends softmax bsa hs scores hm oa outputs.
Proof.
  intros Hl HK HKs Hnh Hhd Hmq Hmqs HB HBs Hf.
  apply BertSelfAttention_forward_inv in Hf.
  destruct Hf as (mq' & V & Q & raw & scores & P & P2 & P3 & ctx0 & ctx
                  & Hq & HV & HQ & Hraw & Hsc & Hst & HP & HP2 & HP3 & Hc0
                  & Hctx & Hout & _ & _).
  rewrite Hmq in Hq. inversion Hq; subst mq'; clear Hq.
  rewrite (proj2 (Z.leb_le _ _) Hl) in Hst.
  destruct Hst as (w & Hw & Hg').
  apply BertSelfAttention_scores_effect in Hraw.
  destruct Hraw as [_ Hcal]. specialize (Hcal Hl).
  destruct (transpose_for_scores_heads bsa mq bsz len Hmqs)
    as (Q' & HQ' & HQs & HQe).
  rewrite HQ in HQ'. inversion HQ'; subst Q'; clear HQ'.
  destruct (cal_attention_reads_bn _ _ _ _ _ _ Hcal) as [bn Hbn].
  assert (HQs' : shape Q = [bsz; num_heads (ShareKey g); len;
                            head_dim (ShareKey g)])
    by (rewrite <- Hnh, <- Hhd; exact HQs).
  destruct (cal_attention_4d_positive _ _ _ _ _ _ _ HQs' Hcal)
    as (Hb1 & Hn1 & Hd1).
  assert (HBs' : shape B = [num_heads (ShareKey g); len; len])
    by (rewrite <- Hnh; exact HBs).
  destruct (cal_attention_entries_4d (ShareKey g) Q K B layer "text" bsz len
              eq_refl Hb1 Hn1 Hd1 HQs' HK HKs HB HBs'
              (ex_intro _ bn Hbn))
    as (W' & HW' & HWs' & HWe).
  rewrite Hcal in HW'. inversion HW'; subst W'; clear HW'.
  rewrite <- Hnh in HWs'. rewrite <- Hnh, <- Hhd in HWe.
  exists Q, raw, scores, w. split; [exact HQ|]. split; [exact Hcal|].
  split; [exact HWs'|]. split.
  - intros b h i j Hb Hh Hi Hj. rewrite HWe by assumption. f_equal.
    apply dot_ext; intros d Hd; [apply HQe; assumption | reflexivity].
  - split; [exact Hsc|]. split; [exact Hw|]. split; [exact Hg'|].
    exists V, P, P2, P3, ctx0, ctx.
    repeat (split; [assumption|]). assumption.
Qed.

(** C5. Below [START_SHARE_LAYER] (9) a returning pass of either attention
    module scores with the dot products of its own projections of the
    hidden states, taken head by head: the vision scores hold
    [sum_d (q_proj(hs)[b, i, h*hd + d] * scale) * k_proj(hs)[b, j, h*hd + d]]
    at row [b * num_heads + h], the text scores hold
    [sum_d query(hs)[b, i, h*hd + d] * key(hs)[b, j, h*hd + d]] at
    [(b, h, i, j)] before they are scaled and masked; the result of the pass
    is computed from the softmax of these scores.  The pass leaves the class
    state as it found it, and its outcome is the same whatever that state
    is: no [ShareKey] attribute is read and nothing is appended to a list of
    [AttentionReg]. *)
Theorem private_layers_score_with_own_keys (layer : Z)
    (ca : CLIPAttention A) (bsa : BertSelfAttention A)
    (mask hm : option (tensor A)) (oa : bool) :
  (layer < START_SHARE_LAYER)%Z ->
  START_SHARE_LAYER = 9%Z /\
  (forall (hs : tensor A) (g g' : globals A Model) out aw bsz len E qp kp,
     shape hs = [bsz; len; E] ->
     q_proj ca hs = Ok qp -> wf qp ->
     shape qp = [bsz; len; ca_num_heads ca * ca_head_dim ca] ->
     k_proj ca hs = Ok kp ->
     shape kp = [bsz; len; ca_num_heads ca * ca_head_dim ca] ->
     CLIPAttention_forward softmax F_dropout ca layer hs oa g
     = (Ok (out, aw), g') ->
     g' = g /\
     exists W,
       shape W = [bsz * ca_num_heads ca; len; len] /\
       (forall b h i j, b < bsz -> h < ca_num_heads ca -> i < len -> j < len ->
          get W [b * ca_num_heads ca + h; i; j]
          = dot (ca_head_dim ca)
              (fun d => smul (get qp [b; i; h * ca_head_dim ca + d])
                             (ca_scale ca))
              (fun d => get kp [b; j; h * ca_head_dim ca + d])) /\
       CLIPAttention_attends softmax F_dropout ca hs W oa out aw) /\
  (forall (hs : tensor A) (g g' : globals A Model) outputs fo qks bsz len
          mq kp,
     bsa_query bsa hs = Ok mq ->
     shape mq = [bsz; len; num_attention_heads bsa * attention_head_size bsa] ->
     bsa_key bsa hs = Ok kp ->
     shape kp = [bsz; len; num_attention_heads bsa * attention_head_size bsa] ->
     BertSelfAttention_forward softmax bsa layer hs mask hm oa g
     = (Ok (outputs, fo, qks), g') ->
     g' = g /\
     exists raw scores,
       shape raw = [bsz; num_attention_heads bsa; len; len] /\
       (forall b h i j, b < bsz -> h < num_attention_heads bsa -> i < len ->
          j < len ->
          get raw [b; h; i; j]
          = dot (attention_head_size bsa)
              (fun d => get mq [b; i; h * attention_head_size bsa + d])
              (fun d => get kp [b; j; h * attention_head_size bsa + d])) /\
       text_scores bsa mask raw = Ok scores /\
       BertSelfAttention_attends softmax bsa hs scores hm oa outputs) /\
  (forall hs : tensor A,
     state_free (CLIPAttention_forward (Model:=Model) softmax F_dropout ca
                   layer hs oa)) /\
  (forall hs : tensor A,
     state_free (BertSelfAttention_forward (Model:=Model) softmax bsa layer hs
                   mask hm oa)).
Proof.
  intros Hl. split; [reflexivity|]. split; [|split; [|split]].
  - intros hs g g' out aw bsz len E qp kp Hhs Hqp Hwf Hqs Hkp Hks Hf.
    exact (CLIPAttention_forward_private ca layer hs oa g g' out aw bsz len E
             qp kp Hl Hhs Hqp Hwf Hqs Hkp Hks Hf).
  - intros hs g g' outputs fo qks bsz len mq kp Hmq Hmqs Hkp Hks Hf.
    exact (BertSelfAttention_forward_private bsa layer hs mask hm oa g g'
             outputs fo qks bsz len mq kp Hl Hmq Hmqs Hkp Hks Hf).
  - intros hs. now apply CLIPAttention_forward_free.
  - intros hs. now apply BertSelfAttention_forward_free.
Qed.

(** C1. From [START_SHARE_LAYER] (9) on, with [K = ShareKey.key[layer]] of
    the shape [ShareKey.init] gives it, a returning pass of either attention
    module takes its raw scores from [ShareKey.cal_attention], called on the
    head-split query with ['vision', 3] by the vision attention and with
    ['text', 4] by the text attention.  Both use the one key [K]: the vision
    scores hold
    [sum_d (q_proj(hs)[b, i, h*hd + d] * scale) * K[0, h, d, 0]
       + vision_bias[layer][h, i, j]]
    at row [b * num_heads + h], the text scores hold
    [sum_d query(hs)[b, i, h*hd + d] * K[0, h, d, 0]
       + text_bias[layer][h, i, j]]
    at [(b, h, i, j)].  The vision pass appends its raw scores to
    [AttentionReg.attention_vision_list]; the text pass scales and masks its
    scores and appends them (through [torch.where] when [MODIFY] is set) to
    [AttentionReg.attention_text_list]; the result of each pass is computed
    from the softmax of its scores. *)
Theorem shared_layers_score_with_ShareKey (layer : Z)
    (ca : CLIPAttention A) (bsa : BertSelfAttention A)
    (mask hm : option (tensor A)) (oa : bool) (g : globals A Model)
    (K : tensor A) :
  (START_SHARE_LAYER <= layer)%Z ->
  py_index_opt (key (ShareKey g)) layer = Ok K ->
  shape K = [1; num_heads (ShareKey g); head_dim (ShareKey g); 1] ->
  START_SHARE_LAYER = 9%Z /\
  (forall (hs : tensor A) (g' : globals A Model) out aw bsz len E qp B,
     ca_num_heads ca = num_heads (ShareKey g) ->
     ca_head_dim ca = head_dim (ShareKey g) ->
     shape hs = [bsz; len; E] ->
     q_proj ca hs = Ok qp -> wf qp ->
     shape qp = [bsz; len; ca_num_heads ca * ca_head_dim ca] ->
     py_index_opt (vision_bias (ShareKey g)) layer = Ok B ->
     shape B = [ca_num_heads ca; len; len] ->
     CLIPAttention_forward softmax F_dropout ca layer hs oa g
     = (Ok (out, aw), g') ->
     exists Q W,
       (x <-- CLIPAttention__shape ca
                (tmap (fun x => smul x (ca_scale ca)) qp) (Z.of_nat len) bsz ;;
        view x [Z.of_nat (bsz * ca_num_heads ca); (-1)%Z;
                Z.of_nat (ca_head_dim ca)])%res = Ok Q /\
       ShareKey_cal_attention (ShareKey g) Q layer "vision" 3 = Ok W /\
       shape W = [bsz * ca_num_heads ca; len; len] /\
       (forall b h i j, b < bsz -> h < ca_num_heads ca -> i < len -> j < len ->
          get W [b * ca_num_heads ca + h; i; j]
          = sadd (dot (ca_head_dim ca)
                    (fun d => smul (get qp [b; i; h * ca_head_dim ca + d])
                                   (ca_scale ca))
                    (fun d => get K [0; h; d; 0]))
                 (get B [h; i; j])) /\
       g' = with_vision_entry g W /\
       CLIPAttention_attends softmax F_dropout ca hs W oa out aw) /\
  (forall (hs : tensor A) (g' : globals A Model) outputs fo qks bsz len mq B,
     num_attention_heads bsa = num_heads (ShareKey g) ->
     attention_head_size bsa = head_dim (ShareKey g) ->
     bsa_query bsa hs = Ok mq ->
     shape mq = [bsz; len; num_attention_heads bsa * attention_head_size bsa] ->
     py_index_opt (text_bias (ShareKey g)) layer = Ok B ->
     shape B = [num_attention_heads bsa; len; len] ->
     BertSelfAttention_forward softmax bsa layer hs mask hm oa g
     = (Ok (outputs, fo, qks), g') ->
     exists Q raw scores w,
       transpose_for_scores bsa mq = Ok Q /\
       ShareKey_cal_attention (ShareKey g) Q layer "text" 4 = Ok raw /\
       shape raw = [bsz; num_attention_heads bsa; len; len] /\
       (forall b h i j, b < bsz -> h < num_attention_heads bsa -> i < len ->
          j < len ->
          get raw [b; h; i; j]
          = sadd (dot (attention_head_size bsa)
                    (fun d => get mq [b; i; h * attention_head_size bsa + d])
                    (fun d => get K [0; h; d; 0]))
                 (get B [h; i; j])) /\
       text_scores bsa mask raw = Ok scores /\
       (if MODIFY g then where_masked (zero (AttentionReg g)) scores
        else Ok scores) = Ok w /\
       g' = with_text_entry g w /\
       BertSelfAttention_attends softmax bsa hs scores hm oa outputs).
Proof.
  intros Hl HK HKs. split; [reflexivity|]. split.
  - intros hs g' out aw bsz len E qp B Hnh Hhd Hhs Hqp Hwf Hqs HB HBs Hf.
    exact (CLIPAttention_forward_shared ca layer hs oa g g' out aw bsz len E
             qp K B Hl HK HKs Hnh Hhd Hhs Hqp Hwf Hqs HB HBs Hf).
  - intros hs g' outputs fo qks bsz len mq B Hnh Hhd Hmq Hmqs HB HBs Hf.
    exact (BertSelfAttention_forward_shared bsa layer hs mask hm oa g g'
             outputs fo qks bsz len mq K B Hl HK HKs Hnh Hhd Hmq Hmqs HB HBs
             Hf).
Qed.

End AttentionPasses.

(** The example passes with two heads return. *)
Lemma ex_heads_vision_returns (layer : Z) :
  layer = 3%Z \/ layer = 9%Z ->
  exists out aw g',
    CLIPAttention_forward ex_softmax ex_F_dropout ex_CLIPAttention_heads layer
      ex_hidden true ex_globals_heads = (Ok (out, aw), g').
Proof.
  intros [-> | ->]; do 3 eexists; vm_compute; reflexivity.
Qed.

Lemma ex_heads_text_returns (layer : Z) :
  layer = 3%Z \/ layer = 9%Z ->
  exists outputs fo qks g',
    BertSelfAttention_forward ex_softmax ex_BertSelfAttention_heads layer
      ex_hidden (Some ex_mask) None true ex_globals_heads
    = (Ok (outputs, fo, qks), g').
Proof.
  intros [-> | ->]; do 4 eexists; vm_compute; reflexivity.
Qed.

(** Layer 3 with two heads of size one on hidden states [[1 2] [3 4]]: the
    score of head 1 between positions 0 and 1 is [2 * 4], in both
    modalities, and the class state is left alone. *)
Lemma private_layers_witness :
  (3 < START_SHARE_LAYER)%Z /\
  (exists out aw W,
     CLIPAttention_forward ex_softmax ex_F_dropout ex_CLIPAttention_heads 3
       ex_hidden true ex_globals_heads = (Ok (out, aw), ex_globals_heads) /\
     get W [1; 0; 1] = 8%Z /\
     CLIPAttention_attends ex_softmax ex_F_dropout ex_CLIPAttention_heads
       ex_hidden W true out aw) /\
  (exists outputs fo qks raw scores,
     BertSelfAttention_forward ex_softmax ex_BertSelfAttention_heads 3
       ex_hidden (Some ex_mask) None true ex_globals_heads
     = (Ok (outputs, fo, qks), ex_globals_heads) /\
     get raw [0; 1; 0; 1] = 8%Z /\
     text_scores ex_BertSelfAttention_heads (Some ex_mask) raw = Ok scores /\
     BertSelfAttention_attends ex_softmax ex_BertSelfAttention_heads
       ex_hidden scores None true outputs).
Proof.
  assert (Hl : (3 < START_SHARE_LAYER)%Z) by reflexivity.
  split; [exact Hl|].
  destruct (private_layers_score_with_own_keys (Model:=unit) ex_softmax
              ex_F_dropout 3 ex_CLIPAttention_heads ex_BertSelfAttention_heads
              (Some ex_mask) None true Hl) as (_ & Hv & Ht & _).
  split.
  - destruct (ex_heads_vision_returns 3 (or_introl eq_refl))
      as (out & aw & g' & Hrun).
    destruct (Hv ex_hidden ex_globals_heads g' out aw 1 2 2 ex_hidden
                ex_hidden eq_refl eq_refl eq_refl eq_refl eq_refl eq_refl Hrun)
      as (Hg & W & _ & HWe & Hatt).
    exists out, aw, W. split; [rewrite Hrun, Hg; reflexivity|].
    split; [|exact Hatt].
    exact (HWe 0 1 0 1 ltac:(lia) ltac:(simpl; lia) ltac:(lia) ltac:(lia)).
  - destruct (ex_heads_text_returns 3 (or_introl eq_refl))
      as (outputs & fo & qks & g' & Hrun).
    destruct (Ht ex_hidden ex_globals_heads g' outputs fo qks 1 2 ex_hidden
                ex_hidden eq_refl eq_refl eq_refl eq_refl Hrun)
      as (Hg & raw & scores & _ & Hre & Hsc & Hatt).
    exists outputs, fo, qks, raw, scores.
    split; [rewrite Hrun, Hg; reflexivity|].
    split; [|split; [exact Hsc | exact Hatt]].
    exact (Hre 0 1 0 1 ltac:(lia) ltac:(simpl; lia) ltac:(lia) ltac:(lia)).
Defined.

(** Layer 9 with two heads of size one, the key [[2 3]] and the bias
    [[10 .. 80]]: the raw score of head 1 between positions 0 and 1 is
    [2 * 3 + 60] in both modalities, and each pass appends one entry. *)
Lemma shared_layers_witness :
  (START_SHARE_LAYER <= 9)%Z /\
  py_index_opt (key (ShareKey ex_globals_heads)) 9 = Ok ex_key_heads /\
  shape ex_key_heads
  = [1; num_heads (ShareKey ex_globals_heads);
     head_dim (ShareKey ex_globals_heads); 1] /\
  (exists out aw W,
     CLIPAttention_forward ex_softmax ex_F_dropout ex_CLIPAttention_heads 9
       ex_hidden true ex_globals_heads
     = (Ok (out, aw), with_vision_entry ex_globals_heads W) /\
     get W [1; 0; 1] = 66%Z /\
     CLIPAttention_attends ex_softmax ex_F_dropout ex_CLIPAttention_heads
       ex_hidden W true out aw) /\
  (exists outputs fo qks raw w,
     BertSelfAttention_forward ex_softmax ex_BertSelfAttention_heads 9
       ex_hidden (Some ex_mask) None true ex_globals_heads
     = (Ok (outputs, fo, qks), with_text_entry ex_globals_heads w) /\
     get raw [0; 1; 0; 1] = 66%Z /\
     text_scores ex_BertSelfAttention_heads (Some ex_mask) raw = Ok w /\
     BertSelfAttention_attends ex_softmax ex_BertSelfAttention_heads
       ex_hidden w None true outputs).
Proof.
  assert (Hl : (START_SHARE_LAYER <= 9)%Z) by (unfold START_SHARE_LAYER; lia).
  assert (HK : py_index_opt (key (ShareKey ex_globals_heads)) 9
               = Ok ex_key_heads) by reflexivity.
  assert (HKs : shape ex_key_heads
                = [1; num_heads (ShareKey ex_globals_heads);
                   head_dim (ShareKey ex_globals_heads); 1]) by reflexivity.
  split; [exact Hl|]. split; [exact HK|]. split; [exact HKs|].
  destruct (shared_layers_score_with_ShareKey ex_softmax ex_F_dropout 9
              ex_CLIPAttention_heads ex_BertSelfAttention_heads
              (Some ex_mask) None true ex_globals_heads ex_key_heads
              Hl HK HKs) as (_ & Hv & Ht).
  split.
  - destruct (ex_heads_vision_returns 9 (or_intror eq_refl))
      as (out & aw & g' & Hrun).
    destruct (Hv ex_hidden g' out aw 1 2 2 ex_hidden ex_bias_heads
                eq_refl eq_refl eq_refl eq_refl eq_refl eq_refl eq_refl
                eq_refl Hrun)
      as (Q & W & _ & _ & _ & HWe & Hg & Hatt).
    exists out, aw, W. split; [rewrite Hrun, Hg; reflexivity|].
    split; [|exact Hatt].
    exact (HWe 0 1 0 1 ltac:(lia) ltac:(simpl; lia) ltac:(lia) ltac:(lia)).
  - destruct (ex_heads_text_returns 9 (or_intror eq_refl))
      as (outputs & fo & qks & g' & Hrun).
    destruct (Ht ex_hidden g' outputs fo qks 1 2 ex_hidden ex_bias_heads
                eq_refl eq_refl eq_refl eq_refl eq_refl eq_refl Hrun)
      as (Q & raw & scores & w & _ & _ & _ & Hre & Hsc & Hw & Hg & Hatt).
    cbn in Hw. inversion Hw; subst w; clear Hw.
    exists outputs, fo, qks, raw, scores.
    split; [rewrite Hrun, Hg; reflexivity|].
    split; [|split; [exact Hsc | exact Hatt]].
    exact (Hre 0 1 0 1 ltac:(lia) ltac:(simpl; lia) ltac:(lia) ltac:(lia)).
Defined.
(** * Single-precision arithmetic *)

(** ** Rounding keeps the sign *)

Section SpecFloatFacts.

Variables prec emax : Z.
Hypothesis Hprec : (0 < prec)%Z.

Local Open Scope Z_scope.

Definition signed (s : bool) (x : spec_float) : Prop :=
  x = S754_zero s \/ x = S754_infinity s \/ (exists m e, x = S754_finite s m e).

Lemma binary_round_aux_sign sx mx ex lx :
  binary_round_aux prec emax sx mx ex lx = S754_nan \/
  signed sx (binary_round_aux prec emax sx mx ex lx).
Proof.
  unfold binary_round_aux, signed.
  destruct (shr_fexp prec emax mx ex lx) as [mrs' e'].
  destruct (shr_fexp prec emax _ e' loc_Exact) as [mrs'' e''].
  destruct (shr_m mrs'') as [|m|m]; [right; now left| |now left].
  destruct (e'' <=? emax - prec); right; right; [right; eauto | now left].
Qed.

Lemma shr_m_of_loc m l : shr_m (shr_record_of_loc m l) = m.
Proof. destruct l as [|[]]; reflexivity. Qed.

Lemma shr_1_div2 mrs : 0 <= shr_m mrs -> shr_m (shr_1 mrs) = shr_m mrs / 2.
Proof.
  destruct mrs as [m r s]. cbn [shr_m shr_1]. intros Hm.
  rewrite <- Z.div2_div.
  destruct m as [|[p|p|]|p]; cbn [shr_m]; try reflexivity; lia.
Qed.

Lemma iter_shr_1_div (p : positive) : forall mrs,
  0 <= shr_m mrs ->
  shr_m (iter_pos shr_1 p mrs) = shr_m mrs / 2 ^ Zpos p.
Proof.
  induction p as [p IH|p IH|]; intros mrs Hm; cbn [iter_pos].
  - assert (Hpp : 0 < 2 ^ Zpos p) by (apply Z.pow_pos_nonneg; lia).
    assert (Hpow : 2 ^ Zpos p~1 = 2 * 2 ^ Zpos p * 2 ^ Zpos p).
    { replace (Zpos p~1) with (1 + Zpos p + Zpos p) by lia.
      rewrite !Z.pow_add_r by lia. reflexivity. }
    assert (H1 : 0 <= shr_m (shr_1 mrs))
      by (rewrite shr_1_div2 by exact Hm; apply Z.div_pos; lia).
    assert (H2 : 0 <= shr_m (iter_pos shr_1 p (shr_1 mrs)))
      by (rewrite IH by exact H1; apply Z.div_pos; [exact H1 | exact Hpp]).
    rewrite IH by exact H2. rewrite IH by exact H1.
    rewrite shr_1_div2 by exact Hm.
    rewrite Hpow. rewrite !Z.div_div by lia.
    first [reflexivity | f_equal; lia].
  - assert (Hpp : 0 < 2 ^ Zpos p) by (apply Z.pow_pos_nonneg; lia).
    assert (Hpow : 2 ^ Zpos p~0 = 2 ^ Zpos p * 2 ^ Zpos p).
    { replace (Zpos p~0) with (Zpos p + Zpos p) by lia.
      rewrite Z.pow_add_r by lia. reflexivity. }
    assert (H2 : 0 <= shr_m (iter_pos shr_1 p mrs))
      by (rewrite IH by exact Hm; apply Z.div_pos; [exact Hm | exact Hpp]).
    rewrite IH by exact H2. rewrite IH by exact Hm.
    rewrite Hpow. rewrite !Z.div_div by lia.
    first [reflexivity | f_equal; lia].
  - rewrite shr_1_div2 by exact Hm. reflexivity.
Qed.

Lemma digits2_bounds (p : positive) :
  2 ^ (Zpos (digits2_pos p) - 1) <= Zpos p < 2 ^ Zpos (digits2_pos p).
Proof.
  induction p as [p IH|p IH|]; cbn [digits2_pos]; [| |cbn; lia].
  all: set (d := digits2_pos p) in *.
  all: assert (E1 : 2 ^ Zpos d = 2 * 2 ^ (Zpos d - 1))
         by (replace (Zpos d) with (Z.succ (Zpos d - 1)) at 1 by lia;
             apply Z.pow_succ_r; lia).
  all: assert (E2 : 2 ^ Zpos (Pos.succ d) = 2 * 2 ^ Zpos d)
         by (rewrite Pos2Z.inj_succ; apply Z.pow_succ_r; lia).
  all: assert (E3 : Zpos (Pos.succ d) - 1 = Zpos d) by lia.
  all: rewrite E3, E2; lia.
Qed.

Lemma shr_fexp_nonneg m e l :
  0 <= m -> 0 <= shr_m (fst (shr_fexp prec emax m e l)).
Proof.
  intros Hm. unfold shr_fexp, shr.
  destruct (fexp prec emax (Zdigits2 m + e) - e) as [|q|q]; cbn [fst];
    rewrite ?shr_m_of_loc; try exact Hm.
  rewrite iter_shr_1_div by (rewrite shr_m_of_loc; exact Hm).
  rewrite shr_m_of_loc. apply Z.div_pos; [exact Hm|].
  apply Z.pow_pos_nonneg; lia.
Qed.

Lemma shr_fexp_pos m e l :
  0 < m -> emin prec emax <= e ->
  0 < shr_m (fst (shr_fexp prec emax m e l)) /\
  emin prec emax <= snd (shr_fexp prec emax m e l).
Proof.
  intros Hm He. unfold shr_fexp, shr.
  destruct m as [|p|p]; try lia. cbn [Zdigits2].
  pose proof (digits2_bounds p) as [Hlo _].
  set (d := Zpos (digits2_pos p)) in *.
  assert (Hd : 0 < d) by (unfold d; lia).
  destruct (fexp prec emax (d + e) - e) as [|q|q] eqn:Hn; cbn [fst snd];
    rewrite ?shr_m_of_loc; try (split; [lia | exact He]).
  unfold fexp in Hn.
  assert (Hq : Zpos q = d - prec) by lia.
  split; [|lia].
  rewrite iter_shr_1_div by (rewrite shr_m_of_loc; lia).
  rewrite shr_m_of_loc. apply Z.div_str_pos.
  split; [apply Z.pow_pos_nonneg; lia|].
  apply Z.le_trans with (2 ^ (d - 1)); [|exact Hlo].
  apply Z.pow_le_mono_r; lia.
Qed.

Lemma round_nearest_even_ge m l : m <= round_nearest_even m l.
Proof.
  destruct l as [|[]]; cbn [round_nearest_even];
    try destruct (Z.even m); lia.
Qed.

(** Rounding a non-negative mantissa gives no NaN. *)
Lemma binary_round_aux_num sx mx ex lx :
  0 <= mx -> signed sx (binary_round_aux prec emax sx mx ex lx).
Proof.
  intros Hm. unfold binary_round_aux, signed.
  pose proof (shr_fexp_nonneg mx ex lx Hm) as H1.
  destruct (shr_fexp prec emax mx ex lx) as [mrs' e']. cbn [fst] in H1.
  pose proof (round_nearest_even_ge (shr_m mrs') (loc_of_shr_record mrs')) as H2.
  assert (H3 : 0 <= round_nearest_even (shr_m mrs') (loc_of_shr_record mrs'))
    by lia.
  pose proof (shr_fexp_nonneg _ e' loc_Exact H3) as H4.
  destruct (shr_fexp prec emax _ e' loc_Exact) as [mrs'' e'']. cbn [fst] in H4.
  destruct (shr_m mrs'') as [|m|m]; [now left| |lia].
  destruct (e'' <=? emax - prec); right; [right; eauto | now left].
Qed.

(** Rounding a positive mantissa with an exponent in range gives neither a
    NaN nor a zero. *)
Lemma binary_round_aux_pos sx mx ex lx :
  0 < mx -> emin prec emax <= ex ->
  binary_round_aux prec emax sx mx ex lx = S754_infinity sx \/
  exists m e, binary_round_aux prec emax sx mx ex lx = S754_finite sx m e.
Proof.
  intros Hm He. unfold binary_round_aux.
  pose proof (shr_fexp_pos mx ex lx Hm He) as [H1 He'].
  destruct (shr_fexp prec emax mx ex lx) as [mrs' e']. cbn [fst snd] in H1, He'.
  pose proof (round_nearest_even_ge (shr_m mrs') (loc_of_shr_record mrs')) as H2.
  assert (H3 : 0 < round_nearest_even (shr_m mrs') (loc_of_shr_record mrs'))
    by lia.
  pose proof (shr_fexp_pos _ e' loc_Exact H3 He') as [H4 _].
  destruct (shr_fexp prec emax _ e' loc_Exact) as [mrs'' e'']. cbn [fst] in H4.
  destruct (shr_m mrs'') as [|m|m]; try lia.
  destruct (e'' <=? emax - prec); [right; eauto | now left].
Qed.

Lemma shl_align_exp mx ex ex' :
  snd (shl_align mx ex ex') = Z.min ex ex'.
Proof.
  unfold shl_align. destruct (ex' - ex) eqn:Hd; cbn [snd]; lia.
Qed.

Lemma pos_iter_xO (m d : positive) :
  Zpos (Pos.iter xO m d) = Zpos m * 2 ^ Zpos d.
Proof.
  rewrite (Pos.iter_swap_gen _ _ Zpos xO (Z.mul 2)) by reflexivity.
  change (Pos.iter (Z.mul 2) (Zpos m) d) with (Z.shiftl (Zpos m) (Zpos d)).
  apply Z.shiftl_mul_pow2. lia.
Qed.

Lemma shl_align_val mx ex ez :
  ez <= ex -> Zpos (fst (shl_align mx ex ez)) = Zpos mx * 2 ^ (ex - ez).
Proof.
  intros He. unfold shl_align.
  destruct (ez - ex) as [|d|d] eqn:Hd; cbn [fst]; try lia.
  - replace (ex - ez) with 0 by lia. lia.
  - rewrite pos_iter_xO. f_equal. f_equal. lia.
Qed.

Lemma binary_round_num sx mx ex :
  signed sx (binary_round prec emax sx mx ex).
Proof.
  unfold binary_round.
  destruct (shl_align mx ex _) as [mz ez].
  apply binary_round_aux_num. lia.
Qed.

Lemma binary_round_pos sx mx ex :
  emin prec emax <= ex ->
  binary_round prec emax sx mx ex = S754_infinity sx \/
  exists m e, binary_round prec emax sx mx ex = S754_finite sx m e.
Proof.
  intros He. unfold binary_round.
  pose proof (shl_align_exp mx ex (fexp prec emax (Zpos (digits2_pos mx) + ex)))
    as Hz.
  destruct (shl_align mx ex _) as [mz ez]. cbn [snd] in Hz.
  apply binary_round_aux_pos; [lia|].
  unfold fexp in Hz. lia.
Qed.

(** Two canonical mantissas of the same sign compare as their exponents
    do. *)
Lemma canonical_lt m1 e1 m2 e2 :
  bounded prec emax m1 e1 = true -> bounded prec emax m2 e2 = true ->
  e1 < e2 -> Zpos m1 < Zpos m2 * 2 ^ (e2 - e1).
Proof.
  unfold bounded, canonical_mantissa, fexp.
  intros H1 H2 He.
  apply andb_true_iff in H1. destruct H1 as [H1 _].
  apply andb_true_iff in H2. destruct H2 as [H2 _].
  apply Z.eqb_eq in H1. apply Z.eqb_eq in H2.
  pose proof (digits2_bounds m1) as [_ Hhi].
  pose proof (digits2_bounds m2) as [Hlo _].
  set (d1 := Zpos (digits2_pos m1)) in *.
  set (d2 := Zpos (digits2_pos m2)) in *.
  assert (Hd1 : d1 <= prec) by lia.
  assert (Hd2 : d2 = prec) by lia.
  assert (Hp1 : 2 ^ d1 <= 2 ^ prec) by (apply Z.pow_le_mono_r; lia).
  assert (Hp2 : 2 ^ 1 <= 2 ^ (e2 - e1)) by (apply Z.pow_le_mono_r; lia).
  change (2 ^ 1) with 2 in Hp2.
  assert (Hp3 : 2 ^ prec = 2 * 2 ^ (prec - 1)).
  { replace prec with (1 + (prec - 1)) at 1 by lia.
    rewrite Z.pow_add_r by lia. reflexivity. }
  rewrite Hd2 in Hlo.
  assert (Hp4 : 0 < 2 ^ (prec - 1)) by (apply Z.pow_pos_nonneg; lia).
  nia.
Qed.

Lemma binary_normalize_sign z e s0 :
  binary_normalize prec emax z e s0 = S754_zero s0 \/
  signed (z <? 0) (binary_normalize prec emax z e s0).
Proof.
  destruct z as [|p|p]; cbn [binary_normalize]; [now left| |];
    right; apply binary_round_num.
Qed.

End SpecFloatFacts.

(** ** The facts [AttentionReg.cal_loss] relies on, in single precision *)

Section Float32Facts.

Local Abbreviation zero := (S754_zero false).
Local Abbreviation add := (SFadd 24 128).
Local Abbreviation sub := (SFsub 24 128).
Local Abbreviation mul := (SFmul 24 128).
Local Abbreviation div := (SFdiv 24 128).
Local Abbreviation sqrt32 := (SFsqrt 24 128).

Lemma f32_one : f32_of_Z 1 = S754_finite false 8388608 (-23).
Proof. vm_compute. reflexivity. Qed.

Lemma f32_nn_signed (y : float32) :
  y = S754_nan \/ signed false y -> SFltb y zero = false.
Proof.
  intros [-> | [-> | [-> | (m & e & ->)]]]; reflexivity.
Qed.

Lemma f32_nn_round sx mx ex lx :
  sx = false -> SFltb (binary_round_aux 24 128 sx mx ex lx) zero = false.
Proof.
  intros ->. apply f32_nn_signed. apply binary_round_aux_sign.
Qed.

Lemma f32_nn_add (a b : float32) :
  SFltb a zero = false -> SFltb b zero = false -> SFltb (add a b) zero = false.
Proof.
  destruct a as [[]|[]| |[] ma ea]; try discriminate;
    destruct b as [[]|[]| |[] mb eb]; try discriminate; intros _ _;
    try reflexivity.
  unfold SFadd. cbn [cond_Zopp]. rewrite <- Pos2Z.inj_add.
  cbn [binary_normalize]. apply f32_nn_signed. right.
  apply binary_round_num.
Qed.

Lemma f32_nn_sqrt (a : float32) : SFltb (sqrt32 a) zero = false.
Proof.
  destruct a as [[]|[]| |[] m e]; try reflexivity.
  unfold SFsqrt. destruct (SFsqrt_core_binary 24 128 (Zpos m) e) as [[mz ez] lz].
  now apply f32_nn_round.
Qed.

Lemma f32_nn_div (a d : float32) :
  SFltb a zero = false -> SFltb zero d = true -> SFltb (div a d) zero = false.
Proof.
  destruct a as [[]|[]| |[] ma ea]; try discriminate;
    destruct d as [[]|[]| |[] md ed]; try discriminate; intros _ _;
    try reflexivity.
  unfold SFdiv.
  destruct (SFdiv_core_binary 24 128 (Zpos ma) ea (Zpos md) ed) as [[mz ez] lz].
  now apply f32_nn_round.
Qed.

Lemma f32_nn_mul_one (a : float32) :
  SFltb a zero = false -> SFltb (mul a (f32_of_Z 1)) zero = false.
Proof.
  rewrite f32_one.
  destruct a as [[]|[]| |[] ma ea]; try discriminate; intros _;
    try reflexivity.
  unfold SFmul. now apply f32_nn_round.
Qed.

Lemma f32_pos_of_Z (z : Z) : (0 < z)%Z -> SFltb zero (f32_of_Z z) = true.
Proof.
  intros Hz. destruct z as [|p|p]; try lia.
  unfold f32_of_Z. cbn [binary_normalize].
  destruct (binary_round_pos 24 128 ltac:(lia) false p 0 ltac:(now vm_compute))
    as [-> | (m & e & ->)]; reflexivity.
Qed.

Lemma f32_pos_eps : SFltb zero (@normalize_eps float32 _) = true.
Proof. vm_compute. reflexivity. Qed.

Lemma f32_zero_inv (x : float32) :
  SFeqb x zero = true -> exists s, x = S754_zero s.
Proof.
  destruct x as [s|[]| |[] m e]; try discriminate. intros _. now exists s.
Qed.

Lemma f32_pos_inv (d : float32) :
  SFltb zero d = true ->
  d = S754_infinity false \/ exists m e, d = S754_finite false m e.
Proof.
  destruct d as [[]|[]| |[] m e]; try discriminate; intros _;
    [now left | right; eauto].
Qed.

Lemma f32_z_add (a b : float32) :
  SFeqb a zero = true -> SFeqb b zero = true -> SFeqb (add a b) zero = true.
Proof.
  intros Ha Hb. apply f32_zero_inv in Ha. apply f32_zero_inv in Hb.
  destruct Ha as [[] ->], Hb as [[] ->]; reflexivity.
Qed.

Lemma f32_z_sq (a : float32) :
  SFeqb a zero = true -> SFeqb (mul a a) zero = true.
Proof.
  intros Ha. apply f32_zero_inv in Ha. destruct Ha as [[] ->]; reflexivity.
Qed.

Lemma f32_z_sqrt (a : float32) :
  SFeqb a zero = true -> SFeqb (sqrt32 a) zero = true.
Proof.
  intros Ha. apply f32_zero_inv in Ha. destruct Ha as [[] ->]; reflexivity.
Qed.

Lemma f32_z_div (a d : float32) :
  SFeqb a zero = true -> SFltb zero d = true -> SFeqb (div a d) zero = true.
Proof.
  intros Ha Hd. apply f32_zero_inv in Ha. apply f32_pos_inv in Hd.
  destruct Ha as [[] ->], Hd as [-> | (m & e & ->)]; reflexivity.
Qed.

Lemma f32_z_mul_one (a : float32) :
  SFeqb a zero = true -> SFeqb (mul a (f32_of_Z 1)) zero = true.
Proof.
  rewrite f32_one. intros Ha. apply f32_zero_inv in Ha.
  destruct Ha as [[] ->]; reflexivity.
Qed.

Lemma f32_z_below (a e : float32) :
  SFeqb a zero = true -> SFltb zero e = true -> SFltb a e = true.
Proof.
  intros Ha He. apply f32_zero_inv in Ha. apply f32_pos_inv in He.
  destruct Ha as [[] ->], He as [-> | (m & x & ->)]; reflexivity.
Qed.

(** A rounded number that is not positive is negative or a zero. *)
Lemma f32_signed_true (y : float32) :
  signed true y -> SFltb y zero = true \/ SFeqb y zero = true.
Proof.
  intros [-> | [-> | (m & e & ->)]]; [right | left | left]; reflexivity.
Qed.

Lemma f32_normalize_nonpos (z e : Z) :
  (z <= 0)%Z ->
  SFltb (binary_normalize 24 128 z e false) zero = true \/
  SFeqb (binary_normalize 24 128 z e false) zero = true.
Proof.
  intros Hz. destruct z as [|p|p]; try lia.
  - right. reflexivity.
  - cbn [binary_normalize]. apply f32_signed_true. apply binary_round_num.
Qed.

Lemma f32_sub_le (a b : float32) :
  f32_is_finite a = true -> f32_is_finite b = true -> SFleb a b = true ->
  SFltb (sub a b) zero = true \/ SFeqb (sub a b) zero = true.
Proof.
  destruct a as [sa|sa| |sa ma ea]; try discriminate;
    destruct b as [sb|sb| |sb mb eb]; try discriminate;
    cbn [f32_is_finite]; intros Ha Hb Hle.
  - destruct sa, sb; right; reflexivity.
  - destruct sb; [discriminate Hle|]. left. reflexivity.
  - destruct sa; [|discriminate Hle]. left. reflexivity.
  - unfold SFsub. apply f32_normalize_nonpos.
    rewrite !shl_align_val by lia.
    unfold SFleb, SFcompare in Hle.
    destruct sa, sb; cbn [cond_Zopp]; try discriminate Hle.
    + (* both negative *)
      destruct (Z.compare_spec ea eb) as [He|He|He]; try discriminate Hle.
      * subst eb. rewrite Z.min_id, Z.sub_diag. change (2 ^ 0)%Z with 1%Z.
        destruct (Pos.compare_spec ma mb) as [Hm|Hm|Hm];
          rewrite Pos.compare_cont_spec in Hle; cbn in Hle.
        -- subst. lia.
        -- rewrite (proj2 (Pos.compare_lt_iff ma mb) Hm) in Hle.
           discriminate Hle.
        -- lia.
      * pose proof (canonical_lt 24 128 ltac:(lia) mb eb ma ea Hb Ha He) as Hc.
        rewrite Z.min_r by lia. rewrite Z.sub_diag. change (2 ^ 0)%Z with 1%Z.
        lia.
    + (* a negative, b positive *)
      assert (H1 : (0 < 2 ^ (ea - Z.min ea eb))%Z)
        by (apply Z.pow_pos_nonneg; lia).
      assert (H2 : (0 < 2 ^ (eb - Z.min ea eb))%Z)
        by (apply Z.pow_pos_nonneg; lia).
      nia.
    + (* both positive *)
      destruct (Z.compare_spec ea eb) as [He|He|He]; try discriminate Hle.
      * subst eb. rewrite Z.min_id, Z.sub_diag. change (2 ^ 0)%Z with 1%Z.
        destruct (Pos.compare_spec ma mb) as [Hm|Hm|Hm];
          rewrite Pos.compare_cont_spec in Hle; cbn in Hle.
        -- subst. lia.
        -- lia.
        -- rewrite (proj2 (Pos.compare_gt_iff ma mb) Hm) in Hle.
           discriminate Hle.
      * pose proof (canonical_lt 24 128 ltac:(lia) ma ea mb eb Ha Hb He) as Hc.
        rewrite Z.min_l by lia. rewrite Z.sub_diag. change (2 ^ 0)%Z with 1%Z.
        lia.
Qed.

End Float32Facts.

#[export] Instance FloatArith_float32 : FloatArith float32 := {
  seqb := SFeqb;
  sleb := SFleb;
  is_finite := f32_is_finite;
  nn_zero := eq_refl;
  nn_add := f32_nn_add;
  nn_sqrt := f32_nn_sqrt;
  nn_div := f32_nn_div;
  nn_mul_one := f32_nn_mul_one;
  pos_of_Z := f32_pos_of_Z;
  pos_eps := f32_pos_eps;
  z_zero := eq_refl;
  z_add := f32_z_add;
  z_sq := f32_z_sq;
  z_sqrt := f32_z_sqrt;
  z_div := f32_z_div;
  z_mul_one := f32_z_mul_one;
  z_below := f32_z_below;
  sub_le := f32_sub_le
}.

(** * [AttentionReg.cal_loss] *)

Section LossFacts.

Context {A : Type} {S : Scalar A} {F : FloatArith A}.

Local Abbreviation nn x := (sltb x szero = false).
Local Abbreviation isz x := (seqb x szero = true).








(** *** Pooling *)


(** *** [F.normalize] *)



(** *** The loss of one layer *)






(** *** The loop over the layers *)



End LossFacts.



(** * Further properties of the code *)
(** ** Splitting the hidden dimension into heads *)

Section HeadSplit.

Context {A : Type} `{Scalar A}.

(** [CLIPAttention._shape] on a tensor of shape
    [[bsz; seq_len; num_heads * head_dim]] returns a well-formed tensor of
    shape [[bsz; num_heads; seq_len; head_dim]] in which head [h] holds the
    [h]-th block of [head_dim] channels:
    [out[b, h, i, d] = t[b, i, h * head_dim + d]]. *)
Theorem CLIPAttention__shape_entries (ca : CLIPAttention A) (t : tensor A)
    (bsz s : nat) :
  shape t = [bsz; s; ca_num_heads ca * ca_head_dim ca] ->
  exists out,
    CLIPAttention__shape ca t (Z.of_nat s) bsz = Ok out /\
    shape out = [bsz; ca_num_heads ca; s; ca_head_dim ca] /\
    wf out /\
    forall b h i d, b < bsz -> h < ca_num_heads ca -> i < s -> d < ca_head_dim ca ->
      get out [b; h; i; d] = get t [b; i; h * ca_head_dim ca + d].
Proof.
  intros Hs. unfold CLIPAttention__shape, contiguous.
  change [Z.of_nat bsz; Z.of_nat s; Z.of_nat (ca_num_heads ca);
          Z.of_nat (ca_head_dim ca)]
    with (map Z.of_nat [bsz; s; ca_num_heads ca; ca_head_dim ca]).
  rewrite view_known by (rewrite Hs; simpl; lia).
  cbn [rbind]. unfold transpose, dim. cbn [shape].
  change (norm_dim (length [bsz; s; ca_num_heads ca; ca_head_dim ca]) 1)
    with (@Ok nat 1).
  change (norm_dim (length [bsz; s; ca_num_heads ca; ca_head_dim ca]) 2)
    with (@Ok nat 2).
  cbn [rbind swap_at length seq map nth Nat.eqb contiguous].
  eexists. split; [reflexivity|]. split; [reflexivity|].
  split; [apply build_wf|].
  intros b h i d Hb Hh Hi Hd.
  rewrite get_build by (repeat constructor; assumption).
  change (swap_at 1 2 [b; h; i; d]) with [b; i; h; d].
  apply get_flat; [reflexivity|].
  rewrite Hs. cbn [shape flat numel fold_right]. ring.
Qed.

(** On a tensor of shape [[bsz; seq_len; num_heads * head_size]] the head
    split of the text attention, [transpose_for_scores], and that of the
    vision attention, [_shape] with the sequence length given, are the same
    tensor.  With [seq_len = -1], as the vision attention calls it for keys
    and values, [_shape] gives that tensor again when
    [bsz * num_heads * head_dim] is positive and raises otherwise, where
    [transpose_for_scores] still returns. *)
Theorem head_splits_agree (ca : CLIPAttention A) (bsa : BertSelfAttention A)
    (t : tensor A) (bsz s : nat) :
  num_attention_heads bsa = ca_num_heads ca ->
  attention_head_size bsa = ca_head_dim ca ->
  shape t = [bsz; s; ca_num_heads ca * ca_head_dim ca] ->
  CLIPAttention__shape ca t (Z.of_nat s) bsz = transpose_for_scores bsa t /\
  (exists out, transpose_for_scores bsa t = Ok out) /\
  (0 < bsz * ca_num_heads ca * ca_head_dim ca ->
   CLIPAttention__shape ca t (-1) bsz = transpose_for_scores bsa t) /\
  (bsz * ca_num_heads ca * ca_head_dim ca = 0 ->
   CLIPAttention__shape ca t (-1) bsz = Raise RuntimeError).
Proof.
  intros Hnh Hhd Hs.
  assert (Ht : transpose_for_scores bsa t
               = Ok (build [bsz; ca_num_heads ca; s; ca_head_dim ca]
                       (fun idx => get (mkT [bsz; s; ca_num_heads ca; ca_head_dim ca]
                                            (data t))
                                       (swap_at 1 2 idx)))).
  { unfold transpose_for_scores. rewrite Hs, Hnh, Hhd.
    cbn [removelast app].
    rewrite view_known by (rewrite Hs; simpl; lia).
    cbn [rbind]. unfold permute, dim. cbn [shape].
    change (is_perm [0; 2; 1; 3] (length [bsz; s; ca_num_heads ca; ca_head_dim ca]))
      with true.
    cbn [map nth length]. f_equal. apply build_ext.
    intros idx Hin. unfold in_shape in Hin.
    inversion Hin as [|b ? ? ? _ H1]; subst.
    inversion H1 as [|h ? ? ? _ H2]; subst.
    inversion H2 as [|i ? ? ? _ H3]; subst.
    inversion H3 as [|d ? ? ? _ H4]; subst.
    inversion H4; subst. reflexivity. }
  assert (Hc : CLIPAttention__shape ca t (Z.of_nat s) bsz
               = Ok (build [bsz; ca_num_heads ca; s; ca_head_dim ca]
                       (fun idx => get (mkT [bsz; s; ca_num_heads ca; ca_head_dim ca]
                                            (data t))
                                       (swap_at 1 2 idx)))).
  { unfold CLIPAttention__shape, contiguous.
    change [Z.of_nat bsz; Z.of_nat s; Z.of_nat (ca_num_heads ca);
            Z.of_nat (ca_head_dim ca)]
      with (map Z.of_nat [bsz; s; ca_num_heads ca; ca_head_dim ca]).
    rewrite view_known by (rewrite Hs; simpl; lia).
    reflexivity. }
  split; [now rewrite Hc, Ht|]. split; [eexists; exact Ht|]. split.
  - intros Hpos. rewrite Ht. unfold CLIPAttention__shape, view.
    rewrite Hs.
    rewrite (infer_sizes_second _ bsz (ca_num_heads ca) s (ca_head_dim ca))
      by (simpl; nia).
    reflexivity.
  - intros Hz. unfold CLIPAttention__shape, view, infer_sizes, count_minus1,
      known_numel.
    cbn [existsb filter fold_right map].
    rewrite !of_nat_ltb_m1, !of_nat_eqb_m1.
    cbn [orb Z.ltb Z.eqb Z.compare Pos.compare Pos.compare_cont Pos.eqb length].
    rewrite !Nat2Z.id.
    replace (bsz * (ca_num_heads ca * (ca_head_dim ca * 1))) with 0 by lia.
    reflexivity.
Qed.

End HeadSplit.

(** ** [ShareKey.cal_attention]: shapes and broadcasting *)

Lemma infer_sizes_nat_inv (n : nat) (sizes s : list nat) :
  infer_sizes n (map Z.of_nat sizes) = Ok s -> s = sizes /\ numel sizes = n.
Proof.
  unfold infer_sizes.
  assert (He : existsb (fun z => (z <? -1)%Z) (map Z.of_nat sizes) = false).
  { induction sizes as [|x l IH] in |- *; simpl; [reflexivity|].
    now rewrite of_nat_ltb_m1, IH. }
  assert (Hc : count_minus1 (map Z.of_nat sizes) = 0).
  { unfold count_minus1. induction sizes as [|x l IH] in |- *; simpl;
      [reflexivity|]. now rewrite of_nat_eqb_m1. }
  assert (Hk : known_numel (map Z.of_nat sizes) = numel sizes).
  { unfold known_numel. induction sizes as [|x l IH] in |- *; simpl;
      [reflexivity|]. now rewrite of_nat_eqb_m1, Nat2Z.id, IH. }
  rewrite He, Hc, Hk.
  destruct (Nat.eqb_spec (numel sizes) n) as [Hn|Hn]; [|discriminate].
  intros Hs. inversion Hs as [Hs']. split; [|exact Hn].
  rewrite map_map. rewrite <- (map_id sizes) at 2.
  apply map_ext. intros x. apply Nat2Z.id.
Qed.

Lemma infer_sizes_third_inv (n a b d : nat) (s : list nat) :
  infer_sizes n [Z.of_nat a; Z.of_nat b; (-1)%Z; Z.of_nat d] = Ok s ->
  0 < a * b * d /\ s = [a; b; n / (a * b * d); d].
Proof.
  unfold infer_sizes, count_minus1, known_numel.
  cbn [existsb filter fold_right map].
  rewrite !of_nat_ltb_m1, !of_nat_eqb_m1. cbn [orb Z.ltb Z.eqb Z.compare
    Pos.compare Pos.compare_cont Pos.eqb length].
  rewrite !Nat2Z.id.
  assert (Hk : a * (b * (d * 1)) = a * b * d) by lia. rewrite Hk.
  destruct (Nat.ltb_spec 0 (a * b * d)) as [Hp|Hp]; [|discriminate].
  destruct (n mod (a * b * d) =? 0); [|discriminate].
  cbn [andb]. intros Hs. inversion Hs. now split.
Qed.

Section CalAttentionShape.

Context {A : Type} `{Scalar A}.

(** Whenever [cal_attention] returns for [shape=3], the query's first
    dimension is positive and a multiple of the positive [num_heads],
    [head_dim] is positive, and the result is one square matrix per row of
    the query's first dimension, whatever the shapes of the key and bias
    were. *)
Theorem cal_attention_result_is_square (cls : ShareKey_cls A) (q W : tensor A)
    (layer : Z) (modality : string) :
  ShareKey_cal_attention cls q layer modality 3 = Ok W ->
  exists s,
    shape W = [nth 0 (shape q) 0; s; s] /\
    0 < nth 0 (shape q) 0 /\
    0 < num_heads cls /\ 0 < head_dim cls /\
    nth 0 (shape q) 0 mod num_heads cls = 0.
Proof.
  unfold ShareKey_cal_attention. intros Hc.
  apply rbind_ok_inv in Hc. destruct Hc as ([] & _ & Hc).
  apply rbind_ok_inv in Hc. destruct Hc as ([] & _ & Hc).
  change ((3 =? 4)%Z) with false in Hc. change ((3 =? 3)%Z) with true in Hc.
  cbn [rbind] in Hc.
  apply rbind_ok_inv in Hc. destruct Hc as (n0 & Hn0 & Hc).
  apply rbind_ok_inv in Hc. destruct Hc as ([] & Hz & Hc).
  apply rbind_ok_inv in Hc. destruct Hc as ([] & Hmod & Hc).
  apply rbind_ok_inv in Hc. destruct Hc as (q4 & Hview & Hc).
  apply rbind_ok_inv in Hc. destruct Hc as (bias & _ & Hc).
  apply rbind_ok_inv in Hc. destruct Hc as (bn & _ & Hc).
  apply rbind_ok_inv in Hc. destruct Hc as (k & _ & Hc).
  apply rbind_ok_inv in Hc. destruct Hc as (aw & _ & Hc).
  apply rbind_ok_inv in Hc. destruct Hc as (s2 & _ & Hc).
  apply rbind_ok_inv in Hc. destruct Hc as (aw1 & _ & Hc).
  apply rbind_ok_inv in Hc. destruct Hc as (bias0 & _ & Hc).
  apply rbind_ok_inv in Hc. destruct Hc as (aw2 & _ & Hc).
  apply rbind_ok_inv in Hc. destruct Hc as (s & _ & Hc).
  destruct (Nat.eqb_spec (num_heads cls) 0) as [|Hnh]; [discriminate|].
  unfold rassert in Hmod.
  destruct (Nat.eqb_spec (n0 mod num_heads cls) 0) as [Hm|]; [|discriminate].
  assert (Hq0 : nth 0 (shape q) 0 = n0).
  { unfold shape_at in Hn0. apply (py_index_nat (shape q) 0) in Hn0.
    destruct (shape q); simpl in *; [discriminate | now inversion Hn0]. }
  unfold view in Hview. apply rbind_ok_inv in Hview.
  destruct Hview as (s4 & Hs4 & _).
  apply infer_sizes_third_inv in Hs4. destruct Hs4 as [Hpos _].
  unfold reshape, view in Hc. apply rbind_ok_inv in Hc.
  destruct Hc as (sw & Hsw & HW).
  change [Z.of_nat (n0 / num_heads cls * num_heads cls); Z.of_nat s; Z.of_nat s]
    with (map Z.of_nat [n0 / num_heads cls * num_heads cls; s; s]) in Hsw.
  apply infer_sizes_nat_inv in Hsw. destruct Hsw as [-> _].
  inversion HW; subst W. cbn [shape].
  assert (Hdiv : n0 / num_heads cls * num_heads cls = n0).
  { pose proof (Nat.div_mod_eq n0 (num_heads cls)). nia. }
  exists s. rewrite Hq0, Hdiv. repeat split; try assumption; nia.
Qed.

End CalAttentionShape.

Lemma bdim_1_l (m : nat) : bdim 1 m = Some m.
Proof.
  unfold bdim. destruct (Nat.eqb_spec 1 m); [now subst | reflexivity].
Qed.

Lemma bdim_none (n m : nat) : n <> m -> n <> 1 -> m <> 1 -> bdim n m = None.
Proof.
  intros H1 H2 H3. unfold bdim.
  destruct (Nat.eqb_spec n m); [contradiction|].
  destruct (Nat.eqb_spec n 1); [contradiction|].
  destruct (Nat.eqb_spec m 1); [contradiction|]. reflexivity.
Qed.

Section CalAttentionBroadcast.

Context {A : Type} `{Scalar A}.

(** The part of [cal_attention] before the bias is added: the products of
    the query rows with the key, spread along the last axis. *)
Lemma cal_attention_before_bias (cls : ShareKey_cls A) (q K B : tensor A)
    (layer : Z) (modality : string) (bsz len : nat) :
  in_strings modality ["text"; "vision"]%string = true ->
  0 < bsz -> 0 < num_heads cls -> 0 < head_dim cls ->
  shape q = [bsz * num_heads cls; len; head_dim cls] ->
  py_index_opt (key cls) layer = Ok K ->
  shape K = [1; num_heads cls; head_dim cls; 1] ->
  bias_of cls modality layer = Ok B ->
  (exists bn, bn_of cls modality layer = Ok bn) ->
  exists X,
    shape X = [bsz; num_heads cls; len; len] /\
    (forall b h i j, b < bsz -> h < num_heads cls -> i < len -> j < len ->
       get X [b; h; i; j]
       = dot (head_dim cls) (fun d => get q [b * num_heads cls + h; i; d])
             (fun d => get K [0; h; d; 0])) /\
    ShareKey_cal_attention cls q layer modality 3
    = (aw <-- tadd X (mkT (1 :: shape B) (data B)) ;;
       s <-- shape_at aw 2 ;;
       reshape aw [Z.of_nat (bsz * num_heads cls); Z.of_nat s; Z.of_nat s])%res.
Proof.
  intros Hm Hbsz Hnh Hhd Hq HK HKs HB [bn Hbn].
  unfold ShareKey_cal_attention.
  fold (bias_of cls modality layer). fold (bn_of cls modality layer).
  rewrite Hm, HK, HB, Hbn.
  set (nh := num_heads cls) in *. set (hd := head_dim cls) in *.
  change ((3 =? 4)%Z) with false. change ((3 =? 3)%Z) with true.
  cbn [rassert orb rbind].
  unfold shape_at at 1. rewrite Hq.
  change (py_index [bsz * nh; len; hd] 0) with (Ok (bsz * nh)).
  cbn [rbind].
  destruct (Nat.eqb_spec nh 0) as [|_]; [lia|].
  rewrite Nat.Div0.mod_mul, Nat.div_mul by lia.
  cbn [Nat.eqb rassert rbind].
  unfold view at 1. rewrite Hq.
  rewrite (infer_sizes_third _ bsz nh len hd) by (simpl; nia).
  cbn [rbind].
  unfold matmul. rewrite HKs. cbn [shape rev app].
  rewrite Nat.eqb_refl. cbn [bshape_rev]. rewrite bdim_refl, bdim_1_r.
  cbn [rev app length rbind].
  unfold shape_at at 1. cbn [shape build].
  change (py_index [bsz; nh; len; 1] 2) with (Ok len). cbn [rbind].
  unfold expand. cbn [shape build rev app expandable_rev].
  rewrite !Nat.eqb_refl. cbn [orb andb]. rewrite orb_true_r. cbn [andb rbind].
  unfold unsqueeze. cbn [Nat.leb rbind]. change (firstn 0 (shape B)) with (@nil nat).
  change (skipn 0 (shape B)) with (shape B). cbn [app].
  eexists. split; [|split; [|reflexivity]]; [reflexivity|].
  intros b h i j Hb Hh Hi Hj.
  rewrite get_build by (repeat constructor; assumption).
  assert (Hw : bidx [bsz; nh; len; 1] [b; h; i; j] = [b; h; i; 0]).
  { unfold bidx. cbn [length Nat.sub skipn map2 Nat.eqb].
    now rewrite !bpick by assumption. }
  assert (Hk0 : bidx [1; nh] [b; h] = [0; h]).
  { unfold bidx. cbn [length Nat.sub skipn map2 Nat.eqb].
    now rewrite !bpick by assumption. }
  rewrite Hw.
  rewrite get_build by (repeat constructor; (assumption || lia)).
  cbn [firstn nth]. rewrite Hk0.
  rewrite (bidx_same [bsz; nh] [b; h]) by (repeat constructor; assumption).
  cbn [app].
  apply dot_ext; intros d Hd; [|reflexivity].
  apply get_flat; [reflexivity|].
  rewrite Hq. cbn [shape flat numel fold_right]. ring.
Qed.

(** A query whose length is neither the side of the bias nor 1, against a
    bias whose side is not 1, cannot be scored: the addition of the bias
    raises. *)
Theorem cal_attention_raises_unless_lengths_fit (cls : ShareKey_cls A)
    (q K B : tensor A) (layer : Z) (modality : string) (bsz len L : nat) :
  in_strings modality ["text"; "vision"]%string = true ->
  0 < bsz -> 0 < num_heads cls -> 0 < head_dim cls ->
  shape q = [bsz * num_heads cls; len; head_dim cls] ->
  py_index_opt (key cls) layer = Ok K ->
  shape K = [1; num_heads cls; head_dim cls; 1] ->
  bias_of cls modality layer = Ok B ->
  shape B = [num_heads cls; L; L] ->
  (exists bn, bn_of cls modality layer = Ok bn) ->
  len <> L -> len <> 1 -> L <> 1 ->
  ShareKey_cal_attention cls q layer modality 3 = Raise RuntimeError.
Proof.
  intros Hm Hbsz Hnh Hhd Hq HK HKs HB HBs Hbn H1 H2 H3.
  destruct (cal_attention_before_bias cls q K B layer modality bsz len
              Hm Hbsz Hnh Hhd Hq HK HKs HB Hbn) as (X & HX & _ & ->).
  unfold tadd, broadcast2. rewrite HX, HBs. cbn [shape].
  unfold broadcast_shapes. cbn [rev app bshape_rev].
  rewrite (bdim_none len L) by assumption. reflexivity.
Qed.

(** A query of length 1 is silently broadcast against the bias: the result
    has the side of the bias and every row of a head's matrix uses the one
    query row.  Likewise a bias of side 1 is broadcast over a longer query. *)
Theorem cal_attention_broadcasts_length_one (cls : ShareKey_cls A)
    (q K B : tensor A) (layer : Z) (modality : string) (bsz len L : nat) :
  in_strings modality ["text"; "vision"]%string = true ->
  0 < bsz -> 0 < num_heads cls -> 0 < head_dim cls ->
  shape q = [bsz * num_heads cls; len; head_dim cls] ->
  py_index_opt (key cls) layer = Ok K ->
  shape K = [1; num_heads cls; head_dim cls; 1] ->
  bias_of cls modality layer = Ok B ->
  shape B = [num_heads cls; L; L] ->
  (exists bn, bn_of cls modality layer = Ok bn) ->
  (len = 1 ->
   exists W,
     ShareKey_cal_attention cls q layer modality 3 = Ok W /\
     shape W = [bsz * num_heads cls; L; L] /\
     forall b h i j, b < bsz -> h < num_heads cls -> i < L -> j < L ->
       get W [b * num_heads cls + h; i; j]
       = sadd (dot (head_dim cls)
                   (fun d => get q [b * num_heads cls + h; 0; d])
                   (fun d => get K [0; h; d; 0]))
              (get B [h; i; j])) /\
  (L = 1 ->
   exists W,
     ShareKey_cal_attention cls q layer modality 3 = Ok W /\
     shape W = [bsz * num_heads cls; len; len] /\
     forall b h i j, b < bsz -> h < num_heads cls -> i < len -> j < len ->
       get W [b * num_heads cls + h; i; j]
       = sadd (dot (head_dim cls)
                   (fun d => get q [b * num_heads cls + h; i; d])
                   (fun d => get K [0; h; d; 0]))
              (get B [h; 0; 0])).
Proof.
  intros Hm Hbsz Hnh Hhd Hq HK HKs HB HBs Hbn.
  destruct (cal_attention_before_bias cls q K B layer modality bsz len
              Hm Hbsz Hnh Hhd Hq HK HKs HB Hbn) as (X & HX & HXe & ->).
  set (nh := num_heads cls) in *. set (hd := head_dim cls) in *.
  split; intros Hone; subst.
  - unfold tadd, broadcast2. rewrite HX, HBs. cbn [shape].
    unfold broadcast_shapes. cbn [rev app bshape_rev].
    rewrite !bdim_1_l, bdim_refl, bdim_1_r.
    cbn [option_map rev app rbind]. unfold shape_at. cbn [shape build].
    change (py_index [bsz; nh; L; L] 2) with (Ok L). cbn [rbind].
    unfold reshape, view. cbn [shape build].
    change [Z.of_nat (bsz * nh); Z.of_nat L; Z.of_nat L]
      with (map Z.of_nat [bsz * nh; L; L]).
    rewrite infer_sizes_known by (simpl; lia).
    cbn [rbind]. eexists. split; [reflexivity|]. split; [reflexivity|].
    intros b h i j Hb Hh Hi Hj.
    match goal with
    | |- get {| shape := _; data := data ?Y |} _ = _ =>
        transitivity (get Y [b; h; i; j]);
        [apply get_flat; [reflexivity | cbn [shape build flat numel fold_right]; ring]|]
    end.
    rewrite get_build by (repeat constructor; assumption).
    assert (Hx : bidx [bsz; nh; 1; 1] [b; h; i; j] = [b; h; 0; 0]).
    { unfold bidx. cbn [length Nat.sub skipn map2 Nat.eqb].
      now rewrite !bpick by assumption. }
    assert (Hb0 : bidx [1; nh; L; L] [b; h; i; j] = [0; h; i; j]).
    { unfold bidx. cbn [length Nat.sub skipn map2 Nat.eqb].
      now rewrite !bpick by assumption. }
    rewrite Hx, Hb0. rewrite HXe by lia. f_equal.
    apply get_flat; [reflexivity|].
    rewrite HBs. cbn [shape flat numel fold_right]. ring.
  - unfold tadd, broadcast2. rewrite HX, HBs. cbn [shape].
    unfold broadcast_shapes. cbn [rev app bshape_rev].
    rewrite !bdim_1_r, bdim_refl.
    cbn [option_map rev app rbind]. unfold shape_at. cbn [shape build].
    change (py_index [bsz; nh; len; len] 2) with (Ok len). cbn [rbind].
    unfold reshape, view. cbn [shape build].
    change [Z.of_nat (bsz * nh); Z.of_nat len; Z.of_nat len]
      with (map Z.of_nat [bsz * nh; len; len]).
    rewrite infer_sizes_known by (simpl; lia).
    cbn [rbind]. eexists. split; [reflexivity|]. split; [reflexivity|].
    intros b h i j Hb Hh Hi Hj.
    match goal with
    | |- get {| shape := _; data := data ?Y |} _ = _ =>
        transitivity (get Y [b; h; i; j]);
        [apply get_flat; [reflexivity | cbn [shape build flat numel fold_right]; ring]|]
    end.
    rewrite get_build by (repeat constructor; assumption).
    rewrite (bidx_same [bsz; nh; len; len]) by (repeat constructor; assumption).
    assert (Hb0 : bidx [1; nh; 1; 1] [b; h; i; j] = [0; h; 0; 0]).
    { unfold bidx. cbn [length Nat.sub skipn map2 Nat.eqb].
      now rewrite !bpick by assumption. }
    rewrite Hb0. rewrite HXe by assumption. f_equal.
    apply get_flat; [reflexivity|].
    rewrite HBs. cbn [shape flat numel fold_right]. ring.
Qed.

End CalAttentionBroadcast.

(** ** [ShareKey.init] *)

Section Init.

Context {A : Type} `{Scalar A}.
Variable Model : Type.
Variable draw : nat -> nat -> A.

Lemma xavier_key (k nh hd : nat) :
  xavier_uniform_ draw k (empty [1; nh; hd; 1])
  = if hd =? 0 then Raise ZeroDivisionError
    else Ok (drawn draw k [1; nh; hd; 1]).
Proof.
  unfold xavier_uniform_, calculate_fan_in_and_fan_out, empty.
  cbn [shape build rbind numel fold_right].
  destruct hd as [|hd].
  - rewrite !Nat.mul_0_r. reflexivity.
  - destruct (Nat.eqb_spec (nh * (S hd * (1 * 1)) + 1 * (S hd * (1 * 1))) 0);
      [lia | reflexivity].
Qed.

Lemma xavier_bias (k nh v : nat) :
  xavier_uniform_ draw k (empty [nh; v; v])
  = if v =? 0 then Raise ZeroDivisionError
    else Ok (drawn draw k [nh; v; v]).
Proof.
  unfold xavier_uniform_, calculate_fan_in_and_fan_out, empty.
  cbn [shape build rbind numel fold_right].
  destruct v as [|v].
  - rewrite !Nat.mul_0_r. reflexivity.
  - destruct (Nat.eqb_spec (S v * (S v * 1) + nh * (S v * 1)) 0);
      [lia | reflexivity].
Qed.

(** One round of the loop, from a state whose five lists exist. *)
Lemma ShareKey_init_body_run (v t l nh hd : nat) (g : globals A Model)
    (ks vbs tbs : list (tensor A)) (tbns vbns : list BatchNorm2d) :
  ShareKey g = {| num_heads := nh; head_dim := hd; key := Some ks;
                  vision_bias := Some vbs; text_bias := Some tbs;
                  text_bn := Some tbns; vision_bn := Some vbns |} ->
  ShareKey_init_body draw v t l g =
  if hd =? 0 then (Raise ZeroDivisionError, g)
  else if v =? 0 then
    (Raise ZeroDivisionError,
     set_ShareKey g
       {| num_heads := nh; head_dim := hd;
          key := Some (ks ++ [drawn draw (3 * l) [1; nh; hd; 1]]);
          vision_bias := Some vbs; text_bias := Some tbs;
          text_bn := Some tbns; vision_bn := Some vbns |})
  else if t =? 0 then
    (Raise ZeroDivisionError,
     set_ShareKey g
       {| num_heads := nh; head_dim := hd;
          key := Some (ks ++ [drawn draw (3 * l) [1; nh; hd; 1]]);
          vision_bias := Some (vbs ++ [drawn draw (3 * l + 1) [nh; v; v]]);
          text_bias := Some tbs;
          text_bn := Some tbns; vision_bn := Some vbns |})
  else
  (Ok tt, set_ShareKey g
     {| num_heads := nh; head_dim := hd;
        key := Some (ks ++ [drawn draw (3 * l) [1; nh; hd; 1]]);
        vision_bias := Some (vbs ++ [drawn draw (3 * l + 1) [nh; v; v]]);
        text_bias := Some (tbs ++ [drawn draw (3 * l + 2) [nh; t; t]]);
        text_bn := Some (tbns ++ [mkBatchNorm2d t]);
        vision_bn := Some (vbns ++ [mkBatchNorm2d v]) |}).
Proof.
  destruct g as [s a m e]. cbn [ShareKey]. intros ->.
  unfold ShareKey_init_body, assign_ShareKey, bind, getg, putg, lift.
  cbn [ShareKey num_heads head_dim key vision_bias text_bias text_bn vision_bn].
  rewrite xavier_key.
  destruct (hd =? 0); [reflexivity|].
  cbn [append_to set_ShareKey set_key ShareKey AttentionReg MODIFY embedding
       num_heads head_dim key vision_bias text_bias text_bn vision_bn].
  rewrite xavier_bias.
  destruct (v =? 0); [reflexivity|].
  cbn [append_to set_ShareKey set_vision_bias ShareKey AttentionReg MODIFY
       embedding num_heads head_dim key vision_bias text_bias text_bn
       vision_bn].
  rewrite xavier_bias.
  destruct (t =? 0); reflexivity.
Qed.

Lemma ShareKey_init_loop (v t nh hd n : nat) :
  hd <> 0 -> v <> 0 -> t <> 0 ->
  forall (a : nat) (g : globals A Model) ks vbs tbs tbns vbns,
  ShareKey g = {| num_heads := nh; head_dim := hd; key := Some ks;
                  vision_bias := Some vbs; text_bias := Some tbs;
                  text_bn := Some tbns; vision_bn := Some vbns |} ->
  for_range (ShareKey_init_body draw v t) (seq a n) g =
  (Ok tt, set_ShareKey g
     {| num_heads := nh; head_dim := hd;
        key := Some (ks ++ map (fun l => drawn draw (3 * l) [1; nh; hd; 1]) (seq a n));
        vision_bias :=
          Some (vbs ++ map (fun l => drawn draw (3 * l + 1) [nh; v; v]) (seq a n));
        text_bias :=
          Some (tbs ++ map (fun l => drawn draw (3 * l + 2) [nh; t; t]) (seq a n));
        text_bn := Some (tbns ++ map (fun _ => mkBatchNorm2d t) (seq a n));
        vision_bn := Some (vbns ++ map (fun _ => mkBatchNorm2d v) (seq a n)) |}).
Proof.
  intros Hhd Hv Ht.
  apply Nat.eqb_neq in Hhd. apply Nat.eqb_neq in Hv. apply Nat.eqb_neq in Ht.
  induction n as [|n IH]; intros a g ks vbs tbs tbns vbns Hg.
  - cbn [seq map for_range]. rewrite !app_nil_r. unfold ret.
    destruct g as [s a' m e]. cbn [ShareKey] in Hg. subst s. reflexivity.
  - cbn [seq map for_range]. unfold bind at 1.
    erewrite ShareKey_init_body_run by exact Hg.
    rewrite Hhd, Hv, Ht.
    erewrite IH by reflexivity.
    rewrite <- !app_assoc. reflexivity.
Qed.

Lemma ShareKey_init_outcome_cases (config : ShareKey_config) (v t n : nat)
    (g : globals A Model) :
  let nh := cfg_num_attention_heads config in
  let hd := cfg_hidden_size config / nh in
  ShareKey_init draw config v t n g =
  if nh =? 0 then
    (Raise ZeroDivisionError, set_ShareKey g (set_num_heads 0 (ShareKey g)))
  else if negb (hd * nh =? cfg_hidden_size config) then
    (Raise AssertionError,
     set_ShareKey g (set_head_dim hd (set_num_heads nh (ShareKey g))))
  else if n =? 0 then
    (Ok tt, set_ShareKey g (interrupted nh hd [] []))
  else if hd =? 0 then
    (Raise ZeroDivisionError, set_ShareKey g (interrupted nh hd [] []))
  else if v =? 0 then
    (Raise ZeroDivisionError,
     set_ShareKey g (interrupted nh hd [drawn draw 0 [1; nh; hd; 1]] []))
  else if t =? 0 then
    (Raise ZeroDivisionError,
     set_ShareKey g (interrupted nh hd [drawn draw 0 [1; nh; hd; 1]]
                                       [drawn draw 1 [nh; v; v]]))
  else
    (Ok tt, set_ShareKey g (initialised draw nh hd v t n)).
Proof.
  intros nh hd. unfold ShareKey_init.
  destruct g as [s a m e].
  unfold assign_ShareKey, bind, getg, putg, set_ShareKey, assert, ret, raise.
  cbn [ShareKey AttentionReg MODIFY embedding set_num_heads set_head_dim
       num_heads head_dim].
  fold nh.
  destruct (nh =? 0) eqn:Hnh.
  - apply Nat.eqb_eq in Hnh. rewrite Hnh. reflexivity.
  - cbn [ShareKey AttentionReg MODIFY embedding set_num_heads set_head_dim
         num_heads head_dim].
    fold nh. fold hd. clearbody hd nh.
    destruct (hd * nh =? cfg_hidden_size config) eqn:Hdiv; cbn [negb];
      [|reflexivity].
    cbn [set_key set_vision_bias set_text_bias set_text_bn set_vision_bn
         num_heads head_dim key vision_bias text_bias text_bn vision_bn].
    destruct n as [|n].
    + reflexivity.
    + cbn [Nat.eqb seq for_range]. unfold bind at 1.
      erewrite ShareKey_init_body_run by reflexivity.
      cbn [head_dim num_heads key vision_bias text_bias text_bn vision_bn
           set_key set_vision_bias set_text_bias set_text_bn set_vision_bn
           set_head_dim set_num_heads ShareKey AttentionReg MODIFY embedding
           set_ShareKey interrupted app Nat.mul Nat.add].
      destruct (Nat.eqb_spec hd 0) as [Hhd|Hhd]; [reflexivity|].
      destruct (Nat.eqb_spec v 0) as [Hv|Hv]; [reflexivity|].
      destruct (Nat.eqb_spec t 0) as [Ht|Ht]; [reflexivity|].
      erewrite (ShareKey_init_loop v t nh hd n Hhd Hv Ht) by reflexivity.
      reflexivity.
Qed.

(** [ShareKey.init()], case by case.  It raises [ZeroDivisionError] for a
    configuration without heads and [AssertionError] when the heads do not
    divide the hidden size, in both cases before the parameter lists are
    touched, [num_heads] (and, for the assertion, [head_dim]) being
    overwritten already.  With no layer it returns with five empty lists.
    With at least one layer [xavier_uniform_] raises [ZeroDivisionError] in
    the first round when [head_dim], [v_max_l] or [t_max_l] is 0, leaving
    the lists as far as the round has got: no entry, the first key, or the
    first key and the first vision bias.  Otherwise it returns with [layer]
    keys of shape [[1; nh; hd; 1]], vision biases of shape [[nh; v; v]],
    text biases of shape [[nh; t; t]] and batch norms for [t] and [v]
    features, each tensor filled by its own random series.  Nothing outside
    [ShareKey] changes in any case. *)
Theorem ShareKey_init_outcome (config : ShareKey_config) (v t n : nat)
    (g : globals A Model) :
  let nh := cfg_num_attention_heads config in
  let hd := cfg_hidden_size config / nh in
  ShareKey_init draw config v t n g =
  if nh =? 0 then
    (Raise ZeroDivisionError, set_ShareKey g (set_num_heads 0 (ShareKey g)))
  else if negb (hd * nh =? cfg_hidden_size config) then
    (Raise AssertionError,
     set_ShareKey g (set_head_dim hd (set_num_heads nh (ShareKey g))))
  else if n =? 0 then
    (Ok tt, set_ShareKey g (interrupted nh hd [] []))
  else if hd =? 0 then
    (Raise ZeroDivisionError, set_ShareKey g (interrupted nh hd [] []))
  else if v =? 0 then
    (Raise ZeroDivisionError,
     set_ShareKey g (interrupted nh hd [drawn draw 0 [1; nh; hd; 1]] []))
  else if t =? 0 then
    (Raise ZeroDivisionError,
     set_ShareKey g (interrupted nh hd [drawn draw 0 [1; nh; hd; 1]]
                                       [drawn draw 1 [nh; v; v]]))
  else
    (Ok tt, set_ShareKey g (initialised draw nh hd v t n)).
Proof. exact (ShareKey_init_outcome_cases config v t n g). Qed.

(** A returning [ShareKey.init] leaves the initialised attributes. *)
Lemma ShareKey_init_returns (config : ShareKey_config) (v t n : nat)
    (g g' : globals A Model) :
  ShareKey_init draw config v t n g = (Ok tt, g') ->
  cfg_num_attention_heads config <> 0 /\
  cfg_hidden_size config / cfg_num_attention_heads config
    * cfg_num_attention_heads config = cfg_hidden_size config /\
  ShareKey g'
  = initialised draw (cfg_num_attention_heads config)
      (cfg_hidden_size config / cfg_num_attention_heads config) v t n.
Proof.
  intros Hinit.
  pose proof (ShareKey_init_outcome_cases config v t n g) as Hout.
  cbv zeta in Hout. rewrite Hinit in Hout.
  destruct (Nat.eqb_spec (cfg_num_attention_heads config) 0) as [|Hnh];
    [discriminate|].
  destruct (Nat.eqb_spec
              (cfg_hidden_size config / cfg_num_attention_heads config
               * cfg_num_attention_heads config) (cfg_hidden_size config))
    as [Hdiv|]; cbn [negb] in Hout; [|discriminate].
  split; [exact Hnh|]. split; [exact Hdiv|].
  destruct n as [|n].
  - cbn [Nat.eqb] in Hout. inversion Hout. reflexivity.
  - cbn [Nat.eqb] in Hout.
    destruct (_ =? 0); [discriminate|].
    destruct (v =? 0); [discriminate|].
    destruct (t =? 0); [discriminate|].
    inversion Hout. reflexivity.
Qed.

End Init.

Section InitThenScores.

Context {A : Type} `{Scalar A}.
Variable Model : Type.
Variable draw : nat -> nat -> A.

Lemma py_index_map_seq {X} (f : nat -> X) (n l : nat) :
  l < n -> py_index (map f (seq 0 n)) (Z.of_nat l) = Ok (f l).
Proof.
  intros Hl. unfold py_index. rewrite length_map, length_seq.
  destruct (Z.ltb_spec (Z.of_nat l) 0); [lia|].
  destruct (Z.leb_spec 0 (Z.of_nat l)); [|lia].
  destruct (Z.ltb_spec (Z.of_nat l) (Z.of_nat n)); [|lia].
  cbn [andb]. rewrite Nat2Z.id.
  rewrite nth_error_map, nth_error_seq.
  destruct (Nat.ltb_spec l n); [|lia]. reflexivity.
Qed.

Lemma py_index_beyond {X} (xs : list X) (i : Z) :
  (Z.of_nat (length xs) <= i)%Z -> py_index xs i = Raise IndexError.
Proof.
  intros Hi. unfold py_index.
  destruct (Z.ltb_spec i 0); [lia|].
  destruct (Z.ltb_spec i (Z.of_nat (length xs))); [lia|].
  now rewrite andb_false_r.
Qed.

Lemma initialised_supports_cal_attention (nh hd v t n : nat) (q : tensor A)
    (modality : string) (bsz : nat) :
  0 < nh -> 0 < hd -> 0 < bsz ->
  in_strings modality ["text"; "vision"]%string = true ->
  shape q = [bsz * nh; max_l v t modality; hd] ->
  (forall l, l < n ->
   exists W,
     ShareKey_cal_attention (initialised draw nh hd v t n) q (Z.of_nat l)
       modality 3 = Ok W /\
     shape W = [bsz * nh; max_l v t modality; max_l v t modality] /\
     forall b h i j, b < bsz -> h < nh ->
       i < max_l v t modality -> j < max_l v t modality ->
       get W [b * nh + h; i; j]
       = sadd (dot hd (fun d => get q [b * nh + h; i; d])
                      (fun d => get (drawn draw (3 * l) [1; nh; hd; 1])
                                    [0; h; d; 0]))
              (get (drawn draw
                      (3 * l + (if String.eqb modality "vision" then 1 else 2))
                      [nh; max_l v t modality; max_l v t modality])
                   [h; i; j])) /\
  (forall layer, (Z.of_nat n <= layer)%Z ->
   ShareKey_cal_attention (initialised draw nh hd v t n) q layer modality 3
   = Raise IndexError).
Proof.
  intros Hnh Hhd Hbsz Hm Hq. split.
  - intros l Hl.
    set (cls := initialised draw nh hd v t n).
    apply (cal_attention_entries_3d cls q
             (drawn draw (3 * l) [1; nh; hd; 1])
             (drawn draw (3 * l + (if String.eqb modality "vision" then 1 else 2))
                    [nh; max_l v t modality; max_l v t modality])
             (Z.of_nat l) modality bsz (max_l v t modality));
      try assumption; try reflexivity.
    + cbn [cls initialised key py_index_opt].
      now rewrite py_index_map_seq.
    + unfold bias_of, max_l. cbn [cls initialised vision_bias text_bias py_index_opt].
      destruct (String.eqb modality "vision"); now rewrite py_index_map_seq.
    + unfold bn_of. cbn [cls initialised vision_bn text_bn py_index_opt].
      destruct (String.eqb modality "vision"); rewrite py_index_map_seq by assumption;
        eexists; reflexivity.
  - intros layer Hlayer.
    unfold ShareKey_cal_attention. rewrite Hm.
    change ((3 =? 4)%Z) with false. change ((3 =? 3)%Z) with true.
    cbn [rassert orb rbind].
    unfold shape_at at 1. rewrite Hq.
    change (py_index [bsz * nh; max_l v t modality; hd] 0) with (Ok (bsz * nh)).
    cbn [rbind initialised num_heads head_dim].
    destruct (Nat.eqb_spec nh 0) as [|_]; [lia|].
    rewrite Nat.Div0.mod_mul, Nat.div_mul by lia.
    cbn [Nat.eqb rassert rbind].
    unfold view. rewrite Hq.
    rewrite (infer_sizes_third _ bsz nh (max_l v t modality) hd) by (simpl; nia).
    cbn [rbind initialised vision_bias text_bias py_index_opt].
    destruct (String.eqb modality "vision");
      rewrite py_index_beyond by (now rewrite length_map, length_seq);
      reflexivity.
Qed.

(** After [ShareKey.init] has returned, [cal_attention] serves every layer
    below [layer] for queries of the modality's maximal length, with the
    layer's freshly drawn key and bias; any layer index from [layer] on
    raises [IndexError]. *)
Theorem init_then_cal_attention (config : ShareKey_config) (v t n : nat)
    (g g' : globals A Model) (q : tensor A) (modality : string) (bsz : nat) :
  let nh := cfg_num_attention_heads config in
  let hd := cfg_hidden_size config / nh in
  ShareKey_init draw config v t n g = (Ok tt, g') ->
  0 < cfg_hidden_size config -> 0 < bsz ->
  in_strings modality ["text"; "vision"]%string = true ->
  shape q = [bsz * nh; max_l v t modality; hd] ->
  (forall l, l < n ->
   exists W,
     ShareKey_cal_attention (ShareKey g') q (Z.of_nat l) modality 3 = Ok W /\
     shape W = [bsz * nh; max_l v t modality; max_l v t modality] /\
     forall b h i j, b < bsz -> h < nh ->
       i < max_l v t modality -> j < max_l v t modality ->
       get W [b * nh + h; i; j]
       = sadd (dot hd (fun d => get q [b * nh + h; i; d])
                      (fun d => get (drawn draw (3 * l) [1; nh; hd; 1])
                                    [0; h; d; 0]))
              (get (drawn draw
                      (3 * l + (if String.eqb modality "vision" then 1 else 2))
                      [nh; max_l v t modality; max_l v t modality])
                   [h; i; j])) /\
  (forall layer, (Z.of_nat n <= layer)%Z ->
   ShareKey_cal_attention (ShareKey g') q layer modality 3 = Raise IndexError).
Proof.
  intros nh hd Hinit Hhid Hbsz Hm Hq.
  destruct (ShareKey_init_returns Model draw config v t n g g' Hinit)
    as (Hnh & Hdiv & ->).
  fold nh in Hnh, Hdiv |- *. fold hd in Hdiv |- *.
  apply initialised_supports_cal_attention; try assumption; try lia.
Qed.

End InitThenScores.

(** ** [AttentionReg.update_old_key_and_bias] *)

Section Snapshot.

Context {A : Type} `{Scalar A}.
Variable Model : Type.

Lemma detach_clone_same (t : tensor A) : detach_clone t = t.
Proof. now destruct t. Qed.

Lemma firstn_snoc {X} (xs : list X) (a : nat) (x : X) :
  nth_error xs a = Some x -> firstn a xs ++ [x] = firstn (S a) xs.
Proof.
  revert a. induction xs as [|y xs IH]; intros [|a] Hx; try discriminate.
  - cbn in Hx. inversion Hx. reflexivity.
  - cbn in Hx. cbn [firstn app]. f_equal. now apply IH.
Qed.

Lemma py_index_nth {X} (xs : list X) (i : nat) (x : X) :
  nth_error xs i = Some x -> py_index xs (Z.of_nat i) = Ok x.
Proof.
  intros Hx. unfold py_index.
  assert (i < length xs) by (apply nth_error_Some; congruence).
  destruct (Z.ltb_spec (Z.of_nat i) 0); [lia|].
  destruct (Z.leb_spec 0 (Z.of_nat i)); [|lia].
  destruct (Z.ltb_spec (Z.of_nat i) (Z.of_nat (length xs))); [|lia].
  cbn [andb]. now rewrite Nat2Z.id, Hx.
Qed.

(** The state in which the three saved lists hold the first [n] parameters
    of each kind. *)
Lemma update_old_loop (ks tbs vbs : list (tensor A)) (n : nat) :
  length tbs = length ks -> length vbs = length ks ->
  forall (a : nat) (g : globals A Model),
  key (ShareKey g) = Some ks -> text_bias (ShareKey g) = Some tbs ->
  vision_bias (ShareKey g) = Some vbs ->
  old_key (AttentionReg g) = Some (firstn a ks) ->
  old_text_bias (AttentionReg g) = Some (firstn a tbs) ->
  old_vision_bias (AttentionReg g) = Some (firstn a vbs) ->
  a <= length ks ->
  for_range (@update_old_body A Model) (seq a n) g =
  (if a + n <=? length ks then Ok tt else Raise IndexError,
   set_AttentionReg g
     (set_old_vision_bias (Some (firstn (a + n) vbs))
       (set_old_text_bias (Some (firstn (a + n) tbs))
         (set_old_key (Some (firstn (a + n) ks)) (AttentionReg g))))).
Proof.
  intros Ht Hv. induction n as [|n IH]; intros a g Hk Htb Hvb Hok Hotb Hovb Ha.
  - cbn [seq for_range]. rewrite Nat.add_0_r.
    destruct (Nat.leb_spec a (length ks)); [|lia].
    destruct g as [s [om ok otb ovb atl avl z] m e].
    cbn in Hok, Hotb, Hovb. subst. reflexivity.
  - cbn [seq for_range]. unfold bind at 1.
    destruct (Nat.eq_dec a (length ks)) as [Heq|Hne].
    + (* the lists are exhausted: the first lookup raises *)
      unfold update_old_body. unfold bind at 1. cbn [getg].
      unfold bind at 1. rewrite Hk. cbn [py_index_opt].
      rewrite py_index_beyond by lia. cbn [lift].
      destruct (Nat.leb_spec (a + S n) (length ks)); [lia|].
      rewrite !firstn_all2 by lia.
      rewrite !firstn_all2 in Hok, Hotb, Hovb by lia.
      destruct g as [s [om ok otb ovb atl avl z] m e].
      cbn in Hok, Hotb, Hovb. subst. reflexivity.
    + assert (Hlt : a < length ks) by lia.
      destruct (nth_error ks a) as [k|] eqn:Hka;
        [|apply nth_error_None in Hka; lia].
      destruct (nth_error tbs a) as [tb|] eqn:Htba;
        [|apply nth_error_None in Htba; lia].
      destruct (nth_error vbs a) as [vb|] eqn:Hvba;
        [|apply nth_error_None in Hvba; lia].
      assert (Hbody : update_old_body a g =
        (Ok tt, set_AttentionReg g
          (set_old_vision_bias (Some (firstn (S a) vbs))
            (set_old_text_bias (Some (firstn (S a) tbs))
              (set_old_key (Some (firstn (S a) ks)) (AttentionReg g)))))).
      { destruct g as [s [om ok otb ovb atl avl z] m e].
        cbn in Hk, Htb, Hvb, Hok, Hotb, Hovb. subst.
        unfold update_old_body, assign_AttentionReg, bind, getg, putg, lift.
        cbn [ShareKey AttentionReg MODIFY embedding set_AttentionReg
             set_old_key set_old_text_bias set_old_vision_bias
             old_key old_text_bias old_vision_bias old_model
             attention_text_list attention_vision_list zero].
        rewrite Hk, Htb, Hvb. cbn [py_index_opt].
        rewrite (py_index_nth _ _ _ Hka), (py_index_nth _ _ _ Htba),
          (py_index_nth _ _ _ Hvba).
        cbn [append_to]. rewrite !detach_clone_same.
        rewrite (firstn_snoc _ _ _ Hka), (firstn_snoc _ _ _ Htba),
          (firstn_snoc _ _ _ Hvba).
        reflexivity. }
      rewrite Hbody.
      rewrite (IH (S a)); try reflexivity; try assumption; try lia.
      replace (S a + n) with (a + S n) by lia.
      destruct g as [s [om ok otb ovb atl avl z] m e]. reflexivity.
Qed.

Lemma update_old_key_and_bias_run (layer : nat) (g : globals A Model)
    (ks tbs vbs : list (tensor A)) :
  key (ShareKey g) = Some ks -> text_bias (ShareKey g) = Some tbs ->
  vision_bias (ShareKey g) = Some vbs ->
  length tbs = length ks -> length vbs = length ks ->
  AttentionReg_update_old_key_and_bias layer g =
  (if layer <=? length ks then Ok tt else Raise IndexError,
   set_AttentionReg g
     (set_old_vision_bias (Some (firstn layer vbs))
       (set_old_text_bias (Some (firstn layer tbs))
         (set_old_key (Some (firstn layer ks)) (AttentionReg g))))).
Proof.
  intros Hk Htb Hvb Ht Hv.
  unfold AttentionReg_update_old_key_and_bias.
  unfold assign_AttentionReg, bind at 1 2 3 4 5 6, getg, putg.
  erewrite (update_old_loop ks tbs vbs layer Ht Hv 0);
    try reflexivity; try assumption; try lia.
Qed.

(** With [ShareKey]'s three parameter lists of one common length,
    [update_old_key_and_bias] leaves in [old_key], [old_text_bias] and
    [old_vision_bias] the first [layer] parameters of each kind and changes
    nothing else; it returns when [layer] is at most that length and raises
    [IndexError] otherwise, the saved lists then holding every parameter. *)
Theorem update_old_key_and_bias_outcome (layer : nat) (g : globals A Model)
    (ks tbs vbs : list (tensor A)) :
  key (ShareKey g) = Some ks -> text_bias (ShareKey g) = Some tbs ->
  vision_bias (ShareKey g) = Some vbs ->
  length tbs = length ks -> length vbs = length ks ->
  let r := AttentionReg_update_old_key_and_bias layer g in
  fst r = (if layer <=? length ks then Ok tt else Raise IndexError) /\
  old_key (AttentionReg (snd r)) = Some (firstn layer ks) /\
  old_text_bias (AttentionReg (snd r)) = Some (firstn layer tbs) /\
  old_vision_bias (AttentionReg (snd r)) = Some (firstn layer vbs) /\
  ShareKey (snd r) = ShareKey g /\
  old_model (AttentionReg (snd r)) = old_model (AttentionReg g) /\
  attention_text_list (AttentionReg (snd r))
    = attention_text_list (AttentionReg g) /\
  attention_vision_list (AttentionReg (snd r))
    = attention_vision_list (AttentionReg g) /\
  zero (AttentionReg (snd r)) = zero (AttentionReg g) /\
  MODIFY (snd r) = MODIFY g /\ embedding (snd r) = embedding g.
Proof.
  intros Hk Htb Hvb Ht Hv r. subst r.
  rewrite (update_old_key_and_bias_run layer g ks tbs vbs Hk Htb Hvb Ht Hv).
  destruct g as [s [om ok otb ovb atl avl z] m e].
  cbn. repeat split; reflexivity.
Qed.

(** Snapshot, then exchange: when [layer] is the number of parameters,
    [change_ShareKey] right after [update_old_key_and_bias] returns and
    leaves [ShareKey] as it was, so the old-parameter pass scores with the
    current parameters.  With a smaller [layer] the exchange shortens
    [ShareKey.key] to [layer] entries. *)
Theorem snapshot_then_change_ShareKey (layer : nat) (g : globals A Model)
    (ks tbs vbs : list (tensor A)) :
  key (ShareKey g) = Some ks -> text_bias (ShareKey g) = Some tbs ->
  vision_bias (ShareKey g) = Some vbs ->
  length tbs = length ks -> length vbs = length ks ->
  layer <= length ks ->
  exists g',
    bind (AttentionReg_update_old_key_and_bias layer)
         (fun _ => @AttentionReg_change_ShareKey A Model) g = (Ok tt, g') /\
    key (ShareKey g') = Some (firstn layer ks) /\
    text_bias (ShareKey g') = Some (firstn layer tbs) /\
    vision_bias (ShareKey g') = Some (firstn layer vbs) /\
    old_key (AttentionReg g') = Some ks /\
    old_text_bias (AttentionReg g') = Some tbs /\
    old_vision_bias (AttentionReg g') = Some vbs /\
    (layer = length ks -> ShareKey g' = ShareKey g).
Proof.
  intros Hk Htb Hvb Ht Hv Hl.
  unfold bind.
  rewrite (update_old_key_and_bias_run layer g ks tbs vbs Hk Htb Hvb Ht Hv).
  destruct (Nat.leb_spec layer (length ks)); [|lia].
  destruct g as [[nh hd k vb tb tbn vbn] [om ok otb ovb atl avl z] m e].
  cbn in Hk, Htb, Hvb. subst.
  unfold AttentionReg_change_ShareKey, bind, getg, putg. cbn.
  eexists. split; [reflexivity|].
  cbn. repeat split; try reflexivity.
  intros ->. rewrite !firstn_all2 by lia. reflexivity.
Qed.

(** Before [ShareKey.init] has run ([ShareKey.key] is [None]) a snapshot of
    at least one layer raises [TypeError], and the earlier snapshot is gone:
    the three saved lists are empty. *)
Theorem update_old_key_and_bias_before_init (layer : nat)
    (g : globals A Model) :
  key (ShareKey g) = None -> 0 < layer ->
  let r := AttentionReg_update_old_key_and_bias layer g in
  fst r = Raise TypeError /\
  old_key (AttentionReg (snd r)) = Some [] /\
  old_text_bias (AttentionReg (snd r)) = Some [] /\
  old_vision_bias (AttentionReg (snd r)) = Some [] /\
  ShareKey (snd r) = ShareKey g.
Proof.
  intros Hk Hl. destruct layer as [|layer]; [lia|].
  destruct g as [[nh hd k vb tb tbn vbn] [om ok otb ovb atl avl z] m e].
  cbn in Hk. subst. cbn. repeat split; reflexivity.
Qed.

End Snapshot.

(** ** The attention lists under every outcome *)

Section GrowthFacts.

Context {A : Type} {Model : Type}.

Lemma grows_refl (nv nt : nat) (g : globals A Model) : grows nv nt g g.
Proof.
  exists [], []. split; [apply appended_refl|]. cbn. split; lia.
Qed.

Lemma grows_trans (a b a' b' : nat) (g g1 g2 : globals A Model) :
  grows a b g g1 -> grows a' b' g1 g2 -> grows (a + a') (b + b') g g2.
Proof.
  intros (vs & ts & Happ & Hv & Ht) (vs' & ts' & Happ' & Hv' & Ht').
  exists (vs ++ vs'), (ts ++ ts'). split.
  - eapply appended_trans; eassumption.
  - rewrite !length_app. lia.
Qed.

Lemma within_free {X} (nv nt : nat) (c : M A Model X) :
  state_free c -> within nv nt c.
Proof. intros [r Hr] g. rewrite Hr. apply grows_refl. Qed.

Lemma within_bind_free {X Y} (nv nt : nat) (c : M A Model X)
    (k : X -> M A Model Y) :
  state_free c -> (forall x, within nv nt (k x)) -> within nv nt (bind c k).
Proof.
  intros [r Hr] Hk g. unfold bind. rewrite Hr.
  destruct r as [x|e]; [apply Hk | apply grows_refl].
Qed.

Lemma within_then_free {X Y} (nv nt : nat) (c : M A Model X)
    (k : X -> M A Model Y) :
  within nv nt c -> (forall x, state_free (k x)) -> within nv nt (bind c k).
Proof.
  intros Hc Hk g. unfold bind. specialize (Hc g).
  destruct (c g) as [[x|e] g1]; cbn [snd] in *; [|exact Hc].
  destruct (Hk x) as [r Hr]. now rewrite Hr.
Qed.

Lemma within_bind {X Y} (a b a' b' : nat) (c : M A Model X)
    (k : X -> M A Model Y) :
  within a b c -> (forall x, within a' b' (k x)) ->
  within (a + a') (b + b') (bind c k).
Proof.
  intros Hc Hk g. unfold bind. specialize (Hc g).
  destruct (c g) as [[x|e] g1]; cbn [snd] in *.
  - eapply grows_trans; [exact Hc | apply Hk].
  - destruct Hc as (vs & ts & Happ & Hv & Ht).
    exists vs, ts. split; [exact Happ | lia].
Qed.

Lemma within_getg {Y} (nv nt : nat) (k : globals A Model -> M A Model Y) :
  (forall g, within nv nt (k g)) -> within nv nt (bind (@getg A Model) k).
Proof. intros Hk g. unfold bind, getg. apply Hk. Qed.

Lemma within_append_vision (w : tensor A) :
  within 1 0 (append_attention_vision (Model:=Model) w).
Proof.
  intros g. exists [w], []. split; [apply appended_vision|]. cbn. split; lia.
Qed.

Lemma within_append_text (w : tensor A) :
  within 0 1 (append_attention_text (Model:=Model) w).
Proof.
  intros g. exists [], [w]. split; [apply appended_text|]. cbn. split; lia.
Qed.

End GrowthFacts.

(** Split a goal [within nv nt c] whose stateful step comes last among
    state-free ones. *)
Ltac within_steps :=
  repeat first
    [ apply within_bind_free; [solve [free] | intros ?]
    | match goal with
      | |- within _ _ (let '(_, _) := ?x in _) => destruct x
      end ].

Section LayerGrowth.

Context {A : Type} `{Scalar A} {Model : Type}.

Variable softmax : tensor A -> Z -> result (tensor A).
Variable F_dropout : tensor A -> A -> bool -> result (tensor A).
Variable apply_chunking_to_forward :
  (tensor A -> option (tensor A) -> result (tensor A)) ->
  nat -> nat -> tensor A -> option (tensor A) -> result (tensor A).

Lemma CLIPAttention_scores_within (ca : CLIPAttention A) (layer : Z)
    (hs q : tensor A) (bsz : nat) (ps : list Z) :
  within (shares layer) 0
    (CLIPAttention_scores (Model:=Model) ca layer hs q bsz ps).
Proof.
  unfold CLIPAttention_scores, shares.
  destruct (Z.ltb_spec layer START_SHARE_LAYER) as [Hl|Hl].
  - apply within_free. free.
  - destruct (Z.leb_spec START_SHARE_LAYER layer); [|lia].
    apply within_getg. intros g.
    apply within_bind_free; [free|]. intros w.
    apply within_then_free; [apply within_append_vision|]. intros _. free.
Qed.

Lemma CLIPAttention_forward_within (ca : CLIPAttention A) (layer : Z)
    (hs : tensor A) (oa : bool) :
  within (shares layer) 0
    (CLIPAttention_forward (Model:=Model) softmax F_dropout ca layer hs oa).
Proof.
  unfold CLIPAttention_forward. within_steps.
  apply within_then_free; [apply CLIPAttention_scores_within|].
  intros w. free.
Qed.

Lemma CLIPEncoderLayer_forward_within (self : CLIPEncoderLayer A) (layer : Z)
    (hs : tensor A) (oa : bool) :
  within (shares layer) 0
    (CLIPEncoderLayer_forward (Model:=Model) softmax F_dropout self layer hs oa).
Proof.
  unfold CLIPEncoderLayer_forward. within_steps.
  apply within_then_free; [apply CLIPAttention_forward_within|].
  intros r. free.
Qed.

Lemma BertSelfAttention_scores_free (bsa : BertSelfAttention A) (layer : Z)
    (hs q : tensor A) :
  within 0 0 (BertSelfAttention_scores (Model:=Model) bsa layer hs q).
Proof.
  unfold BertSelfAttention_scores.
  destruct (layer <? START_SHARE_LAYER)%Z.
  - apply within_free. free.
  - apply within_getg. intros g. apply within_free. free.
Qed.

Lemma BertSelfAttention_forward_within (bsa : BertSelfAttention A) (layer : Z)
    (hs : tensor A) (mask hm : option (tensor A)) (oa : bool) :
  within 0 (shares layer)
    (BertSelfAttention_forward (Model:=Model) softmax bsa layer hs mask hm oa).
Proof.
  unfold BertSelfAttention_forward. within_steps.
  apply (within_bind 0 0 0 (shares layer));
    [apply BertSelfAttention_scores_free|]. intros raw.
  apply within_bind_free; [destruct mask; free|]. intros scores.
  apply within_then_free; [|intros; destruct hm; free].
  unfold shares. destruct (START_SHARE_LAYER <=? layer)%Z.
  - apply within_getg. intros g0. destruct (MODIFY g0).
    + apply within_bind_free; [free|]. intros w. apply within_append_text.
    + apply within_append_text.
  - apply within_free. free.
Qed.

Lemma BertLayer_forward_within (self : BertLayer A) (layer : Z)
    (hs : tensor A) (mask hm : option (tensor A)) (oa oq : bool) :
  within 0 (shares layer)
    (BertLayer_forward (Model:=Model) softmax apply_chunking_to_forward self
       layer hs mask hm oa oq).
Proof.
  unfold BertLayer_forward, BertAttention_forward.
  apply within_then_free; [|intros [[so fo] qks]; free].
  apply within_then_free; [|intros [[so fo] qks]; free].
  apply BertSelfAttention_forward_within.
Qed.

End LayerGrowth.

Section EncoderGrowth.

Context {A : Type} `{Scalar A} {Model : Type}.

Variable softmax : tensor A -> Z -> result (tensor A).
Variable F_dropout : tensor A -> A -> bool -> result (tensor A).
Variable apply_chunking_to_forward :
  (tensor A -> option (tensor A) -> result (tensor A)) ->
  nat -> nat -> tensor A -> option (tensor A) -> result (tensor A).

Variable self : UnimoEncoder A.
Variable attention_mask : option (tensor A).
Variable head_mask : option (list (option (tensor A))).
Variable output_attentions output_hidden_states : bool.

Local Abbreviation body :=
  (encoder_body (Model:=Model) softmax F_dropout apply_chunking_to_forward self
     attention_mask head_mask output_attentions output_hidden_states).

Lemma bind_free_inv {X Y} (c : M A Model X) (k : X -> M A Model Y)
    (g : globals A Model) :
  state_free c ->
  (exists e, bind c k g = (Raise e, g)) \/ (exists x, bind c k g = k x g).
Proof.
  intros [r Hr]. unfold bind. rewrite Hr. destruct r as [x|e].
  - right. now exists x.
  - left. now exists e.
Qed.

Lemma bind_cases {X Y} (c : M A Model X) (k : X -> M A Model Y)
    (g : globals A Model) (P : result Y * globals A Model -> Prop) :
  (forall e g1, c g = (Raise e, g1) -> P (Raise e, g1)) ->
  (forall x g1, c g = (Ok x, g1) -> P (k x g1)) ->
  P (bind c k g).
Proof.
  intros Hr Ho. unfold bind. destruct (c g) as [[x|e] g1]; auto.
Qed.

(** One iteration, whatever its outcome: the vision entry of the layer
    comes first, the text entry only after it, and a returning iteration of
    a sharing layer has appended both. *)
Lemma encoder_body_growth (idx : nat) (v : loop_vars A) (g : globals A Model) :
  exists vs ts,
    appended g (snd (body idx v g)) vs ts /\
    length ts <= length vs /\ length vs <= shares (Z.of_nat idx) /\
    (forall v1, fst (body idx v g) = Ok v1 ->
       length ts = shares (Z.of_nat idx)).
Proof.
  assert (Hany : exists vs ts,
            appended g (snd (body idx v g)) vs ts /\
            length ts <= length vs /\ length vs <= shares (Z.of_nat idx)).
  { unfold encoder_body.
    match goal with
    | |- context [snd (bind ?c ?k g)] =>
        destruct (@bind_free_inv _ _ c k g) as [[e He] | [[avh ath] Hx]];
          [destruct output_hidden_states; free | rewrite He | rewrite Hx]
    end.
    { exists [], []. split; [apply appended_refl | cbn; lia]. }
    match goal with
    | |- context [snd (bind ?c ?k g)] =>
        destruct (@bind_free_inv _ _ c k g) as [[e He] | [vl Hx']];
          [free | rewrite He | rewrite Hx']
    end.
    { exists [], []. split; [apply appended_refl | cbn; lia]. }
    unfold bind at 1.
    pose proof (CLIPEncoderLayer_forward_within softmax F_dropout vl
                  (Z.of_nat idx) (vision_hidden_states v) output_attentions g)
      as Hv.
    destruct (CLIPEncoderLayer_forward softmax F_dropout vl (Z.of_nat idx)
                (vision_hidden_states v) output_attentions g)
      as [[vout|e] g1] eqn:Hvf; cbn [snd] in Hv.
    2:{ destruct Hv as (vs & ts & Happ & Hlv & Hlt).
        exists vs, ts. split; [exact Happ | lia]. }
    clear Hv. apply CLIPEncoderLayer_forward_effect in Hvf.
    destruct Hvf as [_ Hvf].
    match goal with
    | |- context [snd (?k g1)] =>
        assert (Ht : grows 0 (shares (Z.of_nat idx)) g1 (snd (k g1)))
    end.
    { revert g1 Hvf. intros g1 _. revert g1.
      within_steps.
      apply within_then_free;
        [apply BertLayer_forward_within
        |intros out; destruct output_attentions; free]. }
    destruct Ht as (vs' & ts' & Happ' & Hlv' & Hlt').
    destruct Hvf as [[Hl ->] | (Hl & wv & Hwv & ->)].
    - exists vs', ts'. split; [exact Happ'|].
      unfold shares in *.
      destruct (Z.leb_spec START_SHARE_LAYER (Z.of_nat idx)); lia.
    - exists ([wv] ++ vs'), ([] ++ ts'). split.
      + eapply appended_trans; [apply appended_vision | exact Happ'].
      + rewrite !length_app. cbn [length]. unfold shares in *.
        destruct (Z.leb_spec START_SHARE_LAYER (Z.of_nat idx)); lia. }
  destruct (body idx v g) as [[v1|e] g2] eqn:Hb; cbn [fst snd] in *.
  2:{ destruct Hany as (vs & ts & Happ & H1 & H2).
      exists vs, ts. split; [exact Happ|]. split; [exact H1|].
      split; [exact H2|]. intros v1 Hv1. discriminate. }
  clear Hany. apply encoder_body_inv in Hb.
  destruct Hb as (vl & vout & g1 & tl & lhm & tout & Hvl & Hv & Hvo & Htl &
                  Hlhm & Ht & Hto).
  apply CLIPEncoderLayer_forward_effect in Hv. destruct Hv as [_ Hv].
  apply BertLayer_forward_effect in Ht. destruct Ht as [_ Ht].
  unfold shares.
  destruct Hv as [[Hl ->] | (Hl & wv & Hwv & ->)];
    destruct Ht as [[Hl' ->] | (Hl' & wt & Hwt & ->)]; try lia.
  - destruct (Z.leb_spec START_SHARE_LAYER (Z.of_nat idx)); [lia|].
    exists [], []. split; [apply appended_refl|]. cbn.
    split; [lia|]. split; [lia|]. intros; lia.
  - destruct (Z.leb_spec START_SHARE_LAYER (Z.of_nat idx)); [|lia].
    exists ([wv] ++ []), ([] ++ [wt]). split.
    + eapply appended_trans; [apply appended_vision | apply appended_text].
    + cbn. split; [lia|]. split; [lia|]. intros; lia.
Qed.

Lemma shared_layers_cons (idx : nat) (rest : list nat) :
  length (shared_layers (idx :: rest))
  = shares (Z.of_nat idx) + length (shared_layers rest).
Proof.
  unfold shares, shared_layers. cbn [filter].
  now destruct (START_SHARE_LAYER <=? Z.of_nat idx)%Z.
Qed.

Lemma for_each_growth (k : nat) :
  forall (start : nat) (v : loop_vars A) (g : globals A Model),
  exists vs ts,
    appended g (snd (for_each body (seq start k) v g)) vs ts /\
    length ts <= length vs /\ length vs <= length ts + 1 /\
    length vs <= length (shared_layers (seq start k)) /\
    (forall v', fst (for_each body (seq start k) v g) = Ok v' ->
       length ts = length (shared_layers (seq start k))).
Proof.
  induction k as [|k IH]; intros start v g.
  - exists [], []. cbn. split; [apply appended_refl|].
    split; [lia|]. split; [lia|]. split; [lia|]. intros; lia.
  - cbn [seq for_each]. rewrite shared_layers_cons.
    assert (Hle : shares (Z.of_nat start) <= 1)
      by (unfold shares; destruct (START_SHARE_LAYER <=? Z.of_nat start)%Z; lia).
    destruct (encoder_body_growth start v g) as (vs & ts & Happ & H1 & H2 & H3).
    unfold bind.
    destruct (body start v g) as [[v1|e] g1]; cbn [fst snd] in *.
    + specialize (H3 v1 eq_refl).
      destruct (IH (S start) v1 g1) as (vs' & ts' & Happ' & I1 & I2 & I3 & I4).
      exists (vs ++ vs'), (ts ++ ts'). split.
      * eapply appended_trans; eassumption.
      * rewrite !length_app.
        split; [lia|]. split; [lia|]. split; [lia|].
        intros v' Hv'. specialize (I4 v' Hv'). lia.
    + exists vs, ts. split; [exact Happ|].
      split; [lia|]. split; [lia|]. split; [lia|].
      intros v' Hv'. discriminate.
Qed.

(** Whatever the outcome of [UnimoEncoder.forward], a raised exception
    included, the class state afterwards is the state before with tensors
    appended to the two attention lists and nothing else changed; the text
    list never receives more entries than the vision list and at most one
    fewer, and neither receives more than there are sharing layers.  A
    returning pass has appended equally many to both. *)
Theorem encoder_lists_stay_in_step (vision_embeds text_embeds : tensor A)
    (return_dict : bool) (g : globals A Model) :
  let r := UnimoEncoder_forward softmax F_dropout apply_chunking_to_forward
             self vision_embeds text_embeds attention_mask head_mask
             output_attentions output_hidden_states return_dict g in
  exists vs ts,
    appended g (snd r) vs ts /\
    length ts <= length vs /\ length vs <= length ts + 1 /\
    length vs <= vision_num_hidden_layers self - Z.to_nat START_SHARE_LAYER /\
    (forall out, fst r = Ok out -> length ts = length vs).
Proof.
  cbv zeta. unfold UnimoEncoder_forward.
  match goal with
  | |- context [bind ?c ?k g] => pattern (bind c k g); apply bind_cases
  end.
  { intros e g1 Has. unfold assert in Has.
    destruct (_ =? _); inversion Has; subst.
    exists [], []. cbn. split; [apply appended_refl|].
    split; [lia|]. split; [lia|]. split; [lia|]. intros; lia. }
  intros [] g0 Has.
  assert (g0 = g) by (unfold assert in Has; destruct (_ =? _); now inversion Has).
  subst g0. clear Has.
  match goal with
  | |- context [bind (for_each _ _ ?v0) _] =>
      destruct (for_each_growth (vision_num_hidden_layers self) 0 v0 g)
        as (vs & ts & Happ & H1 & H2 & H3 & H4)
  end.
  rewrite shared_layers_seq, length_seq in H3, H4.
  match goal with
  | |- context [bind ?c ?k g] => pattern (bind c k g); apply bind_cases
  end.
  - intros e g1 Hloop. rewrite Hloop in Happ. cbn [snd] in Happ.
    exists vs, ts. split; [exact Happ|].
    split; [lia|]. split; [lia|]. split; [lia|]. intros out Hout.
    discriminate.
  - intros v' g1 Hloop. rewrite Hloop in Happ, H4. cbn [fst snd] in Happ, H4.
    specialize (H4 v' eq_refl).
    match goal with
    | |- context [snd (?c g1)] =>
        assert (Hfree : state_free c)
          by (destruct output_hidden_states, return_dict; free)
    end.
    destruct Hfree as [r Hr]. rewrite Hr. cbn [fst snd].
    exists vs, ts. split; [exact Happ|].
    split; [lia|]. split; [lia|]. split; [lia|]. intros; lia.
Qed.

(** [UnimoEncoder.forward] with [return_dict=True] never returns: where the
    call with [return_dict=False] returns, it raises [AssertionError], after
    the whole pass and with the same entries appended. *)
Theorem encoder_return_dict_never_returns (vision_embeds text_embeds : tensor A)
    (g : globals A Model) :
  (forall out g',
     UnimoEncoder_forward softmax F_dropout apply_chunking_to_forward
       self vision_embeds text_embeds attention_mask head_mask
       output_attentions output_hidden_states true g <> (Ok out, g')) /\
  (forall out g',
     UnimoEncoder_forward softmax F_dropout apply_chunking_to_forward
       self vision_embeds text_embeds attention_mask head_mask
       output_attentions output_hidden_states false g = (Ok out, g') ->
     UnimoEncoder_forward softmax F_dropout apply_chunking_to_forward
       self vision_embeds text_embeds attention_mask head_mask
       output_attentions output_hidden_states true g
     = (Raise AssertionError, g')) /\
  (forall e g',
     UnimoEncoder_forward softmax F_dropout apply_chunking_to_forward
       self vision_embeds text_embeds attention_mask head_mask
       output_attentions output_hidden_states false g = (Raise e, g') ->
     UnimoEncoder_forward softmax F_dropout apply_chunking_to_forward
       self vision_embeds text_embeds attention_mask head_mask
       output_attentions output_hidden_states true g = (Raise e, g')).
Proof.
  split; [|split].
  - intros out g' Hf. apply UnimoEncoder_forward_inv in Hf.
    destruct Hf as (_ & Hrd & _). discriminate.
  - intros out g'. unfold UnimoEncoder_forward, bind.
    destruct (assert _ g) as [[[]|e] g0]; [|discriminate].
    destruct (for_each _ _ _ g0) as [[v|e] g1]; [|discriminate].
    match goal with
    | |- context [(if output_hidden_states then ?a else ?b) g1] =>
        destruct ((if output_hidden_states then a else b) g1)
          as [[[x y]|e] g2]; [|discriminate]
    end.
    cbn [negb]. unfold ret, raise. intros Hf. now inversion Hf.
  - intros e g'. unfold UnimoEncoder_forward, bind.
    destruct (assert _ g) as [[[]|e0] g0]; [|trivial].
    destruct (for_each _ _ _ g0) as [[v|e0] g1]; [|trivial].
    match goal with
    | |- context [(if output_hidden_states then ?a else ?b) g1] =>
        destruct ((if output_hidden_states then a else b) g1)
          as [[[x y]|e0] g2]; [|trivial]
    end.
    cbn [negb]. unfold ret. discriminate.
Qed.

End EncoderGrowth.

(** ** The tuple [UnimoEncoder.forward] returns *)

Section EncoderOutputs.

Context {A : Type} `{Scalar A} {Model : Type}.

Variable softmax : tensor A -> Z -> result (tensor A).
Variable F_dropout : tensor A -> A -> bool -> result (tensor A).
Variable apply_chunking_to_forward :
  (tensor A -> option (tensor A) -> result (tensor A)) ->
  nat -> nat -> tensor A -> option (tensor A) -> result (tensor A).

Lemma BertLayer_forward_outputs (self : BertLayer A) (layer : Z)
    (hs : tensor A) (mask hm : option (tensor A)) (oa : bool)
    (g g' : globals A Model) (out : tuple A) :
  BertLayer_forward softmax apply_chunking_to_forward self layer hs mask hm
    oa false g = (Ok out, g') ->
  exists lo, if oa then exists probs, out = [Some lo; Some probs]
             else out = [Some lo].
Proof.
  unfold BertLayer_forward, BertAttention_forward, BertSelfAttention_forward.
  intros Hf.
  apply bind_ok_inv in Hf. destruct Hf as ([[sao fo] qks] & g1 & Ha & Hf).
  apply bind_ok_inv in Ha. destruct Ha as ([[so fo'] qks'] & g2 & Hs & Ha).
  assert (Hso : exists ctx, if oa then exists probs, so = [Some ctx; Some probs]
                            else so = [Some ctx]).
  { clear Ha Hf.
    repeat (apply bind_ok_inv in Hs; destruct Hs as (? & ? & _ & Hs)).
    apply ret_ok_inv in Hs. destruct Hs as [Hs _]. inversion Hs; subst.
    eexists. destruct oa; [eexists|]; reflexivity. }
  clear Hs. destruct Hso as (ctx & Hso).
  apply bind_ok_inv in Ha. destruct Ha as (ao & g3 & _ & Ha).
  apply ret_ok_inv in Ha. destruct Ha as [Ha _]. inversion Ha; subst; clear Ha.
  apply bind_ok_inv in Hf. destruct Hf as (ao' & g4 & _ & Hf).
  apply bind_ok_inv in Hf. destruct Hf as (lo & g5 & _ & Hf).
  apply ret_ok_inv in Hf. destruct Hf as [-> _].
  exists lo. destruct oa.
  - destruct Hso as (probs & ->). now exists probs.
  - now rewrite Hso.
Qed.

Variable self : UnimoEncoder A.
Variable attention_mask : option (tensor A).
Variable head_mask : option (list (option (tensor A))).
Variable output_attentions output_hidden_states : bool.

Local Abbreviation body :=
  (encoder_body (Model:=Model) softmax F_dropout apply_chunking_to_forward self
     attention_mask head_mask output_attentions output_hidden_states).

Lemma tuple_add_inv (t t' : option (tuple A)) (x : option (tensor A)) :
  tuple_add t x = Ok t' -> exists l, t = Some l /\ t' = Some (l ++ [x]).
Proof.
  destruct t as [l|]; cbn; intros Ht; inversion Ht. now exists l.
Qed.

Local Abbreviation col :=
  (collects (Model:=Model) softmax F_dropout apply_chunking_to_forward self
     attention_mask head_mask output_attentions).

(** One returning iteration: the two layer calls, and what it adds to the
    two text tuples. *)
Lemma encoder_body_collects (idx : nat) (v v1 : loop_vars A)
    (g g2 : globals A Model) :
  body idx v g = (Ok v1, g2) ->
  exists vl vout g1 tl lhm tout a,
    nth_error (vision_layers self) idx = Some vl /\
    CLIPEncoderLayer_forward softmax F_dropout vl (Z.of_nat idx)
      (vision_hidden_states v) output_attentions g = (Ok vout, g1) /\
    nth_error vout 0 = Some (Some (vision_hidden_states v1)) /\
    nth_error (text_layer self) idx = Some tl /\
    layer_head_mask head_mask idx = Ok lhm /\
    BertLayer_forward softmax apply_chunking_to_forward tl (Z.of_nat idx)
      (text_hidden_states v) attention_mask lhm output_attentions false g1
    = (Ok tout, g2) /\
    nth_error tout 0 = Some (Some (text_hidden_states v1)) /\
    (output_attentions = true -> nth_error tout 1 = Some a) /\
    (if output_hidden_states
     then exists l, all_text_hidden_states v = Some l /\
            all_text_hidden_states v1
            = Some (l ++ [Some (text_hidden_states v)])
     else all_text_hidden_states v1 = all_text_hidden_states v) /\
    (if output_attentions
     then exists l, all_text_attentions v = Some l /\
            all_text_attentions v1 = Some (l ++ [a])
     else all_text_attentions v1 = all_text_attentions v).
Proof.
  unfold encoder_body. intros Hb.
  apply bind_ok_inv in Hb. destruct Hb as ([avh ath] & g0 & Hhs & Hb).
  assert (g0 = g) by (clear Hb; mstep; reflexivity). subst g0.
  apply bind_ok_inv in Hb. destruct Hb as (vl & g0 & Hvl & Hb).
  apply lift_ok_inv in Hvl. destruct Hvl as [Hvl ->].
  apply bind_ok_inv in Hb. destruct Hb as (vout & g1 & Hv & Hb).
  apply bind_ok_inv in Hb. destruct Hb as (vh' & g0 & Hvh & Hb).
  apply lift_ok_inv in Hvh. destruct Hvh as [Hvh ->].
  apply bind_ok_inv in Hb. destruct Hb as (lhm & g0 & Hlhm & Hb).
  assert (Hlhm' : layer_head_mask head_mask idx = Ok lhm /\ g0 = g1).
  { unfold layer_head_mask. destruct head_mask; mstep; now split. }
  destruct Hlhm' as [Hlhm' ->]. clear Hlhm.
  apply bind_ok_inv in Hb. destruct Hb as (tl & g0 & Htl & Hb).
  apply lift_ok_inv in Htl. destruct Htl as [Htl ->].
  apply bind_ok_inv in Hb. destruct Hb as (tout & g3 & Ht & Hb).
  apply bind_ok_inv in Hb. destruct Hb as (th' & g0 & Hth & Hb).
  apply lift_ok_inv in Hth. destruct Hth as [Hth ->].
  apply bind_ok_inv in Hb. destruct Hb as ([ava ata] & g0 & Hatt & Hb).
  assert (g0 = g3) by (clear Hb; mstep; reflexivity). subst g0.
  apply ret_ok_inv in Hb. destruct Hb as [-> ->].
  cbn [vision_hidden_states text_hidden_states all_text_hidden_states
       all_text_attentions].
  assert (Ha : exists a,
            (output_attentions = true -> nth_error tout 1 = Some a) /\
            (if output_attentions
             then exists l, all_text_attentions v = Some l /\
                    ata = Some (l ++ [a])
             else ata = all_text_attentions v)).
  { destruct output_attentions.
    - apply lift_ok_inv in Hatt. destruct Hatt as [Hatt _].
      apply rbind_ok_inv in Hatt. destruct Hatt as (va & _ & Hatt).
      apply rbind_ok_inv in Hatt. destruct Hatt as (a0 & _ & Hatt).
      apply rbind_ok_inv in Hatt. destruct Hatt as (ta & Hta & Hatt).
      apply rbind_ok_inv in Hatt. destruct Hatt as (b & Hb & Hatt).
      inversion Hatt; subst.
      apply (py_index_nat tout 1) in Hta.
      apply tuple_add_inv in Hb. destruct Hb as (l & Hl & ->).
      exists ta. split; [intros _; exact Hta|]. now exists l.
    - apply ret_ok_inv in Hatt. destruct Hatt as [Hatt _]. inversion Hatt.
      exists None. split; [discriminate | reflexivity]. }
  destruct Ha as (a & Ha1 & Ha2).
  exists vl, vout, g1, tl, lhm, tout, a.
  split; [now apply py_index_nat|]. split; [exact Hv|].
  split; [now apply as_tensor_index|]. split; [now apply py_index_nat|].
  split; [exact Hlhm'|]. split; [exact Ht|].
  split; [now apply as_tensor_index|]. split; [exact Ha1|].
  split; [|exact Ha2].
  destruct output_hidden_states.
  - apply lift_ok_inv in Hhs. destruct Hhs as [Hhs _].
    apply rbind_ok_inv in Hhs. destruct Hhs as (a0 & _ & Hhs).
    apply rbind_ok_inv in Hhs. destruct Hhs as (b & Hb & Hhs).
    inversion Hhs; subst. apply tuple_add_inv in Hb.
    destruct Hb as (l & Hl & ->). now exists l.
  - apply ret_ok_inv in Hhs. destruct Hhs as [Hhs _]. now inversion Hhs.
Qed.

Lemma for_each_collects (k : nat) :
  forall (start : nat) (v v' : loop_vars A) (g g' : globals A Model),
  for_each body (seq start k) v g = (Ok v', g') ->
  exists hs ats,
    col start k (vision_hidden_states v) (text_hidden_states v) g
      (vision_hidden_states v') (text_hidden_states v') g' hs ats /\
    (if output_hidden_states
     then forall l, all_text_hidden_states v = Some l ->
            all_text_hidden_states v' = Some (l ++ map Some hs)
     else all_text_hidden_states v' = all_text_hidden_states v) /\
    (if output_attentions
     then forall l, all_text_attentions v = Some l ->
            all_text_attentions v' = Some (l ++ ats)
     else all_text_attentions v' = all_text_attentions v).
Proof.
  induction k as [|k IH]; intros start v v' g g' Hf.
  - cbn in Hf. apply ret_ok_inv in Hf. destruct Hf as [-> ->].
    exists [], []. split; [constructor|]. split.
    + destruct output_hidden_states; [|reflexivity].
      intros l Hl. now rewrite app_nil_r.
    + destruct output_attentions; [|reflexivity].
      intros l Hl. now rewrite app_nil_r.
  - cbn [seq for_each] in Hf.
    apply bind_ok_inv in Hf. destruct Hf as (v1 & g2 & Hb & Hf).
    apply encoder_body_collects in Hb.
    destruct Hb as (vl & vout & g1 & tl & lhm & tout & a & Hvl & Hv & Hvo &
                    Htl & Hlhm & Ht & Hto & Ha & Hh1 & Ha1).
    apply IH in Hf. destruct Hf as (hs & ats & Hcol & Hh2 & Ha2).
    exists (text_hidden_states v :: hs), (a :: ats). split.
    + eapply col_step; eauto.
    + split.
      * destruct output_hidden_states; [|congruence].
        intros l Hl. destruct Hh1 as (l0 & Hl0 & Hv1).
        rewrite Hl in Hl0. inversion Hl0; subst l0.
        rewrite (Hh2 _ Hv1), <- app_assoc. reflexivity.
      * destruct output_attentions; [|congruence].
        intros l Hl. destruct Ha1 as (l0 & Hl0 & Hv1).
        rewrite Hl in Hl0. inversion Hl0; subst l0.
        rewrite (Ha2 _ Hv1), <- app_assoc. reflexivity.
Qed.

Lemma collects_facts (start k : nat) (v t v' t' : tensor A)
    (g g' : globals A Model) hs ats :
  col start k v t g v' t' g' hs ats ->
  length hs = k /\ length ats = k /\
  nth_error (hs ++ [t']) 0 = Some t /\
  (output_attentions = true -> Forall (fun a => a <> None) ats).
Proof.
  induction 1 as [idx v t g
                 |idx k v t g vl vout v1 g1 tl lhm tout t1 g2 v' t' g' hs a ats
                  Hvl Hv Hvo Htl Hlhm Ht Hto Ha Hcol IH].
  - repeat split. intros _. constructor.
  - destruct IH as (Hl & Hla & _ & Hall).
    cbn [length app nth_error]. repeat split; try congruence.
    intros Hoa. constructor; [|now apply Hall].
    specialize (Ha Hoa). subst output_attentions.
    apply BertLayer_forward_outputs in Ht.
    destruct Ht as (lo & probs & ->). cbn in Ha. inversion Ha. discriminate.
Qed.

(** A returning [UnimoEncoder.forward] ran its layers in alternation and
    yields the final text hidden states, the final vision hidden states,
    then, only if [output_hidden_states], the tuple of the text hidden
    states each text layer was called on followed by the final ones
    ([num_hidden_layers + 1] items, the first the text embeddings), then,
    only if [output_attentions], the tuple of the second items the text
    layers returned, one per layer, none of them [None].  With
    [output_hidden_states] off the attentions therefore sit at index 2;
    nothing of what the vision layers returned beyond the final hidden
    states is in the result. *)
Theorem encoder_output_tuple (vision_embeds text_embeds : tensor A)
    (return_dict : bool) (g g' : globals A Model) (out : list (pyval A)) :
  UnimoEncoder_forward softmax F_dropout apply_chunking_to_forward self
    vision_embeds text_embeds attention_mask head_mask output_attentions
    output_hidden_states return_dict g = (Ok out, g') ->
  exists tN vN hs ats,
    col 0 (vision_num_hidden_layers self) vision_embeds text_embeds g
      vN tN g' hs ats /\
    out = [PTensor tN; PTensor vN]
          ++ (if output_hidden_states
              then [PTuple (map Some hs ++ [Some tN])] else [])
          ++ (if output_attentions then [PTuple ats] else []) /\
    length hs = vision_num_hidden_layers self /\
    length ats = vision_num_hidden_layers self /\
    nth_error (hs ++ [tN]) 0 = Some text_embeds /\
    (output_attentions = true -> Forall (fun a => a <> None) ats).
Proof.
  unfold UnimoEncoder_forward. intros Hf.
  apply bind_ok_inv in Hf. destruct Hf as ([] & g0 & Has & Hf).
  assert (g0 = g).
  { unfold assert in Has. destruct (_ =? _); [|discriminate].
    apply ret_ok_inv in Has. now destruct Has. }
  subst g0. clear Has.
  apply bind_ok_inv in Hf. destruct Hf as (v & g1 & Hloop & Hf).
  apply for_each_collects in Hloop.
  cbn [all_text_hidden_states all_text_attentions text_hidden_states
       vision_hidden_states] in Hloop.
  destruct Hloop as (hs & ats & Hcol & Hh & Ha).
  apply bind_ok_inv in Hf. destruct Hf as ([avh ath] & g2 & Hhs & Hf).
  assert (g2 = g1) by (clear Hf; mstep; reflexivity). subst g2.
  destruct return_dict; cbn [negb] in Hf; [discriminate|].
  apply ret_ok_inv in Hf. destruct Hf as [-> ->].
  destruct (collects_facts _ _ _ _ _ _ _ _ _ _ Hcol) as (Hl & Hla & Hfirst & Hall).
  exists (text_hidden_states v), (vision_hidden_states v), hs, ats.
  split; [exact Hcol|]. split; [|now repeat split].
  unfold not_none. cbn [flat_map app].
  assert (Hath : ath = if output_hidden_states
                       then Some (map Some hs ++ [Some (text_hidden_states v)])
                       else None).
  { destruct output_hidden_states.
    - rewrite (Hh [] eq_refl) in Hhs. cbn [app] in Hhs.
      apply lift_ok_inv in Hhs. destruct Hhs as [Hhs _].
      apply rbind_ok_inv in Hhs. destruct Hhs as (a & _ & Hhs).
      cbn in Hhs. now inversion Hhs.
    - apply ret_ok_inv in Hhs. destruct Hhs as [Hhs _]. inversion Hhs; subst.
      exact Hh. }
  assert (Hata : all_text_attentions v
                 = if output_attentions then Some ats else None).
  { destruct output_attentions; [exact (Ha [] eq_refl) | exact Ha]. }
  rewrite Hath, Hata.
  destruct output_hidden_states, output_attentions; reflexivity.
Qed.

End EncoderOutputs.

(** ** [UnimoModel.fusion_module] and the position embeddings *)

Section Fusion.

Context {A : Type} `{Scalar A} {Model : Type}.

Lemma fusion_module_inv (text_seq vision_seq out : tensor A)
    (g g' : globals A Model) :
  fusion_module text_seq vision_seq g = (Ok out, g') ->
  g' = g /\
  exists cls e,
    (c <-- index_first_token vision_seq ;; unsqueeze c 1)%res = Ok cls /\
    embedding g = Some e /\ tadd cls e = Ok out.
Proof.
  unfold fusion_module. intros Hf.
  apply bind_ok_inv in Hf. destruct Hf as (cls & g0 & Hc & Hf).
  apply lift_ok_inv in Hc. destruct Hc as [Hc ->].
  apply bind_ok_inv in Hf. destruct Hf as (g1 & g0 & Hg & Hf).
  unfold getg in Hg. inversion Hg; subst g1 g0; clear Hg.
  apply bind_ok_inv in Hf. destruct Hf as (e & g0 & He & Hf).
  apply lift_ok_inv in He. destruct He as [He ->].
  apply lift_ok_inv in Hf. destruct Hf as [Hf ->].
  split; [reflexivity|]. exists cls, e. split; [exact Hc|].
  destruct (embedding g) as [e'|]; [|discriminate].
  inversion He; subst. now split.
Qed.

(** [fusion_module] does not read [text_seq]: it returns the first vision
    token of every batch element plus [BertEmbeddings.embedding], the
    position embeddings of the last text pass, broadcast over the batch
    when these have batch size one.  The class state stays as it is.
    Without a stored embedding the call does not return. *)
Theorem fusion_module_entries (text_seq vision_seq e : tensor A)
    (bs eb len1 len2 hid : nat) (g : globals A Model) :
  shape vision_seq = [bs; len2; hid] -> 0 < len2 ->
  (embedding g = Some e -> shape e = [eb; len1; hid] ->
   eb = 1 \/ eb = bs ->
   exists out,
     fusion_module text_seq vision_seq g = (Ok out, g) /\
     shape out = [bs; len1; hid] /\
     forall b i k, b < bs -> i < len1 -> k < hid ->
       get out [b; i; k]
       = sadd (get vision_seq [b; 0; k])
              (get e [if eb =? 1 then 0 else b; i; k])) /\
  (embedding g = None ->
   fusion_module text_seq vision_seq g = (Raise TypeError, g)).
Proof.
  intros Hv Hlen.
  assert (Hsel : index_first_token vision_seq
                 = Ok (build [bs; hid]
                         (fun idx => get vision_seq (insert_at 1 0 idx)))).
  { unfold index_first_token, select, dim. rewrite Hv.
    cbn [length nth Nat.leb].
    destruct (Nat.ltb_spec 0 len2); [|lia]. reflexivity. }
  split.
  - intros He Hes Heb.
    unfold fusion_module, bind, lift, getg. rewrite Hsel.
    cbn [rbind]. unfold unsqueeze, dim. cbn [shape build length].
    cbn [Nat.leb firstn skipn app]. rewrite He.
    unfold tadd, broadcast2. cbn [shape]. rewrite Hes.
    unfold broadcast_shapes. cbn [rev app bshape_rev].
    rewrite bdim_refl, bdim_1_l.
    assert (Hbd : bdim bs eb = Some bs).
    { destruct Heb as [-> | ->]; [apply bdim_1_r | apply bdim_refl]. }
    rewrite Hbd. cbn [option_map rev app].
    eexists. split; [reflexivity|]. split; [reflexivity|].
    intros b i k Hb Hi Hk.
    rewrite get_build by (repeat constructor; assumption).
    unfold bidx. cbn [length Nat.sub skipn map2].
    cbn [Nat.eqb]. rewrite (bpick hid k Hk), (bpick len1 i Hi).
    f_equal.
    + transitivity (get (build [bs; hid]
                           (fun idx => get vision_seq (insert_at 1 0 idx)))
                        [b; k]).
      * apply get_flat; [reflexivity|]. cbn.
        rewrite (bpick bs b Hb). lia.
      * rewrite get_build by (repeat constructor; assumption). reflexivity.
  - intros He.
    unfold fusion_module, bind, lift, getg. rewrite Hsel.
    cbn [rbind]. unfold unsqueeze, dim. cbn [shape build length].
    cbn [Nat.leb firstn skipn app]. rewrite He. reflexivity.
Qed.

End Fusion.

Section ModelEmbedding.

Context {A : Type} `{Scalar A} {Model : Type}.

Variable softmax : tensor A -> Z -> result (tensor A).
Variable F_dropout : tensor A -> A -> bool -> result (tensor A).
Variable apply_chunking_to_forward :
  (tensor A -> option (tensor A) -> result (tensor A)) ->
  nat -> nat -> tensor A -> option (tensor A) -> result (tensor A).

(** A returning [BertEmbeddings.forward] with absolute position embeddings
    has stored these in [BertEmbeddings.embedding]; with another type it
    leaves the attribute alone. *)
Lemma BertEmbeddings_forward_effect (self : BertEmbeddings A)
    (input_ids out : tensor A) (token_type_ids position_ids : option (tensor A))
    (g g' : globals A Model) :
  BertEmbeddings_forward self input_ids token_type_ids position_ids g
  = (Ok out, g') ->
  if String.eqb (position_embedding_type self) "absolute"
  then exists ids pe,
         used_position_ids self input_ids position_ids = Ok ids /\
         position_embeddings self ids = Ok pe /\
         g' = set_embedding g (Some pe)
  else g' = g.
Proof.
  unfold BertEmbeddings_forward. intros Hf.
  apply bind_ok_inv in Hf. destruct Hf as (sl & g0 & Hsl & Hf).
  apply lift_ok_inv in Hsl. destruct Hsl as [Hsl ->].
  apply bind_ok_inv in Hf. destruct Hf as (ids & g0 & Hids & Hf).
  assert (Hids' : used_position_ids self input_ids position_ids = Ok ids
                  /\ g0 = g).
  { unfold used_position_ids. destruct position_ids.
    - apply ret_ok_inv in Hids. destruct Hids as [-> ->]. now split.
    - apply lift_ok_inv in Hids. destruct Hids as [Hids ->].
      rewrite Hsl. now split. }
  destruct Hids' as [Hu ->]. clear Hids.
  apply bind_ok_inv in Hf. destruct Hf as (ie & g0 & Hie & Hf).
  apply lift_ok_inv in Hie. destruct Hie as [_ ->].
  apply bind_ok_inv in Hf. destruct Hf as (tte & g0 & Htte & Hf).
  apply lift_ok_inv in Htte. destruct Htte as [_ ->].
  apply bind_ok_inv in Hf. destruct Hf as (em & g0 & Hem & Hf).
  apply lift_ok_inv in Hem. destruct Hem as [_ ->].
  apply bind_ok_inv in Hf. destruct Hf as (em' & g1 & Hpos & Hf).
  apply bind_ok_inv in Hf. destruct Hf as (ln & g2 & Hln & Hf).
  apply lift_ok_inv in Hln. destruct Hln as [_ ->].
  apply lift_ok_inv in Hf. destruct Hf as [_ ->].
  destruct (String.eqb (position_embedding_type self) "absolute").
  - apply bind_ok_inv in Hpos. destruct Hpos as (pe & g0 & Hpe & Hpos).
    apply lift_ok_inv in Hpe. destruct Hpe as [Hpe ->].
    apply bind_ok_inv in Hpos. destruct Hpos as (g3 & g0 & Hg & Hpos).
    unfold getg in Hg. inversion Hg; subst g3 g0; clear Hg.
    apply bind_ok_inv in Hpos. destruct Hpos as ([] & g0 & Hput & Hpos).
    unfold putg in Hput. inversion Hput; subst g0; clear Hput.
    apply lift_ok_inv in Hpos. destruct Hpos as [_ ->].
    now exists ids, pe.
  - apply ret_ok_inv in Hpos. now destruct Hpos as [_ ->].
Qed.

Lemma appended_embedding (g g' : globals A Model) vs ts :
  appended g g' vs ts -> embedding g' = embedding g.
Proof. now intros ((_ & _ & He & _) & _). Qed.

(** The mask [UnimoModel.forward] extends: the one given, or all ones. *)
Lemma forward_mask_default (attention_mask : option (tensor A))
    (bs sl : nat) :
  match attention_mask with Some m => m | None => ones [bs; sl] end
  = used_attention_mask attention_mask bs sl.
Proof. reflexivity. Qed.

(** A returning [UnimoModel.forward] has embedded the text, run the encoder
    on the vision and text embeddings, and returns as its second item the
    first token of the encoder's vision output (its item 1, not the text
    output), unsqueezed, plus the position embeddings [e] that
    [BertEmbeddings.embedding] holds after the call: with absolute position
    embeddings those of this very call, which the call leaves there; with
    another type those an earlier call has left there, so that the call
    cannot return while the attribute is [None]. *)
Theorem model_forward_fuses_position_embeddings (self : UnimoModel A)
    (input_ids : tensor A)
    (attention_mask token_type_ids position_ids head_mask : option (tensor A))
    (pixel_values : tensor A) (aux_values rcnn_values : option (list (tensor A)))
    (output_attentions output_hidden_states return_dict : bool)
    (g g' : globals A Model) (out : list (tensor A)) :
  UnimoModel_forward softmax F_dropout apply_chunking_to_forward self input_ids
    attention_mask token_type_ids position_ids head_mask pixel_values
    aux_values rcnn_values output_attentions output_hidden_states return_dict g
  = (Ok out, g') ->
  exists bs sl vision_embeds mask text_embeds g0 encoder_outputs
         text_output vision_output cls e vision_seq_in_text cat_logits,
    size2 input_ids = Ok (bs, sl) /\
    (x <-- vision_embeddings self pixel_values aux_values rcnn_values ;;
     vision_pre_layrnorm self x)%res = Ok vision_embeds /\
    get_extended_attention_mask (used_attention_mask attention_mask bs sl)
    = Ok mask /\
    BertEmbeddings_forward (text_embeddings self) input_ids token_type_ids
      position_ids g = (Ok text_embeds, g0) /\
    UnimoEncoder_forward softmax F_dropout apply_chunking_to_forward
      (encoder self) vision_embeds text_embeds (Some mask) None
      output_attentions output_hidden_states false g0
    = (Ok encoder_outputs, g') /\
    nth_error encoder_outputs 0 = Some (PTensor text_output) /\
    nth_error encoder_outputs 1 = Some (PTensor vision_output) /\
    (c <-- index_first_token vision_output ;; unsqueeze c 1)%res = Ok cls /\
    embedding g' = Some e /\
    tadd cls e = Ok vision_seq_in_text /\
    out = [text_output; vision_seq_in_text; cat_logits] /\
    if String.eqb (position_embedding_type (text_embeddings self)) "absolute"
    then exists ids,
           used_position_ids (text_embeddings self) input_ids position_ids
           = Ok ids /\
           position_embeddings (text_embeddings self) ids = Ok e
    else embedding g = Some e.
Proof.
  unfold UnimoModel_forward. intros Hf.
  apply bind_ok_inv in Hf. destruct Hf as (ve & g0 & Hve & Hf).
  apply lift_ok_inv in Hve. destruct Hve as [Hve ->].
  apply bind_ok_inv in Hf. destruct Hf as ([bs sl] & g0 & Hsz & Hf).
  apply lift_ok_inv in Hsz. destruct Hsz as [Hsz ->].
  apply bind_ok_inv in Hf. destruct Hf as ([] & g0 & Htt & Hf).
  assert (g0 = g) by (destruct token_type_ids; mstep; reflexivity).
  subst g0. clear Htt.
  apply bind_ok_inv in Hf. destruct Hf as (em & g0 & Hem & Hf).
  apply lift_ok_inv in Hem. destruct Hem as [Hem ->].
  rewrite forward_mask_default in Hem.
  apply bind_ok_inv in Hf. destruct Hf as (te & g0 & Hte & Hf).
  pose proof (BertEmbeddings_forward_effect _ _ _ _ _ _ _ Hte) as Heff.
  apply bind_ok_inv in Hf. destruct Hf as (eo & g1 & Henc & Hf).
  pose proof Henc as Hrun.
  apply UnimoEncoder_forward_inv in Henc.
  destruct Henc as (_ & _ & vN & tN & Halt & _ & _).
  apply alternates_appended in Halt.
  destruct Halt as (vs & ts & Happ & _ & _).
  apply appended_embedding in Happ.
  apply bind_ok_inv in Hf. destruct Hf as (to & g2 & Hto & Hf).
  apply lift_ok_inv in Hto. destruct Hto as [Hto ->].
  apply bind_ok_inv in Hf. destruct Hf as (vo & g2 & Hvo & Hf).
  apply lift_ok_inv in Hvo. destruct Hvo as [Hvo ->].
  cbn [nth String.eqb Ascii.eqb Bool.eqb andb] in Hf.
  apply bind_ok_inv in Hf. destruct Hf as (vsit & g2 & Hfu & Hf).
  apply bind_ok_inv in Hf. destruct Hf as (cl & g3 & Hcl & Hf).
  apply lift_ok_inv in Hcl. destruct Hcl as [Hcl ->].
  apply ret_ok_inv in Hf. destruct Hf as [-> ->].
  apply fusion_module_inv in Hfu.
  destruct Hfu as (-> & cls & e & Hcls & He & Hadd).
  exists bs, sl, ve, em, te, g0, eo, to, vo, cls, e, vsit, cl.
  split; [exact Hsz|]. split; [exact Hve|]. split; [exact Hem|].
  split; [exact Hte|]. split; [exact Hrun|].
  split; [now apply (pyval_tensor_index eo 0)|].
  split; [now apply (pyval_tensor_index eo 1)|].
  split; [exact Hcls|]. split; [exact He|]. split; [exact Hadd|].
  split; [reflexivity|].
  rewrite Happ in He.
  destruct (String.eqb (position_embedding_type (text_embeddings self))
              "absolute").
  - destruct Heff as (ids & pe & Hids & Hpe & ->).
    cbn [embedding set_embedding] in He. inversion He; subst.
    now exists ids.
  - now subst g0.
Qed.

End ModelEmbedding.

(** ** The theorems on the concrete inputs *)

(** The head split of the example hidden states. *)
Lemma CLIPAttention__shape_witness :
  exists out,
    CLIPAttention__shape ex_CLIPAttention ex_hidden 2 1 = Ok out /\
    shape out = [1; 1; 2; 2] /\
    get out [0; 0; 1; 0] = get ex_hidden [0; 1; 0].
Proof.
  destruct (CLIPAttention__shape_entries ex_CLIPAttention ex_hidden 1 2 eq_refl)
    as (out & Hout & Hs & _ & He).
  exists out. split; [exact Hout|]. split; [exact Hs|].
  apply (He 0 0 1 0); cbn; lia.
Defined.

(** The two head splits agree on the example hidden states. *)
Lemma head_splits_witness :
  CLIPAttention__shape ex_CLIPAttention ex_hidden 2 1
  = transpose_for_scores ex_BertSelfAttention ex_hidden /\
  CLIPAttention__shape ex_CLIPAttention ex_hidden (-1) 1
  = transpose_for_scores ex_BertSelfAttention ex_hidden.
Proof.
  destruct (head_splits_agree ex_CLIPAttention ex_BertSelfAttention ex_hidden
              1 2 eq_refl eq_refl eq_refl) as (H1 & _ & H2 & _).
  split; [exact H1|]. apply H2. cbn. lia.
Defined.

Lemma ex_cal_attention_returns :
  ShareKey_cal_attention ex_ShareKey ex_query 9 "vision" 3
  = Ok (mkT [1; 2; 2] [15; 25; 41; 51]%Z).
Proof. vm_compute. reflexivity. Qed.

(** The scores of the example query are one 2 x 2 matrix. *)
Lemma cal_attention_square_witness :
  exists s, shape (mkT [1; 2; 2] [15; 25; 41; 51]%Z) = [1; s; s].
Proof.
  destruct (cal_attention_result_is_square ex_ShareKey ex_query _ 9 "vision"
              ex_cal_attention_returns) as (s & Hs & _).
  exists s. exact Hs.
Defined.

(** A text query of length two against the biases of side three. *)
Lemma cal_attention_lengths_witness :
  ShareKey_cal_attention ex_ShareKey_long ex_query 9 "text" 3
  = Raise RuntimeError.
Proof.
  apply (cal_attention_raises_unless_lengths_fit ex_ShareKey_long ex_query
           ex_key ex_bias3 9 "text" 1 2 3);
    try reflexivity; try (cbn; lia).
  eexists. reflexivity.
Defined.

(** A vision query of length one against the biases of side two. *)
Lemma cal_attention_length_one_witness :
  exists W,
    ShareKey_cal_attention ex_ShareKey (mkT [1; 1; 2] [1; 2]%Z) 9 "vision" 3
    = Ok W /\
    shape W = [1; 2; 2].
Proof.
  destruct (cal_attention_broadcasts_length_one ex_ShareKey
              (mkT [1; 1; 2] [1; 2]%Z) ex_key ex_bias2 9 "vision" 1 1 2)
    as [Hone _]; try reflexivity; try (cbn; lia).
  - eexists. reflexivity.
  - destruct (Hone eq_refl) as (W & HW & Hs & _).
    exists W. split; [exact HW | exact Hs].
Defined.

Lemma ex_init_returns :
  ShareKey_init (Model:=unit) ex_draw ex_config 2 3 12 ex_globals_fresh
  = (Ok tt, snd (ShareKey_init (Model:=unit) ex_draw ex_config 2 3 12 ex_globals_fresh)).
Proof. vm_compute. reflexivity. Qed.

(** After the example initialisation layer 9 scores the example query and
    layer 12 does not exist. *)
Lemma init_then_cal_attention_witness :
  (exists W,
     ShareKey_cal_attention
       (ShareKey (snd (ShareKey_init (Model:=unit) ex_draw ex_config 2 3 12
                         ex_globals_fresh)))
       ex_query 9 "vision" 3 = Ok W /\
     shape W = [1; 2; 2]) /\
  ShareKey_cal_attention
    (ShareKey (snd (ShareKey_init (Model:=unit) ex_draw ex_config 2 3 12
                      ex_globals_fresh)))
    ex_query 12 "vision" 3 = Raise IndexError.
Proof.
  destruct (init_then_cal_attention unit ex_draw ex_config 2 3 12
              ex_globals_fresh _ ex_query "vision" 1 ex_init_returns
              ltac:(cbn; lia) ltac:(lia) eq_refl eq_refl)
    as [Hok Herr].
  split.
  - destruct (Hok 9) as (W & HW & Hs & _); [lia|].
    exists W. split; [exact HW | exact Hs].
  - apply Herr. lia.
Defined.

(** A snapshot of the twelve example layers. *)
Lemma update_old_key_and_bias_witness :
  fst (AttentionReg_update_old_key_and_bias 12 ex_globals) = Ok tt /\
  old_key (AttentionReg (snd (AttentionReg_update_old_key_and_bias 12
                                ex_globals)))
  = Some (repeat ex_key 12).
Proof.
  destruct (update_old_key_and_bias_outcome unit 12 ex_globals
              (repeat ex_key 12) (repeat ex_bias2 12) (repeat ex_bias2 12)
              eq_refl eq_refl eq_refl eq_refl eq_refl)
    as (Hr & Hk & _).
  split; [exact Hr | exact Hk].
Defined.

(** Snapshot and exchange on the example state leave [ShareKey] as it is. *)
Lemma snapshot_then_change_witness :
  exists g',
    bind (AttentionReg_update_old_key_and_bias 12)
         (fun _ => @AttentionReg_change_ShareKey Z unit) ex_globals
    = (Ok tt, g') /\
    ShareKey g' = ShareKey ex_globals.
Proof.
  destruct (snapshot_then_change_ShareKey unit 12 ex_globals
              (repeat ex_key 12) (repeat ex_bias2 12) (repeat ex_bias2 12)
              eq_refl eq_refl eq_refl eq_refl eq_refl)
    as (g' & Hrun & _ & _ & _ & _ & _ & _ & Hsame).
  - cbn. lia.
  - exists g'. split; [exact Hrun|]. apply Hsame. reflexivity.
Defined.

(** A snapshot before the initialisation. *)
Lemma update_before_init_witness :
  fst (AttentionReg_update_old_key_and_bias 12 ex_globals_fresh)
  = Raise TypeError /\
  old_key (AttentionReg (snd (AttentionReg_update_old_key_and_bias 12
                                ex_globals_fresh)))
  = Some [].
Proof.
  destruct (update_old_key_and_bias_before_init unit 12 ex_globals_fresh
              eq_refl) as (Hr & Hk & _).
  - lia.
  - split; [exact Hr | exact Hk].
Defined.

Lemma ex_encoder_returns_all :
  exists out g',
    UnimoEncoder_forward ex_softmax ex_F_dropout ex_chunking ex_encoder
      ex_hidden ex_hidden (Some ex_mask) None true true false ex_globals
    = (Ok out, g').
Proof. eexists. eexists. vm_compute. reflexivity. Qed.

(** The example pass with both flags on returns thirteen hidden states and
    twelve attentions. *)
Lemma encoder_output_tuple_witness :
  exists tN vN hs ats,
    fst (UnimoEncoder_forward ex_softmax ex_F_dropout ex_chunking ex_encoder
           ex_hidden ex_hidden (Some ex_mask) None true true false ex_globals)
    = Ok [PTensor tN; PTensor vN; PTuple (map Some hs ++ [Some tN]);
          PTuple ats] /\
    length hs = 12 /\ length ats = 12.
Proof.
  destruct ex_encoder_returns_all as (out & g' & Hrun).
  destruct (encoder_output_tuple ex_softmax ex_F_dropout ex_chunking
              ex_encoder (Some ex_mask) None true true ex_hidden ex_hidden
              false ex_globals g' out Hrun)
    as (tN & vN & hs & ats & _ & Hout & Hl & Hla & _).
  exists tN, vN, hs, ats.
  rewrite Hrun. unfold fst. rewrite Hout.
  split; [reflexivity|]. split; assumption.
Defined.

(** The fusion of the example outputs with stored position embeddings. *)
Lemma fusion_module_witness :
  exists out,
    fusion_module ex_hidden ex_hidden ex_globals_embedded
    = (Ok out, ex_globals_embedded) /\
    shape out = [1; 2; 2] /\
    get out [0; 1; 0]
    = Z.add (get ex_hidden [0; 0; 0]) (get ex_position_embeddings [0; 1; 0]).
Proof.
  destruct (fusion_module_entries ex_hidden ex_hidden ex_position_embeddings
              1 1 2 2 2 ex_globals_embedded eq_refl) as [Hsome _]; [lia|].
  destruct (Hsome eq_refl eq_refl (or_introl eq_refl)) as (out & Hrun & Hs & He).
  exists out. split; [exact Hrun|]. split; [exact Hs|].
  apply (He 0 1 0); lia.
Defined.

(** The example call leaves its position embeddings in the class state. *)
Lemma model_forward_embedding_witness :
  exists e ids,
    embedding (snd (UnimoModel_forward ex_softmax ex_F_dropout ex_chunking
                      ex_model ex_input_ids None (Some ex_token_type_ids)
                      None None ex_hidden None None false false false
                      ex_globals)) = Some e /\
    position_embeddings ex_BertEmbeddings ids = Ok e.
Proof.
  destruct (model_forward_fuses_position_embeddings _ _ _ _ _ _ _ _ _ _ _ _ _
              _ _ _ _ _ ex_model_returns)
    as (bs & sl & ve & em & te & g0 & eo & to & vo & cls & e & vsit & cl &
        _ & _ & _ & _ & _ & _ & _ & _ & He & _ & _ & (ids & _ & Hpe)).
  exists e, ids. split; [exact He | exact Hpe].
Defined.
